(** * Enclosure controller firmware (src/src/main.cpp): a shallow embedding

    The firmware is one cooperative control loop over global variables.  The
    model keeps the globals of main.cpp in one record [State], together with
    the peripherals the loop drives (the two LEDC duty registers, the buzzer
    pin, the EEPROM buffer and the millisecond clock).  Every statement of
    [loop()] is a command [Cmd]: a function from the state to the next state
    and the list of peripheral events it produced, in program order. *)

From Stdlib Require Import ZArith List String Bool Lia Floats Uint63.
Import ListNotations.
Open Scope string_scope.
Open Scope list_scope.
Open Scope Z_scope.

(** ** Numeric types

    [unsigned long] and [long] are 32 bits wide on the ESP32.  Unsigned
    values are integers reduced modulo [2^32]; [float] values are embedded in
    binary64 (every binary32 value, NaN and the infinities included, is a
    binary64 value, and the comparison [currentTemp >= 130.0] is carried out
    in [double] by the usual arithmetic conversions). *)

Definition U32 : Z := 2 ^ 32.
Definition wrap32 (x : Z) : Z := x mod U32.

(** [currentTemp >= 130.0] *)
Definition ge130 (t : float) : bool := PrimFloat.leb 130%float t.
(** [currentTemp < 130.0] *)
Definition lt130 (t : float) : bool := PrimFloat.ltb t 130%float.

(** Conversion of an [int] to floating point for [hum > limit].  The
    source converts to binary32, which is exact up to 2^24 in magnitude and
    there agrees with the binary64 value taken here (the humidity limits are
    30..99 once set from the menu, 65 by default). *)
Definition float_of_int (n : Z) : float :=
  if n <? 0 then PrimFloat.opp (PrimFloat.of_uint63 (Uint63.of_Z (- n)))
  else PrimFloat.of_uint63 (Uint63.of_Z n).

(** [hum > limit] with [hum] a float and [limit] an int. *)
Definition gt_int (hum : float) (limit : Z) : bool :=
  PrimFloat.ltb (float_of_int limit) hum.

(** [String::indexOf]: position of the first occurrence, or -1. *)
Definition indexOf (needle hay : string) : Z :=
  match String.index 0 needle hay with
  | Some n => Z.of_nat n
  | None => -1
  end.

(** ** Pin and channel constants (main.cpp:64-79) *)

Definition HEATER1_PIN : Z := 12.
Definition HEATER2_PIN : Z := 13.
Definition HEATER1_CH : Z := 0.
Definition HEATER2_CH : Z := 1.
Definition EEPROM_SIZE : Z := 128.
Definition MAX_MANUAL_RUNTIME_SECONDS : Z := 201600.
Definition LOW : bool := false.
Definition HIGH : bool := true.

(** ** The data model (main.cpp:86-131)

    [output] and [setpoint] are [double] in the source; [output] only ever
    receives the [int16_t] result of [FastPID::step] and [setpoint] only the
    initial 90.0 or an [int] from the temperature-set screen, so both are
    integers here.  The [PID *pid] member is allocated in [setup()] and never
    stepped by [loop()]; it is left out. *)

Record Zone : Type := mkZone {
  name : string;
  currentTemp : float;
  targetTemp : float;
  timerSeconds : Z;
  timerStart : Z;
  heaterOn : bool;
  useTimer : bool;
  manualStart : Z;
  heaterPin : Z;
  input : float;
  output : Z;
  setpoint : Z }.

(** Field updates. *)
Definition set_currentTemp (v : float) (z : Zone) : Zone :=
  mkZone
   (name z) v (targetTemp z) (timerSeconds z) (timerStart z) (heaterOn z) (useTimer z)
    (manualStart z) (heaterPin z) (input z) (output z) (setpoint z).
Definition set_timerSeconds (v : Z) (z : Zone) : Zone :=
  mkZone
   (name z) (currentTemp z) (targetTemp z) v (timerStart z) (heaterOn z) (useTimer z)
    (manualStart z) (heaterPin z) (input z) (output z) (setpoint z).
Definition set_timerStart (v : Z) (z : Zone) : Zone :=
  mkZone
   (name z) (currentTemp z) (targetTemp z) (timerSeconds z) v (heaterOn z) (useTimer z)
    (manualStart z) (heaterPin z) (input z) (output z) (setpoint z).
Definition set_heaterOn (v : bool) (z : Zone) : Zone :=
  mkZone
   (name z) (currentTemp z) (targetTemp z) (timerSeconds z) (timerStart z) v (useTimer z)
    (manualStart z) (heaterPin z) (input z) (output z) (setpoint z).
Definition set_useTimer (v : bool) (z : Zone) : Zone :=
  mkZone
   (name z) (currentTemp z) (targetTemp z) (timerSeconds z) (timerStart z) (heaterOn z) v
    (manualStart z) (heaterPin z) (input z) (output z) (setpoint z).
Definition set_input (v : float) (z : Zone) : Zone :=
  mkZone
   (name z) (currentTemp z) (targetTemp z) (timerSeconds z) (timerStart z) (heaterOn z)
    (useTimer z) (manualStart z) (heaterPin z) v (output z) (setpoint z).
Definition set_output (v : Z) (z : Zone) : Zone :=
  mkZone
   (name z) (currentTemp z) (targetTemp z) (timerSeconds z) (timerStart z) (heaterOn z)
    (useTimer z) (manualStart z) (heaterPin z) (input z) v (setpoint z).
Definition set_setpoint (v : Z) (z : Zone) : Zone :=
  mkZone
   (name z) (currentTemp z) (targetTemp z) (timerSeconds z) (timerStart z) (heaterOn z)
    (useTimer z) (manualStart z) (heaterPin z) (input z) (output z) v.

(** The globals of main.cpp in their order of declaration, then the
    peripherals.  [fastPID1] and [fastPID2] stand for the two FastPID
    objects: the list of the [(input, setpoint)] pairs a controller was
    stepped with, latest first.  [clock] is the uptime in milliseconds
    ([millis()] reads it modulo 2^32), [ledc0] and [ledc1] the duty last
    written to the two heater channels, [buzzer_pin] the level of the buzzer
    pin, [eeprom] the RAM buffer of the EEPROM library and [flash] what the
    last [EEPROM.commit()] stored. *)
Record State : Type := mkState {
  lastEncoderPos : Z;
  encoderButtonPressed : bool;
  backButtonPressed : bool;
  autoShutoffEnabled : bool;
  beepOnPush : bool;
  screenIndex : Z;
  mainMenuIndex : Z;
  settingsMenuIndex : Z;
  filamentTemp : float;
  filamentTemp2 : float;
  humidityLimitF1 : Z;
  humidityAlarmF1 : bool;
  humidityLimitF2 : Z;
  humidityAlarmF2 : bool;
  enclosure1 : Zone;
  humidityLimit1 : Z;
  humidityAlarm1 : bool;
  enclosure2 : Zone;
  humidityLimit2 : Z;
  humidityAlarm2 : bool;
  fastPID1 : list (float * Z);
  fastPID2 : list (float * Z);
  tuning : bool;
  lastInteraction : Z;
  lastScreenSwitch : Z;
  inIdleMode : bool;
  buzzerLocked : bool;
  clock : Z;
  ledc0 : Z;
  ledc1 : Z;
  buzzer_pin : bool;
  eeprom : Z -> Z;
  flash : Z -> Z }.

Definition set_lastEncoderPos (v : Z) (s : State) : State :=
  mkState
   v (encoderButtonPressed s) (backButtonPressed s) (autoShutoffEnabled s) (beepOnPush s)
    (screenIndex s) (mainMenuIndex s) (settingsMenuIndex s) (filamentTemp s)
    (filamentTemp2 s) (humidityLimitF1 s) (humidityAlarmF1 s) (humidityLimitF2 s)
    (humidityAlarmF2 s) (enclosure1 s) (humidityLimit1 s) (humidityAlarm1 s) (enclosure2 s)
    (humidityLimit2 s) (humidityAlarm2 s) (fastPID1 s) (fastPID2 s) (tuning s)
    (lastInteraction s) (lastScreenSwitch s) (inIdleMode s) (buzzerLocked s) (clock s)
    (ledc0 s) (ledc1 s) (buzzer_pin s) (eeprom s) (flash s).
Definition set_encoderButtonPressed (v : bool) (s : State) : State :=
  mkState
   (lastEncoderPos s) v (backButtonPressed s) (autoShutoffEnabled s) (beepOnPush s)
    (screenIndex s) (mainMenuIndex s) (settingsMenuIndex s) (filamentTemp s)
    (filamentTemp2 s) (humidityLimitF1 s) (humidityAlarmF1 s) (humidityLimitF2 s)
    (humidityAlarmF2 s) (enclosure1 s) (humidityLimit1 s) (humidityAlarm1 s) (enclosure2 s)
    (humidityLimit2 s) (humidityAlarm2 s) (fastPID1 s) (fastPID2 s) (tuning s)
    (lastInteraction s) (lastScreenSwitch s) (inIdleMode s) (buzzerLocked s) (clock s)
    (ledc0 s) (ledc1 s) (buzzer_pin s) (eeprom s) (flash s).
Definition set_backButtonPressed (v : bool) (s : State) : State :=
  mkState
   (lastEncoderPos s) (encoderButtonPressed s) v (autoShutoffEnabled s) (beepOnPush s)
    (screenIndex s) (mainMenuIndex s) (settingsMenuIndex s) (filamentTemp s)
    (filamentTemp2 s) (humidityLimitF1 s) (humidityAlarmF1 s) (humidityLimitF2 s)
    (humidityAlarmF2 s) (enclosure1 s) (humidityLimit1 s) (humidityAlarm1 s) (enclosure2 s)
    (humidityLimit2 s) (humidityAlarm2 s) (fastPID1 s) (fastPID2 s) (tuning s)
    (lastInteraction s) (lastScreenSwitch s) (inIdleMode s) (buzzerLocked s) (clock s)
    (ledc0 s) (ledc1 s) (buzzer_pin s) (eeprom s) (flash s).
Definition set_autoShutoffEnabled (v : bool) (s : State) : State :=
  mkState
   (lastEncoderPos s) (encoderButtonPressed s) (backButtonPressed s) v (beepOnPush s)
    (screenIndex s) (mainMenuIndex s) (settingsMenuIndex s) (filamentTemp s)
    (filamentTemp2 s) (humidityLimitF1 s) (humidityAlarmF1 s) (humidityLimitF2 s)
    (humidityAlarmF2 s) (enclosure1 s) (humidityLimit1 s) (humidityAlarm1 s) (enclosure2 s)
    (humidityLimit2 s) (humidityAlarm2 s) (fastPID1 s) (fastPID2 s) (tuning s)
    (lastInteraction s) (lastScreenSwitch s) (inIdleMode s) (buzzerLocked s) (clock s)
    (ledc0 s) (ledc1 s) (buzzer_pin s) (eeprom s) (flash s).
Definition set_beepOnPush (v : bool) (s : State) : State :=
  mkState
   (lastEncoderPos s) (encoderButtonPressed s) (backButtonPressed s)
    (autoShutoffEnabled s) v (screenIndex s) (mainMenuIndex s) (settingsMenuIndex s)
    (filamentTemp s) (filamentTemp2 s) (humidityLimitF1 s) (humidityAlarmF1 s)
    (humidityLimitF2 s) (humidityAlarmF2 s) (enclosure1 s) (humidityLimit1 s)
    (humidityAlarm1 s) (enclosure2 s) (humidityLimit2 s) (humidityAlarm2 s) (fastPID1 s)
    (fastPID2 s) (tuning s) (lastInteraction s) (lastScreenSwitch s) (inIdleMode s)
    (buzzerLocked s) (clock s) (ledc0 s) (ledc1 s) (buzzer_pin s) (eeprom s) (flash s).
Definition set_screenIndex (v : Z) (s : State) : State :=
  mkState
   (lastEncoderPos s) (encoderButtonPressed s) (backButtonPressed s) (autoShutoffEnabled s)
    (beepOnPush s) v (mainMenuIndex s) (settingsMenuIndex s) (filamentTemp s)
    (filamentTemp2 s) (humidityLimitF1 s) (humidityAlarmF1 s) (humidityLimitF2 s)
    (humidityAlarmF2 s) (enclosure1 s) (humidityLimit1 s) (humidityAlarm1 s) (enclosure2 s)
    (humidityLimit2 s) (humidityAlarm2 s) (fastPID1 s) (fastPID2 s) (tuning s)
    (lastInteraction s) (lastScreenSwitch s) (inIdleMode s) (buzzerLocked s) (clock s)
    (ledc0 s) (ledc1 s) (buzzer_pin s) (eeprom s) (flash s).
Definition set_mainMenuIndex (v : Z) (s : State) : State :=
  mkState
   (lastEncoderPos s) (encoderButtonPressed s) (backButtonPressed s) (autoShutoffEnabled s)
    (beepOnPush s) (screenIndex s) v (settingsMenuIndex s) (filamentTemp s)
    (filamentTemp2 s) (humidityLimitF1 s) (humidityAlarmF1 s) (humidityLimitF2 s)
    (humidityAlarmF2 s) (enclosure1 s) (humidityLimit1 s) (humidityAlarm1 s) (enclosure2 s)
    (humidityLimit2 s) (humidityAlarm2 s) (fastPID1 s) (fastPID2 s) (tuning s)
    (lastInteraction s) (lastScreenSwitch s) (inIdleMode s) (buzzerLocked s) (clock s)
    (ledc0 s) (ledc1 s) (buzzer_pin s) (eeprom s) (flash s).
Definition set_settingsMenuIndex (v : Z) (s : State) : State :=
  mkState
   (lastEncoderPos s) (encoderButtonPressed s) (backButtonPressed s) (autoShutoffEnabled s)
    (beepOnPush s) (screenIndex s) (mainMenuIndex s) v (filamentTemp s) (filamentTemp2 s)
    (humidityLimitF1 s) (humidityAlarmF1 s) (humidityLimitF2 s) (humidityAlarmF2 s)
    (enclosure1 s) (humidityLimit1 s) (humidityAlarm1 s) (enclosure2 s) (humidityLimit2 s)
    (humidityAlarm2 s) (fastPID1 s) (fastPID2 s) (tuning s) (lastInteraction s)
    (lastScreenSwitch s) (inIdleMode s) (buzzerLocked s) (clock s) (ledc0 s) (ledc1 s)
    (buzzer_pin s) (eeprom s) (flash s).
Definition set_filamentTemp (v : float) (s : State) : State :=
  mkState
   (lastEncoderPos s) (encoderButtonPressed s) (backButtonPressed s) (autoShutoffEnabled s)
    (beepOnPush s) (screenIndex s) (mainMenuIndex s) (settingsMenuIndex s) v
    (filamentTemp2 s) (humidityLimitF1 s) (humidityAlarmF1 s) (humidityLimitF2 s)
    (humidityAlarmF2 s) (enclosure1 s) (humidityLimit1 s) (humidityAlarm1 s) (enclosure2 s)
    (humidityLimit2 s) (humidityAlarm2 s) (fastPID1 s) (fastPID2 s) (tuning s)
    (lastInteraction s) (lastScreenSwitch s) (inIdleMode s) (buzzerLocked s) (clock s)
    (ledc0 s) (ledc1 s) (buzzer_pin s) (eeprom s) (flash s).
Definition set_filamentTemp2 (v : float) (s : State) : State :=
  mkState
   (lastEncoderPos s) (encoderButtonPressed s) (backButtonPressed s) (autoShutoffEnabled s)
    (beepOnPush s) (screenIndex s) (mainMenuIndex s) (settingsMenuIndex s)
    (filamentTemp s) v (humidityLimitF1 s) (humidityAlarmF1 s) (humidityLimitF2 s)
    (humidityAlarmF2 s) (enclosure1 s) (humidityLimit1 s) (humidityAlarm1 s) (enclosure2 s)
    (humidityLimit2 s) (humidityAlarm2 s) (fastPID1 s) (fastPID2 s) (tuning s)
    (lastInteraction s) (lastScreenSwitch s) (inIdleMode s) (buzzerLocked s) (clock s)
    (ledc0 s) (ledc1 s) (buzzer_pin s) (eeprom s) (flash s).
Definition set_humidityLimitF1 (v : Z) (s : State) : State :=
  mkState
   (lastEncoderPos s) (encoderButtonPressed s) (backButtonPressed s) (autoShutoffEnabled s)
    (beepOnPush s) (screenIndex s) (mainMenuIndex s) (settingsMenuIndex s) (filamentTemp s)
    (filamentTemp2 s) v (humidityAlarmF1 s) (humidityLimitF2 s) (humidityAlarmF2 s)
    (enclosure1 s) (humidityLimit1 s) (humidityAlarm1 s) (enclosure2 s) (humidityLimit2 s)
    (humidityAlarm2 s) (fastPID1 s) (fastPID2 s) (tuning s) (lastInteraction s)
    (lastScreenSwitch s) (inIdleMode s) (buzzerLocked s) (clock s) (ledc0 s) (ledc1 s)
    (buzzer_pin s) (eeprom s) (flash s).
Definition set_humidityAlarmF1 (v : bool) (s : State) : State :=
  mkState
   (lastEncoderPos s) (encoderButtonPressed s) (backButtonPressed s) (autoShutoffEnabled s)
    (beepOnPush s) (screenIndex s) (mainMenuIndex s) (settingsMenuIndex s) (filamentTemp s)
    (filamentTemp2 s) (humidityLimitF1 s) v (humidityLimitF2 s) (humidityAlarmF2 s)
    (enclosure1 s) (humidityLimit1 s) (humidityAlarm1 s) (enclosure2 s) (humidityLimit2 s)
    (humidityAlarm2 s) (fastPID1 s) (fastPID2 s) (tuning s) (lastInteraction s)
    (lastScreenSwitch s) (inIdleMode s) (buzzerLocked s) (clock s) (ledc0 s) (ledc1 s)
    (buzzer_pin s) (eeprom s) (flash s).
Definition set_humidityLimitF2 (v : Z) (s : State) : State :=
  mkState
   (lastEncoderPos s) (encoderButtonPressed s) (backButtonPressed s) (autoShutoffEnabled s)
    (beepOnPush s) (screenIndex s) (mainMenuIndex s) (settingsMenuIndex s) (filamentTemp s)
    (filamentTemp2 s) (humidityLimitF1 s) (humidityAlarmF1 s) v (humidityAlarmF2 s)
    (enclosure1 s) (humidityLimit1 s) (humidityAlarm1 s) (enclosure2 s) (humidityLimit2 s)
    (humidityAlarm2 s) (fastPID1 s) (fastPID2 s) (tuning s) (lastInteraction s)
    (lastScreenSwitch s) (inIdleMode s) (buzzerLocked s) (clock s) (ledc0 s) (ledc1 s)
    (buzzer_pin s) (eeprom s) (flash s).
Definition set_humidityAlarmF2 (v : bool) (s : State) : State :=
  mkState
   (lastEncoderPos s) (encoderButtonPressed s) (backButtonPressed s) (autoShutoffEnabled s)
    (beepOnPush s) (screenIndex s) (mainMenuIndex s) (settingsMenuIndex s) (filamentTemp s)
    (filamentTemp2 s) (humidityLimitF1 s) (humidityAlarmF1 s) (humidityLimitF2 s) v
    (enclosure1 s) (humidityLimit1 s) (humidityAlarm1 s) (enclosure2 s) (humidityLimit2 s)
    (humidityAlarm2 s) (fastPID1 s) (fastPID2 s) (tuning s) (lastInteraction s)
    (lastScreenSwitch s) (inIdleMode s) (buzzerLocked s) (clock s) (ledc0 s) (ledc1 s)
    (buzzer_pin s) (eeprom s) (flash s).
Definition set_enclosure1 (v : Zone) (s : State) : State :=
  mkState
   (lastEncoderPos s) (encoderButtonPressed s) (backButtonPressed s) (autoShutoffEnabled s)
    (beepOnPush s) (screenIndex s) (mainMenuIndex s) (settingsMenuIndex s) (filamentTemp s)
    (filamentTemp2 s) (humidityLimitF1 s) (humidityAlarmF1 s) (humidityLimitF2 s)
    (humidityAlarmF2 s) v (humidityLimit1 s) (humidityAlarm1 s) (enclosure2 s)
    (humidityLimit2 s) (humidityAlarm2 s) (fastPID1 s) (fastPID2 s) (tuning s)
    (lastInteraction s) (lastScreenSwitch s) (inIdleMode s) (buzzerLocked s) (clock s)
    (ledc0 s) (ledc1 s) (buzzer_pin s) (eeprom s) (flash s).
Definition set_humidityLimit1 (v : Z) (s : State) : State :=
  mkState
   (lastEncoderPos s) (encoderButtonPressed s) (backButtonPressed s) (autoShutoffEnabled s)
    (beepOnPush s) (screenIndex s) (mainMenuIndex s) (settingsMenuIndex s) (filamentTemp s)
    (filamentTemp2 s) (humidityLimitF1 s) (humidityAlarmF1 s) (humidityLimitF2 s)
    (humidityAlarmF2 s) (enclosure1 s) v (humidityAlarm1 s) (enclosure2 s)
    (humidityLimit2 s) (humidityAlarm2 s) (fastPID1 s) (fastPID2 s) (tuning s)
    (lastInteraction s) (lastScreenSwitch s) (inIdleMode s) (buzzerLocked s) (clock s)
    (ledc0 s) (ledc1 s) (buzzer_pin s) (eeprom s) (flash s).
Definition set_humidityAlarm1 (v : bool) (s : State) : State :=
  mkState
   (lastEncoderPos s) (encoderButtonPressed s) (backButtonPressed s) (autoShutoffEnabled s)
    (beepOnPush s) (screenIndex s) (mainMenuIndex s) (settingsMenuIndex s) (filamentTemp s)
    (filamentTemp2 s) (humidityLimitF1 s) (humidityAlarmF1 s) (humidityLimitF2 s)
    (humidityAlarmF2 s) (enclosure1 s) (humidityLimit1 s) v (enclosure2 s)
    (humidityLimit2 s) (humidityAlarm2 s) (fastPID1 s) (fastPID2 s) (tuning s)
    (lastInteraction s) (lastScreenSwitch s) (inIdleMode s) (buzzerLocked s) (clock s)
    (ledc0 s) (ledc1 s) (buzzer_pin s) (eeprom s) (flash s).
Definition set_enclosure2 (v : Zone) (s : State) : State :=
  mkState
   (lastEncoderPos s) (encoderButtonPressed s) (backButtonPressed s) (autoShutoffEnabled s)
    (beepOnPush s) (screenIndex s) (mainMenuIndex s) (settingsMenuIndex s) (filamentTemp s)
    (filamentTemp2 s) (humidityLimitF1 s) (humidityAlarmF1 s) (humidityLimitF2 s)
    (humidityAlarmF2 s) (enclosure1 s) (humidityLimit1 s) (humidityAlarm1 s) v
    (humidityLimit2 s) (humidityAlarm2 s) (fastPID1 s) (fastPID2 s) (tuning s)
    (lastInteraction s) (lastScreenSwitch s) (inIdleMode s) (buzzerLocked s) (clock s)
    (ledc0 s) (ledc1 s) (buzzer_pin s) (eeprom s) (flash s).
Definition set_humidityLimit2 (v : Z) (s : State) : State :=
  mkState
   (lastEncoderPos s) (encoderButtonPressed s) (backButtonPressed s) (autoShutoffEnabled s)
    (beepOnPush s) (screenIndex s) (mainMenuIndex s) (settingsMenuIndex s) (filamentTemp s)
    (filamentTemp2 s) (humidityLimitF1 s) (humidityAlarmF1 s) (humidityLimitF2 s)
    (humidityAlarmF2 s) (enclosure1 s) (humidityLimit1 s) (humidityAlarm1 s)
    (enclosure2 s) v (humidityAlarm2 s) (fastPID1 s) (fastPID2 s) (tuning s)
    (lastInteraction s) (lastScreenSwitch s) (inIdleMode s) (buzzerLocked s) (clock s)
    (ledc0 s) (ledc1 s) (buzzer_pin s) (eeprom s) (flash s).
Definition set_humidityAlarm2 (v : bool) (s : State) : State :=
  mkState
   (lastEncoderPos s) (encoderButtonPressed s) (backButtonPressed s) (autoShutoffEnabled s)
    (beepOnPush s) (screenIndex s) (mainMenuIndex s) (settingsMenuIndex s) (filamentTemp s)
    (filamentTemp2 s) (humidityLimitF1 s) (humidityAlarmF1 s) (humidityLimitF2 s)
    (humidityAlarmF2 s) (enclosure1 s) (humidityLimit1 s) (humidityAlarm1 s) (enclosure2 s)
    (humidityLimit2 s) v (fastPID1 s) (fastPID2 s) (tuning s) (lastInteraction s)
    (lastScreenSwitch s) (inIdleMode s) (buzzerLocked s) (clock s) (ledc0 s) (ledc1 s)
    (buzzer_pin s) (eeprom s) (flash s).
Definition set_fastPID1 (v : list (float * Z)) (s : State) : State :=
  mkState
   (lastEncoderPos s) (encoderButtonPressed s) (backButtonPressed s) (autoShutoffEnabled s)
    (beepOnPush s) (screenIndex s) (mainMenuIndex s) (settingsMenuIndex s) (filamentTemp s)
    (filamentTemp2 s) (humidityLimitF1 s) (humidityAlarmF1 s) (humidityLimitF2 s)
    (humidityAlarmF2 s) (enclosure1 s) (humidityLimit1 s) (humidityAlarm1 s) (enclosure2 s)
    (humidityLimit2 s) (humidityAlarm2 s) v (fastPID2 s) (tuning s) (lastInteraction s)
    (lastScreenSwitch s) (inIdleMode s) (buzzerLocked s) (clock s) (ledc0 s) (ledc1 s)
    (buzzer_pin s) (eeprom s) (flash s).
Definition set_fastPID2 (v : list (float * Z)) (s : State) : State :=
  mkState
   (lastEncoderPos s) (encoderButtonPressed s) (backButtonPressed s) (autoShutoffEnabled s)
    (beepOnPush s) (screenIndex s) (mainMenuIndex s) (settingsMenuIndex s) (filamentTemp s)
    (filamentTemp2 s) (humidityLimitF1 s) (humidityAlarmF1 s) (humidityLimitF2 s)
    (humidityAlarmF2 s) (enclosure1 s) (humidityLimit1 s) (humidityAlarm1 s) (enclosure2 s)
    (humidityLimit2 s) (humidityAlarm2 s) (fastPID1 s) v (tuning s) (lastInteraction s)
    (lastScreenSwitch s) (inIdleMode s) (buzzerLocked s) (clock s) (ledc0 s) (ledc1 s)
    (buzzer_pin s) (eeprom s) (flash s).
Definition set_lastInteraction (v : Z) (s : State) : State :=
  mkState
   (lastEncoderPos s) (encoderButtonPressed s) (backButtonPressed s) (autoShutoffEnabled s)
    (beepOnPush s) (screenIndex s) (mainMenuIndex s) (settingsMenuIndex s) (filamentTemp s)
    (filamentTemp2 s) (humidityLimitF1 s) (humidityAlarmF1 s) (humidityLimitF2 s)
    (humidityAlarmF2 s) (enclosure1 s) (humidityLimit1 s) (humidityAlarm1 s) (enclosure2 s)
    (humidityLimit2 s) (humidityAlarm2 s) (fastPID1 s) (fastPID2 s) (tuning s) v
    (lastScreenSwitch s) (inIdleMode s) (buzzerLocked s) (clock s) (ledc0 s) (ledc1 s)
    (buzzer_pin s) (eeprom s) (flash s).
Definition set_buzzerLocked (v : bool) (s : State) : State :=
  mkState
   (lastEncoderPos s) (encoderButtonPressed s) (backButtonPressed s) (autoShutoffEnabled s)
    (beepOnPush s) (screenIndex s) (mainMenuIndex s) (settingsMenuIndex s) (filamentTemp s)
    (filamentTemp2 s) (humidityLimitF1 s) (humidityAlarmF1 s) (humidityLimitF2 s)
    (humidityAlarmF2 s) (enclosure1 s) (humidityLimit1 s) (humidityAlarm1 s) (enclosure2 s)
    (humidityLimit2 s) (humidityAlarm2 s) (fastPID1 s) (fastPID2 s) (tuning s)
    (lastInteraction s) (lastScreenSwitch s) (inIdleMode s) v (clock s) (ledc0 s) (ledc1 s)
    (buzzer_pin s) (eeprom s) (flash s).
Definition set_clock (v : Z) (s : State) : State :=
  mkState
   (lastEncoderPos s) (encoderButtonPressed s) (backButtonPressed s) (autoShutoffEnabled s)
    (beepOnPush s) (screenIndex s) (mainMenuIndex s) (settingsMenuIndex s) (filamentTemp s)
    (filamentTemp2 s) (humidityLimitF1 s) (humidityAlarmF1 s) (humidityLimitF2 s)
    (humidityAlarmF2 s) (enclosure1 s) (humidityLimit1 s) (humidityAlarm1 s) (enclosure2 s)
    (humidityLimit2 s) (humidityAlarm2 s) (fastPID1 s) (fastPID2 s) (tuning s)
    (lastInteraction s) (lastScreenSwitch s) (inIdleMode s) (buzzerLocked s) v (ledc0 s)
    (ledc1 s) (buzzer_pin s) (eeprom s) (flash s).
Definition set_ledc0 (v : Z) (s : State) : State :=
  mkState
   (lastEncoderPos s) (encoderButtonPressed s) (backButtonPressed s) (autoShutoffEnabled s)
    (beepOnPush s) (screenIndex s) (mainMenuIndex s) (settingsMenuIndex s) (filamentTemp s)
    (filamentTemp2 s) (humidityLimitF1 s) (humidityAlarmF1 s) (humidityLimitF2 s)
    (humidityAlarmF2 s) (enclosure1 s) (humidityLimit1 s) (humidityAlarm1 s) (enclosure2 s)
    (humidityLimit2 s) (humidityAlarm2 s) (fastPID1 s) (fastPID2 s) (tuning s)
    (lastInteraction s) (lastScreenSwitch s) (inIdleMode s) (buzzerLocked s) (clock s) v
    (ledc1 s) (buzzer_pin s) (eeprom s) (flash s).
Definition set_ledc1 (v : Z) (s : State) : State :=
  mkState
   (lastEncoderPos s) (encoderButtonPressed s) (backButtonPressed s) (autoShutoffEnabled s)
    (beepOnPush s) (screenIndex s) (mainMenuIndex s) (settingsMenuIndex s) (filamentTemp s)
    (filamentTemp2 s) (humidityLimitF1 s) (humidityAlarmF1 s) (humidityLimitF2 s)
    (humidityAlarmF2 s) (enclosure1 s) (humidityLimit1 s) (humidityAlarm1 s) (enclosure2 s)
    (humidityLimit2 s) (humidityAlarm2 s) (fastPID1 s) (fastPID2 s) (tuning s)
    (lastInteraction s) (lastScreenSwitch s) (inIdleMode s) (buzzerLocked s) (clock s)
    (ledc0 s) v (buzzer_pin s) (eeprom s) (flash s).
Definition set_buzzer_pin (v : bool) (s : State) : State :=
  mkState
   (lastEncoderPos s) (encoderButtonPressed s) (backButtonPressed s) (autoShutoffEnabled s)
    (beepOnPush s) (screenIndex s) (mainMenuIndex s) (settingsMenuIndex s) (filamentTemp s)
    (filamentTemp2 s) (humidityLimitF1 s) (humidityAlarmF1 s) (humidityLimitF2 s)
    (humidityAlarmF2 s) (enclosure1 s) (humidityLimit1 s) (humidityAlarm1 s) (enclosure2 s)
    (humidityLimit2 s) (humidityAlarm2 s) (fastPID1 s) (fastPID2 s) (tuning s)
    (lastInteraction s) (lastScreenSwitch s) (inIdleMode s) (buzzerLocked s) (clock s)
    (ledc0 s) (ledc1 s) v (eeprom s) (flash s).
Definition set_eeprom (v : Z -> Z) (s : State) : State :=
  mkState
   (lastEncoderPos s) (encoderButtonPressed s) (backButtonPressed s) (autoShutoffEnabled s)
    (beepOnPush s) (screenIndex s) (mainMenuIndex s) (settingsMenuIndex s) (filamentTemp s)
    (filamentTemp2 s) (humidityLimitF1 s) (humidityAlarmF1 s) (humidityLimitF2 s)
    (humidityAlarmF2 s) (enclosure1 s) (humidityLimit1 s) (humidityAlarm1 s) (enclosure2 s)
    (humidityLimit2 s) (humidityAlarm2 s) (fastPID1 s) (fastPID2 s) (tuning s)
    (lastInteraction s) (lastScreenSwitch s) (inIdleMode s) (buzzerLocked s) (clock s)
    (ledc0 s) (ledc1 s) (buzzer_pin s) v (flash s).
Definition set_flash (v : Z -> Z) (s : State) : State :=
  mkState
   (lastEncoderPos s) (encoderButtonPressed s) (backButtonPressed s) (autoShutoffEnabled s)
    (beepOnPush s) (screenIndex s) (mainMenuIndex s) (settingsMenuIndex s) (filamentTemp s)
    (filamentTemp2 s) (humidityLimitF1 s) (humidityAlarmF1 s) (humidityLimitF2 s)
    (humidityAlarmF2 s) (enclosure1 s) (humidityLimit1 s) (humidityAlarm1 s) (enclosure2 s)
    (humidityLimit2 s) (humidityAlarm2 s) (fastPID1 s) (fastPID2 s) (tuning s)
    (lastInteraction s) (lastScreenSwitch s) (inIdleMode s) (buzzerLocked s) (clock s)
    (ledc0 s) (ledc1 s) (buzzer_pin s) (eeprom s) v.


(** ** Per-cycle inputs

    What the collaborators hand to one iteration of [loop()]: the time spent
    outside of [delay] calls, a reading per multiplexer channel ([None] when
    [sensor.begin()] fails), the raw encoder count and the pin levels at each
    [digitalRead] ([true] is HIGH; the buttons are active low). *)

Record Inputs : Type := mkInputs {
  tick : Z;
  temp_ch0 : option float;
  temp_ch3 : option float;
  temp_ch1 : option float;
  temp_ch2 : option float;
  enc_raw : Z;
  enc_sw_a : bool;
  enc_sw_b : bool;
  back_a : bool;
  back_b : bool;
  hum_ch1 : option float;
  hum_ch2 : option float }.

(** ** Peripheral events

    What a command does to the outside, in program order: a line on the
    serial port (its text shortened to ASCII), a duty written to an LEDC
    channel, a level written to the buzzer pin ([LOW] sounds it), a blocking
    [delay], a frame sent to the display (the pixels are not modelled, only
    which screen it is), an EEPROM write and an EEPROM commit. *)

Inductive frame : Type :=
| FrMainMenu (idx : Z)
| FrSettingsMenu (idx : Z)
| FrSubmenu (screen highlight : Z)
| FrValue (screen value : Z)
| FrAllTemps
| FrCountdown (remaining : Z)
| FrZone (nm : string) (heater : bool)
| FrHighHumidity (nm : string)
| FrOverheat
| FrBlank
| FrRefresh.

Inductive event : Type :=
| EvSerial (msg : string)
| EvLedc (ch duty : Z)
| EvBuzzer (level : bool)
| EvDelay (ms : Z)
| EvDisplay (f : frame)
| EvEepromPut (addr : Z)
| EvEepromCommit.

(** ** Commands *)

Definition Cmd : Type := State -> State * list event.

Definition exec (c : Cmd) (s : State) : State := fst (c s).
Definition events (c : Cmd) (s : State) : list event := snd (c s).

Definition skip : Cmd := fun s => (s, []).
Definition seq (c1 c2 : Cmd) : Cmd :=
  fun s =>
    match c1 s with
    | (s1, e1) => match c2 s1 with (s2, e2) => (s2, e1 ++ e2) end
    end.
Definition modify (f : State -> State) : Cmd := fun s => (f s, []).
Definition emit (e : event) : Cmd := fun s => (s, [e]).
Definition ifte (b : State -> bool) (c1 c2 : Cmd) : Cmd :=
  fun s => if b s then c1 s else c2 s.
Definition when (b : State -> bool) (c : Cmd) : Cmd := ifte b c skip.

Declare Scope cmd_scope.
Delimit Scope cmd_scope with cmd.
Bind Scope cmd_scope with Cmd.
Notation "c1 ;; c2" := (seq c1 c2) (at level 61, right associativity) : cmd_scope.
Open Scope cmd_scope.

(** [for (int i = 0; i < n; i++) body] with a body that ignores [i]. *)
Fixpoint repeat_cmd (n : nat) (body : Cmd) : Cmd :=
  match n with
  | O => skip
  | S k => body ;; repeat_cmd k body
  end.

(** [switch (v) { case k: c; break; ... }] *)
Fixpoint switch (v : Z) (cases : list (Z * Cmd)) : Cmd :=
  match cases with
  | [] => skip
  | (k, c) :: rest => if v =? k then c else switch v rest
  end.

(** ** Peripherals *)

Definition millis (s : State) : Z := wrap32 (clock s).

Definition delay (ms : Z) : Cmd :=
  fun s => (set_clock (clock s + ms) s, [EvDelay ms]).

Definition buzzer (level : bool) : Cmd :=
  fun s => (set_buzzer_pin level s, [EvBuzzer level]).

Definition ledcWrite (ch duty : Z) : Cmd :=
  fun s => ((if ch =? HEATER1_CH then set_ledc0 duty s
             else if ch =? HEATER2_CH then set_ledc1 duty s else s),
            [EvLedc ch duty]).

Definition display (f : frame) : Cmd := emit (EvDisplay f).

(** [EEPROM.put] of an [int] (four bytes, little endian) and of a [bool]. *)
Definition poke (a v : Z) (m : Z -> Z) : Z -> Z :=
  fun x => if x =? a then v else m x.

Definition EEPROM_put_int (a v : Z) : Cmd :=
  fun s =>
    let w := wrap32 v in
    (set_eeprom (poke (a + 3) (w / 2 ^ 24 mod 256)
                (poke (a + 2) (w / 2 ^ 16 mod 256)
                (poke (a + 1) (w / 2 ^ 8 mod 256)
                (poke a (w mod 256) (eeprom s))))) s,
     [EvEepromPut a]).

Definition EEPROM_put_bool (a : Z) (b : bool) : Cmd :=
  fun s => (set_eeprom (poke a (if b then 1 else 0) (eeprom s)) s, [EvEepromPut a]).

Definition EEPROM_commit : Cmd :=
  fun s => (set_flash (eeprom s) s, [EvEepromCommit]).

Definition EEPROM_get_int (m : Z -> Z) (a : Z) : Z :=
  let w := m a + 2 ^ 8 * m (a + 1) + 2 ^ 16 * m (a + 2) + 2 ^ 24 * m (a + 3) in
  if w <? 2 ^ 31 then w else w - U32.

Definition EEPROM_get_bool (m : Z -> Z) (a : Z) : bool := negb (m a =? 0).

(** ** Zones by index

    [loop()] repeats its per-enclosure code once for [enclosure1] and once
    for [enclosure2]; the model writes each such block once, over a zone
    index. *)

Inductive zone_id : Type := Enc1 | Enc2.

Definition zone (z : zone_id) (s : State) : Zone :=
  match z with Enc1 => enclosure1 s | Enc2 => enclosure2 s end.
Definition set_zone (z : zone_id) (v : Zone) (s : State) : State :=
  match z with Enc1 => set_enclosure1 v s | Enc2 => set_enclosure2 v s end.
Definition upd_zone (z : zone_id) (f : Zone -> Zone) (s : State) : State :=
  set_zone z (f (zone z s)) s.
Definition heater_ch (z : zone_id) : Z :=
  match z with Enc1 => HEATER1_CH | Enc2 => HEATER2_CH end.
Definition ledc (z : zone_id) (s : State) : Z :=
  match z with Enc1 => ledc0 s | Enc2 => ledc1 s end.
Definition fastPID (z : zone_id) (s : State) : list (float * Z) :=
  match z with Enc1 => fastPID1 s | Enc2 => fastPID2 s end.
Definition set_fastPID (z : zone_id) (h : list (float * Z)) (s : State) : State :=
  match z with Enc1 => set_fastPID1 h s | Enc2 => set_fastPID2 h s end.
Definition humidityLimit (z : zone_id) (s : State) : Z :=
  match z with Enc1 => humidityLimit1 s | Enc2 => humidityLimit2 s end.
Definition humidityAlarm (z : zone_id) (s : State) : bool :=
  match z with Enc1 => humidityAlarm1 s | Enc2 => humidityAlarm2 s end.

Section Firmware.

(** [FastPID::step] belongs to the external FastPID library.  A controller
    object is represented by the list of the [(input, setpoint)] pairs it was
    stepped with, latest first; [FastPID_step] gives the duty the library
    returns for the latest call of such a history.  Both controllers are
    built with the same gains (main.cpp:124-125). *)
Variable FastPID_step : list (float * Z) -> Z.

(** *** Sensor ingestion (main.cpp:313-329) *)

Definition read_sensors (i : Inputs) : Cmd :=
  modify (fun s => match temp_ch0 i with
                   | Some t => set_filamentTemp t s
                   | None => s end) ;;
  modify (fun s => match temp_ch3 i with
                   | Some t => set_filamentTemp2 t s
                   | None => s end) ;;
  modify (fun s => match temp_ch1 i with
                   | Some t => upd_zone Enc1 (set_currentTemp t) s
                   | None => s end) ;;
  modify (fun s => match temp_ch2 i with
                   | Some t => upd_zone Enc2 (set_currentTemp t) s
                   | None => s end).

(** *** PID control and the overheat failsafe (main.cpp:331-381) *)

Definition overheat (s : State) : bool :=
  ge130 (currentTemp (enclosure1 s)) || ge130 (currentTemp (enclosure2 s)).

Definition overheat_shutdown : Cmd :=
  emit (EvSerial "!! OVERHEAT DETECTED - SYSTEM SHUTDOWN !!") ;;
  modify (upd_zone Enc1 (set_heaterOn false)) ;;
  modify (upd_zone Enc2 (set_heaterOn false)) ;;
  ledcWrite HEATER1_CH 0 ;;
  ledcWrite HEATER2_CH 0 ;;
  repeat_cmd 3 (display FrOverheat ;; delay 500 ;; display FrBlank ;; delay 300) ;;
  repeat_cmd 10 (buzzer LOW ;; delay 300 ;; buzzer HIGH ;; delay 200) ;;
  modify (set_buzzerLocked true).

Definition pid_step (z : zone_id) : Cmd :=
  modify (fun s =>
    let zn := set_input (currentTemp (zone z s)) (zone z s) in
    let h := (input zn, setpoint zn) :: fastPID z s in
    set_fastPID z h
      (set_zone z (set_heaterOn true (set_output (FastPID_step h) zn)) s)).

Definition pid_control : Cmd :=
  pid_step Enc1 ;;
  pid_step Enc2 ;;
  (fun s => ledcWrite HEATER1_CH (output (enclosure1 s)) s) ;;
  (fun s => ledcWrite HEATER2_CH (output (enclosure2 s)) s).

Definition control : Cmd :=
  when (fun s => negb (tuning s))
    (modify (fun s => upd_zone Enc1 (set_input (currentTemp (enclosure1 s))) s) ;;
     modify (fun s => upd_zone Enc2 (set_input (currentTemp (enclosure2 s))) s) ;;
     ifte overheat overheat_shutdown pid_control).

(** *** Encoder navigation (main.cpp:383-393) *)

Definition encoder_nav (i : Inputs) : Cmd :=
  fun s =>
    let newPos := Z.quot (enc_raw i) 4 in
    if negb (newPos =? lastEncoderPos s) then
      (modify (set_lastEncoderPos newPos) ;;
       modify (fun s => set_lastInteraction (millis s) s) ;;
       ifte (fun s => screenIndex s =? 100)
         (modify (set_mainMenuIndex (Z.rem (Z.abs newPos) 7)))
         (when (fun s => screenIndex s =? 99)
            (modify (set_settingsMenuIndex (Z.rem (Z.abs newPos) 4))))) s
    else skip s.

(** *** The zone view with its humidity interstitial (main.cpp:179-223) *)

Definition high_humidity (nm : string) (hum : float) (s : State) : bool :=
  ((0 <=? indexOf "1" nm) && gt_int hum (humidityLimit1 s) && humidityAlarm1 s)
  || ((0 <=? indexOf "2" nm) && gt_int hum (humidityLimit2 s) && humidityAlarm2 s).

Definition interstitial (nm : string) : Cmd :=
  display (FrHighHumidity nm) ;; delay 500 ;; display FrBlank ;; delay 300.

(** The humidity [displayZone] works with: the reading of the zone's
    channel, or the initial [0] when the sensor does not answer. *)
Definition zone_humidity (i : Inputs) (zn : Zone) : float :=
  let reading := if 0 <=? indexOf "1" (name zn) then hum_ch1 i else hum_ch2 i in
  match reading with Some h => h | None => 0%float end.

Definition displayZone (i : Inputs) (zn : Zone) : Cmd :=
  when (high_humidity (name zn) (zone_humidity i zn)) (interstitial (name zn)) ;;
  display (FrZone (name zn) (heaterOn zn)).

(** *** Encoder button (main.cpp:395-534) *)

Definition push_beep : Cmd := buzzer LOW ;; delay 20 ;; buzzer HIGH.

Definition main_menu_select : Cmd :=
  fun s =>
    switch (mainMenuIndex s)
      [ (0, modify (set_screenIndex 10));
        (1, modify (set_screenIndex 11));
        (2, modify (set_screenIndex 12));
        (3, modify (set_screenIndex 13));
        (4, modify (set_screenIndex 3));
        (5, ledcWrite HEATER1_CH 0 ;; ledcWrite HEATER2_CH 0);
        (6, modify (set_screenIndex 99)) ] s.

Definition filament1_select : Cmd :=
  fun s =>
    switch (Z.rem (lastEncoderPos s) 2)
      [ (0, modify (set_screenIndex 26));
        (1, modify (fun s => set_humidityAlarmF1 (negb (humidityAlarmF1 s)) s) ;;
            (fun s => EEPROM_put_bool 18 (humidityAlarmF1 s) s) ;;
            EEPROM_commit) ] s.

Definition filament2_select : Cmd :=
  fun s =>
    switch (Z.rem (lastEncoderPos s) 2)
      [ (0, modify (set_screenIndex 36));
        (1, modify (fun s => set_humidityAlarmF2 (negb (humidityAlarmF2 s)) s) ;;
            (fun s => EEPROM_put_bool 19 (humidityAlarmF2 s) s) ;;
            EEPROM_commit) ] s.

(** Screen codes of the two enclosure submenus. *)
Definition scr_menu (z : zone_id) : Z := match z with Enc1 => 10 | Enc2 => 11 end.
Definition scr_temp (z : zone_id) : Z := match z with Enc1 => 24 | Enc2 => 34 end.
Definition scr_mode (z : zone_id) : Z := match z with Enc1 => 20 | Enc2 => 30 end.
Definition scr_timer (z : zone_id) : Z := match z with Enc1 => 21 | Enc2 => 31 end.
Definition scr_arm (z : zone_id) : Z := match z with Enc1 => 22 | Enc2 => 32 end.
Definition scr_run (z : zone_id) : Z := match z with Enc1 => 23 | Enc2 => 33 end.
Definition scr_limit (z : zone_id) : Z := match z with Enc1 => 25 | Enc2 => 35 end.

Definition toggle_zone_alarm (z : zone_id) : Cmd :=
  match z with
  | Enc1 => modify (fun s => set_humidityAlarm1 (negb (humidityAlarm1 s)) s) ;;
            (fun s => EEPROM_put_bool 16 (humidityAlarm1 s) s) ;;
            EEPROM_commit
  | Enc2 => modify (fun s => set_humidityAlarm2 (negb (humidityAlarm2 s)) s) ;;
            (fun s => EEPROM_put_bool 17 (humidityAlarm2 s) s) ;;
            EEPROM_commit
  end.

Definition zone_menu_select (i : Inputs) (z : zone_id) : Cmd :=
  fun s =>
    switch (Z.rem (lastEncoderPos s) 6)
      [ (0, modify (set_screenIndex (scr_temp z)));
        (1, modify (upd_zone z (fun zn => set_useTimer (negb (useTimer zn)) zn)));
        (2, modify (set_screenIndex (scr_mode z)));
        (3, modify (set_screenIndex (scr_menu z)) ;;
            (fun s => displayZone i (zone z s) s) ;;
            delay 1000);
        (4, modify (set_screenIndex (scr_limit z)));
        (5, toggle_zone_alarm z) ] s.

Definition settings_select : Cmd :=
  fun s =>
    if (settingsMenuIndex s =? 0) && negb (tuning s) then
      emit (EvSerial "FastPID tuning is not dynamic") s
    else if (settingsMenuIndex s =? 1) && negb (tuning s) then
      emit (EvSerial "FastPID tuning is not dynamic") s
    else if settingsMenuIndex s =? 2 then
      modify (fun s => set_autoShutoffEnabled (negb (autoShutoffEnabled s)) s) s
    else if settingsMenuIndex s =? 3 then
      modify (fun s => set_beepOnPush (negb (beepOnPush s)) s) s
    else skip s.

Definition button_dispatch (i : Inputs) : Cmd :=
  fun s =>
    if screenIndex s =? 100 then main_menu_select s
    else if screenIndex s =? 12 then filament1_select s
    else if screenIndex s =? 13 then filament2_select s
    else if screenIndex s =? 10 then zone_menu_select i Enc1 s
    else if screenIndex s =? 11 then zone_menu_select i Enc2 s
    else if screenIndex s =? 99 then settings_select s
    else skip s.

Definition encoder_button (i : Inputs) : Cmd :=
  fun s =>
    if negb (enc_sw_a i) && negb (encoderButtonPressed s) then
      (when beepOnPush push_beep ;;
       modify (set_encoderButtonPressed true) ;;
       button_dispatch i) s
    else if enc_sw_b i then modify (set_encoderButtonPressed false) s
    else skip s.

(** *** Back button (main.cpp:536-542) *)

Definition back_button (i : Inputs) : Cmd :=
  fun s =>
    if negb (back_a i) && negb (backButtonPressed s) then
      (modify (set_backButtonPressed true) ;; modify (set_screenIndex 100)) s
    else if back_b i then modify (set_backButtonPressed false) s
    else skip s.

(** *** The screen switch (main.cpp:544-757) *)

Definition elapsed_seconds (s : State) (zn : Zone) : Z :=
  wrap32 (millis s - timerStart zn) / 1000.

Definition displayCountdown (zn : Zone) : Cmd :=
  fun s =>
    let elapsed := elapsed_seconds s zn in
    let remaining :=
      if elapsed <? timerSeconds zn then timerSeconds zn - elapsed else 0 in
    display (FrCountdown remaining) s.

(** The value a value-adjust screen computes from the encoder position. *)
Definition limit_of (pos : Z) : Z := 30 + Z.rem (Z.abs pos) 70.
Definition temp_of (pos : Z) : Z := 70 + Z.rem (Z.abs pos) 51.
Definition timer_of (pos : Z) : Z := wrap32 (Z.max (Z.rem (Z.abs pos) 289) 2 * 600).

Definition limit_screen (code addr : Z) (store : Z -> State -> State) : Cmd :=
  fun s =>
    let limit := limit_of (lastEncoderPos s) in
    (modify (store limit) ;;
     EEPROM_put_int addr limit ;;
     EEPROM_commit ;;
     display (FrValue code limit)) s.

Definition temp_screen (z : zone_id) : Cmd :=
  fun s =>
    let tempSet := temp_of (lastEncoderPos s) in
    (modify (upd_zone z (set_setpoint tempSet)) ;;
     display (FrValue (scr_temp z) tempSet)) s.

Definition mode_screen (z : zone_id) : Cmd :=
  modify (set_screenIndex (scr_timer z)) ;;
  modify (upd_zone z (fun zn => set_useTimer (negb (useTimer zn)) zn)).

Definition timer_screen (z : zone_id) : Cmd :=
  modify (fun s => upd_zone z (set_timerSeconds (timer_of (lastEncoderPos s))) s).

Definition arm_screen (z : zone_id) : Cmd :=
  modify (fun s => upd_zone z (set_timerStart (millis s)) s) ;;
  modify (upd_zone z (set_heaterOn true)) ;;
  modify (set_screenIndex (scr_run z)).

Definition screen_update : Cmd :=
  fun s =>
    switch (screenIndex s)
      [ (100, fun s => display (FrMainMenu (mainMenuIndex s)) s);
        (99, fun s => display (FrSettingsMenu (settingsMenuIndex s)) s);
        (10, fun s => display (FrSubmenu 10 (Z.rem (lastEncoderPos s) 4)) s);
        (11, fun s => display (FrSubmenu 11 (Z.rem (lastEncoderPos s) 4)) s);
        (12, fun s => display (FrSubmenu 12 (Z.rem (lastEncoderPos s) 2)) s);
        (13, fun s => display (FrSubmenu 13 (Z.rem (lastEncoderPos s) 2)) s);
        (14, display FrAllTemps);
        (26, limit_screen 26 8 set_humidityLimitF1);
        (36, limit_screen 36 12 set_humidityLimitF2);
        (23, fun s => displayCountdown (enclosure1 s) s);
        (33, fun s => displayCountdown (enclosure2 s) s);
        (24, temp_screen Enc1);
        (34, temp_screen Enc2);
        (25, limit_screen 25 0 set_humidityLimit1);
        (35, limit_screen 35 4 set_humidityLimit2);
        (20, mode_screen Enc1);
        (21, timer_screen Enc1);
        (22, arm_screen Enc1);
        (30, mode_screen Enc2);
        (31, timer_screen Enc2);
        (32, arm_screen Enc2) ] s.

(** *** Timer check (main.cpp:759-824) *)

Definition five_minute_beep : Cmd := buzzer LOW ;; delay 500 ;; buzzer HIGH.

Definition countdown_sequence : Cmd :=
  repeat_cmd 4 (buzzer LOW ;; delay 150 ;; buzzer HIGH ;; delay 150) ;;
  delay 500 ;;
  buzzer LOW ;; delay 1000 ;; buzzer HIGH.

Definition remaining_seconds (s : State) (zn : Zone) : Z :=
  wrap32 (timerSeconds zn - elapsed_seconds s zn).

(** The two alert tests of the block (main.cpp:764-784). *)
Definition timer_alerts (remaining : Z) : Cmd :=
  when (fun s => (remaining =? 300) && negb (buzzerLocked s))
    five_minute_beep ;;
  when (fun s => (remaining <=? 30) && (0 <? remaining) && negb (buzzerLocked s))
    (countdown_sequence ;; modify (set_buzzerLocked true)).

(** The completion test (main.cpp:785-790). *)
Definition timer_expiry (z : zone_id) (elapsed : Z) : Cmd :=
  when (fun s => timerSeconds (zone z s) <=? elapsed)
    (modify (upd_zone z (set_heaterOn false)) ;;
     ledcWrite (heater_ch z) 0 ;;
     modify (set_buzzerLocked false)).

Definition timer_check (z : zone_id) : Cmd :=
  fun s =>
    if useTimer (zone z s) && heaterOn (zone z s) then
      let elapsed := elapsed_seconds s (zone z s) in
      let remaining := remaining_seconds s (zone z s) in
      (timer_alerts remaining ;; timer_expiry z elapsed) s
    else skip s.

(** Modelled from the spec: [updateScreen()] is declared (main.cpp:242) and
    called at the end of [loop()], but the repository holds no definition of
    it.  The spec's DisplayRenderer renders a read-only snapshot of the
    state: the call sends one frame and changes no variable. *)
Definition updateScreen : Cmd := display FrRefresh.

(** *** One iteration of [loop()] (main.cpp:311-828) *)

Definition elapse (i : Inputs) : Cmd :=
  modify (fun s => set_clock (clock s + tick i) s).

Definition ingest (i : Inputs) : Cmd := elapse i ;; read_sensors i.

Definition interact (i : Inputs) : Cmd :=
  encoder_nav i ;; encoder_button i ;; back_button i ;; screen_update.

Definition finish_cycle : Cmd := updateScreen ;; delay 500.

Definition loop (i : Inputs) : Cmd :=
  ingest i ;;
  control ;;
  interact i ;;
  timer_check Enc1 ;;
  timer_check Enc2 ;;
  finish_cycle.

(** Successive iterations, one per element of the input list. *)
Fixpoint run (inputs : list Inputs) : Cmd :=
  match inputs with
  | [] => skip
  | i :: rest => loop i ;; run rest
  end.

End Firmware.

(** ** Boot state (main.cpp:86-131 and [setup()], 274-309)

    [rom] is what [EEPROM.get] finds for the persisted limits and alarm
    flags, [t0] the uptime when [setup()] reads [millis()]. *)

Definition boot_zone (nm : string) (pin : Z) : Zone :=
  mkZone nm 0%float 90%float 0 0 false true 0 pin 0%float 0 90.

Definition setup (rom : Z -> Z) (t0 : Z) : State :=
  mkState
    0 false false true true 100 0 0
    0%float 0%float
    (EEPROM_get_int rom 8) (EEPROM_get_bool rom 18)
    (EEPROM_get_int rom 12) (EEPROM_get_bool rom 19)
    (boot_zone "3D Enclosure 1" HEATER1_PIN)
    (EEPROM_get_int rom 0) (EEPROM_get_bool rom 16)
    (boot_zone "3D Enclosure 2" HEATER2_PIN)
    (EEPROM_get_int rom 4) (EEPROM_get_bool rom 17)
    [] []
    false (wrap32 t0) 0 false false
    t0 0 0 HIGH rom rom.

(** ** States the firmware can be in

    [reachable] holds of the boot states and of their successors under
    [loop].  Two facts about them are used throughout: [tuning] is never set,
    and [screenIndex] only takes the codes some assignment of [loop()]
    stores, of which the arming codes 22 and 32 (and with them the countdown
    codes 23 and 33) are not part. *)

Definition screen_codes : list Z :=
  [100; 99; 10; 11; 12; 13; 3; 20; 21; 24; 25; 26; 30; 31; 34; 35; 36].

Definition screen_ok (n : Z) : bool := existsb (Z.eqb n) screen_codes.

Definition boot_name (z : zone_id) : string :=
  match z with Enc1 => "3D Enclosure 1" | Enc2 => "3D Enclosure 2" end.

Record Inv (s : State) : Prop := mkInv {
  inv_tuning : tuning s = false;
  inv_screen : screen_ok (screenIndex s) = true;
  inv_name1 : name (enclosure1 s) = boot_name Enc1;
  inv_name2 : name (enclosure2 s) = boot_name Enc2 }.

Section Reachability.

Variable FastPID_step : list (float * Z) -> Z.

Inductive reachable : State -> Prop :=
| reach_boot : forall rom t0, reachable (setup rom t0)
| reach_loop : forall s i,
    reachable s -> reachable (exec (loop FastPID_step i) s).

(** The reading of zone [z]'s channel in the inputs of a cycle. *)
Definition reading (z : zone_id) (i : Inputs) : option float :=
  match z with Enc1 => temp_ch1 i | Enc2 => temp_ch2 i end.

(** The same inputs with another reading for zone [z]. *)
Definition with_reading (z : zone_id) (r : option float) (i : Inputs) : Inputs :=
  mkInputs (tick i) (temp_ch0 i) (temp_ch3 i)
    (match z with Enc1 => r | Enc2 => temp_ch1 i end)
    (match z with Enc1 => temp_ch2 i | Enc2 => r end)
    (enc_raw i) (enc_sw_a i) (enc_sw_b i) (back_a i) (back_b i)
    (hum_ch1 i) (hum_ch2 i).

(** The temperature a cycle works with for zone [z]: this cycle's reading,
    or the value kept from before when the sensor is unavailable. *)
Definition ingested (i : Inputs) (z : zone_id) (s : State) : float :=
  match reading z i with
  | Some t => t
  | None => currentTemp (zone z s)
  end.

Definition heaters_off (s : State) : Prop :=
  heaterOn (enclosure1 s) = false /\ heaterOn (enclosure2 s) = false /\
  ledc0 s = 0 /\ ledc1 s = 0.

(** No event of the list writes a non-zero duty to a heater channel. *)
Definition no_heat (evs : list event) : bool :=
  forallb (fun e => match e with EvLedc _ d => d =? 0 | _ => true end) evs.

End Reachability.

(** ** Recognising the buzzer patterns in an event list *)

Definition event_eqb (a b : event) : bool :=
  match a, b with
  | EvBuzzer x, EvBuzzer y => Bool.eqb x y
  | EvDelay x, EvDelay y => x =? y
  | _, _ => false
  end.

Fixpoint starts_with (p evs : list event) : bool :=
  match p, evs with
  | [], _ => true
  | a :: p', b :: evs' => event_eqb a b && starts_with p' evs'
  | _ :: _, [] => false
  end.

Fixpoint occurrences (p evs : list event) : nat :=
  match evs with
  | [] => O
  | _ :: rest => ((if starts_with p evs then 1 else 0) + occurrences p rest)%nat
  end.

(** The five-minute warning: one 500 ms beep. *)
Definition five_minute_pattern : list event :=
  [EvBuzzer LOW; EvDelay 500; EvBuzzer HIGH].

(** The 30-second sequence: four short beeps, a pause, one long beep. *)
Definition countdown_pattern : list event :=
  [EvBuzzer LOW; EvDelay 150; EvBuzzer HIGH; EvDelay 150;
   EvBuzzer LOW; EvDelay 150; EvBuzzer HIGH; EvDelay 150;
   EvBuzzer LOW; EvDelay 150; EvBuzzer HIGH; EvDelay 150;
   EvBuzzer LOW; EvDelay 150; EvBuzzer HIGH; EvDelay 150;
   EvDelay 500; EvBuzzer LOW; EvDelay 1000; EvBuzzer HIGH].

Definition five_minute_warnings (evs : list event) : nat :=
  occurrences five_minute_pattern evs.
Definition countdown_sequences (evs : list event) : nat :=
  occurrences countdown_pattern evs.

(** A sample stepping function for concrete runs: full duty below the
    setpoint, none at or above it. *)
Definition thermostat (h : list (float * Z)) : Z :=
  match h with
  | (t, sp) :: _ => if PrimFloat.ltb t (float_of_int sp) then 255 else 0
  | [] => 0
  end.


(** ** Observations of a cycle *)

(** The state the control block of a cycle starts from. *)
Definition sensed (i : Inputs) (s : State) : State := exec (ingest i) s.

(** What the two [input] assignments ahead of the overheat test leave. *)
Definition inputs_set (s : State) : State :=
  upd_zone Enc2 (set_input (currentTemp (enclosure2 (upd_zone Enc1 (set_input (currentTemp (enclosure1 s))) s))))
    (upd_zone Enc1 (set_input (currentTemp (enclosure1 s))) s).

Section Observations.

Variable FastPID_step : list (float * Z) -> Z.

(** The duty the stepping function returns for zone [z] in state [s]. *)
Definition pid_duty (z : zone_id) (s : State) : Z :=
  FastPID_step ((currentTemp (zone z s), setpoint (zone z s)) :: fastPID z s).

(** The state the control block leaves. *)
Definition controlled (i : Inputs) (s : State) : State :=
  exec (control FastPID_step) (sensed i s).

(** The state the timer check of zone [z] starts from. *)
Definition at_check (i : Inputs) (z : zone_id) (s : State) : State :=
  match z with
  | Enc1 => exec (interact i) (controlled i s)
  | Enc2 => exec (timer_check Enc1) (exec (interact i) (controlled i s))
  end.

End Observations.

(** Whether the two alert tests pass in state [s] for a remaining time [r]. *)
Definition warning_due (r : Z) (s : State) : bool :=
  (r =? 300) && negb (buzzerLocked s).
Definition sequence_due (r : Z) (s : State) : bool :=
  (r <=? 30) && (0 <? r) && negb (buzzerLocked s).

(** The event that stands for the blocking high-humidity screen. *)
Definition interstitial_shown (nm : string) (evs : list event) : Prop :=
  In (EvDisplay (FrHighHumidity nm)) evs.


(** ** Concrete runs

    A boot image with the default limits, and the inputs of a cycle with the
    two enclosure temperatures [t1] and [t2], the raw encoder count [raw] and
    the encoder button held or not; every cycle spends 100 ms outside of
    [delay]. *)

Definition rom0 : Z -> Z :=
  fun a => if (a =? 0) || (a =? 4) || (a =? 8) || (a =? 12) then 65 else 0.

Definition boot : State := setup rom0 1000.

Definition cycle (t1 t2 : float) (raw : Z) (pressed : bool) : Inputs :=
  mkInputs 100 (Some 70%float) (Some 70%float) (Some t1) (Some t2)
    raw (negb pressed) (negb pressed) HIGH HIGH
    (Some 40%float) (Some 40%float).

Definition cool : Inputs := cycle 75 75 4 false.
Definition hot : Inputs := cycle 131 75 4 false.

(** Main menu -> "3D Enclosure 1" -> one detent -> "Toggle Mode": enclosure 1
    leaves timer mode. *)
Definition to_manual : list Inputs :=
  [cycle 75 75 0 true; cycle 75 75 4 false; cycle 75 75 4 true].

(** ** Value-adjust screens

    The screens on which the encoder position is turned into a setting:
    temperature set (24, 34), humidity limit of an enclosure (25, 35) and of
    a filament box (26, 36), timer duration (21, 31). *)

Inductive adjust : Type :=
| AdjTemp (z : zone_id)
| AdjLimit (z : zone_id)
| AdjLimitF1
| AdjLimitF2
| AdjTimer (z : zone_id).

Definition adjust_screen (a : adjust) : Z :=
  match a with
  | AdjTemp Enc1 => 24
  | AdjTemp Enc2 => 34
  | AdjLimit Enc1 => 25
  | AdjLimit Enc2 => 35
  | AdjLimitF1 => 26
  | AdjLimitF2 => 36
  | AdjTimer Enc1 => 21
  | AdjTimer Enc2 => 31
  end.

(** The active setting a screen adjusts. *)
Definition setting (a : adjust) (s : State) : Z :=
  match a with
  | AdjTemp z => setpoint (zone z s)
  | AdjLimit z => humidityLimit z s
  | AdjLimitF1 => humidityLimitF1 s
  | AdjLimitF2 => humidityLimitF2 s
  | AdjTimer z => timerSeconds (zone z s)
  end.

(** The value the screen computes at encoder position [pos]. *)
Definition value_of (a : adjust) (pos : Z) : Z :=
  match a with
  | AdjTemp _ => temp_of pos
  | AdjLimit _ | AdjLimitF1 | AdjLimitF2 => limit_of pos
  | AdjTimer _ => timer_of pos
  end.

(** The EEPROM address of the settings that are persisted. *)
Definition setting_addr (a : adjust) : option Z :=
  match a with
  | AdjLimit Enc1 => Some 0
  | AdjLimit Enc2 => Some 4
  | AdjLimitF1 => Some 8
  | AdjLimitF2 => Some 12
  | AdjTemp _ | AdjTimer _ => None
  end.

(** A press of the back button that the debounce latch lets through. *)
Definition back_edge (i : Inputs) (s : State) : bool :=
  negb (back_a i) && negb (backButtonPressed s).

(** What the cycle has to keep of a value-adjust screen up to the screen
    switch. *)
Definition adjust_view (a : adjust) (s : State) : Z * Z * bool :=
  (screenIndex s, setting a s, backButtonPressed s).

(** What the timer checks and the end of the cycle have to keep. *)
Definition stored_view (a : adjust) (s : State) : Z * Z * Z * (Z -> Z) :=
  (screenIndex s, lastEncoderPos s, setting a s, flash s).

(** Enclosure 1 in manual mode since boot, past 56 hours of uptime. *)
Definition manual_since_boot : State := exec (run thermostat to_manual) boot.
Definition manual_56h : State :=
  set_clock (clock manual_since_boot + MAX_MANUAL_RUNTIME_SECONDS * 1000 + 1000)
    manual_since_boot.

(** Enclosure 1 with a 20-minute timer started at uptime 0 and enclosure 2
    in manual mode, at uptime [clk] milliseconds. *)
Definition armed (clk : Z) : State :=
  set_clock clk
    (set_enclosure1 (set_timerSeconds 1200 (enclosure1 boot))
       (set_enclosure2 (set_useTimer false (enclosure2 boot)) boot)).

(** The same with the heater of enclosure 1 on, as a timer check finds it. *)
Definition heating (clk : Z) : State :=
  upd_zone Enc1 (set_heaterOn true) (armed clk).

(** The same on the enclosure-1 submenu with "View Temp" highlighted. *)
Definition armed_on_view (clk : Z) : State :=
  set_screenIndex 10 (set_lastEncoderPos 3 (armed clk)).

(** Enclosure 1 armed as above with enclosure 2 left as booted: timer mode
    with a zero duration. *)
Definition armed_beside_default (clk : Z) : State :=
  set_clock clk
    (set_enclosure1 (set_timerSeconds 1200 (enclosure1 boot)) boot).

(** The state a run of cycles reaches, and what the timer check of
    enclosure 1 finds in the cycle that follows it. *)
Definition after (before : list Inputs) (s0 : State) : State :=
  exec (run thermostat before) s0.

Definition check_state (before : list Inputs) (i : Inputs) (s0 : State) : State :=
  exec (interact i)
    (exec (control thermostat) (exec (ingest i) (after before s0))).

Definition check_active (before : list Inputs) (i : Inputs) (s0 : State) : bool :=
  let sc := check_state before i s0 in
  useTimer (enclosure1 sc) && heaterOn (enclosure1 sc).

Definition check_remaining (before : list Inputs) (i : Inputs) (s0 : State) : Z :=
  let sc := check_state before i s0 in
  remaining_seconds sc (enclosure1 sc).

Definition check_locked (before : list Inputs) (i : Inputs) (s0 : State) : bool :=
  buzzerLocked (check_state before i s0).

(** Inputs of the sample runs. *)
Definition idle_on_view : Inputs := cycle 75 75 12 false.
Definition press_on_view : Inputs := cycle 75 75 12 true.
Definition blind1 : Inputs :=
  mkInputs 100 (Some 70%float) (Some 70%float) None (Some 75%float)
    0 HIGH HIGH HIGH HIGH None None.
Definition humid (h : float) : Inputs :=
  mkInputs 100 (Some 70%float) (Some 70%float) (Some 75%float) (Some 75%float)
    0 HIGH HIGH HIGH HIGH (Some h) (Some h).

(** Main menu -> "3D Enclosure 1" -> "Set Temp". *)
Definition to_temp_screen : list Inputs :=
  [cycle 75 75 0 true; cycle 75 75 0 false; cycle 75 75 0 true].

(** Main menu -> "3D Enclosure 1" -> four detents -> "Set Humidity Alert". *)
Definition to_limit_screen : list Inputs :=
  [cycle 75 75 0 true; cycle 75 75 16 false; cycle 75 75 16 true].

(** Ten detents further, button released. *)
Definition turn_released : Inputs := cycle 75 75 40 false.

(** ** A small program logic for commands

    [preserves P c]: running [c] keeps [P]; [quiet c]: [c] writes no
    non-zero duty.  Both are proved by following the structure of the
    command, with one leaf per assignment. *)

Definition preserves (P : State -> Prop) (c : Cmd) : Prop :=
  forall s, P s -> P (exec c s).

Definition quiet (c : Cmd) : Prop :=
  forall s, no_heat (events c s) = true.

(** [Keeps f v]: the observation [f] of the state has the value [v]. *)
Definition Keeps {A : Type} (f : State -> A) (v : A) (s : State) : Prop :=
  f s = v.

(** Invariant and both heaters off. *)
Definition Shutdown (s : State) : Prop := Inv s /\ heaters_off s.

(** The heater flag of zone [z] is set. *)
Definition HeatOn (z : zone_id) (s : State) : Prop :=
  heaterOn (zone z s) = true.

(** ** The quadrature decoder (src/src/ESP32Encoder.h)

    The repository's own decoder class ([main.cpp] builds its encoder from
    the Encoder library instead).  [ESP32Encoder] keeps the last sampled
    state of the two encoder pins ([_oldState], bit 0 for pin 1 and bit 1
    for pin 2) and a position counter ([_position], a [long], 32 bits on the
    ESP32).  [tick()] samples the pins and moves the counter by one when the
    new state is a neighbour of the old one in the Gray sequence 0, 1, 3, 2.
    The increment and decrement are taken in two's complement, as the
    compiled code carries them out. *)

Definition sint32 (x : Z) : Z := (x + 2 ^ 31) mod 2 ^ 32 - 2 ^ 31.

Module ESP32Encoder.

Record t : Type := mk {
  oldState : Z;
  position : Z }.

(** The constructor: position 0, old state 0. *)
Definition init : t := mk 0 0.

(** The state [tick()] builds from the two [digitalRead] results. *)
Definition sample (pin1 pin2 : bool) : Z :=
  let newState := 0 in
  let newState := if pin1 then Z.lor newState 1 else newState in
  let newState := if pin2 then Z.lor newState 2 else newState in
  newState.

Definition incr (e : t) : t := mk (oldState e) (sint32 (position e + 1)).
Definition decr (e : t) : t := mk (oldState e) (sint32 (position e - 1)).

Definition tick (pin1 pin2 : bool) (e : t) : t :=
  let newState := sample pin1 pin2 in
  let e :=
    match oldState e with
    | 0 => if newState =? 1 then incr e else if newState =? 2 then decr e else e
    | 1 => if newState =? 3 then incr e else if newState =? 0 then decr e else e
    | 2 => if newState =? 0 then incr e else if newState =? 3 then decr e else e
    | 3 => if newState =? 2 then incr e else if newState =? 1 then decr e else e
    | _ => e
    end in
  mk newState (position e).

(** [read()]: one [tick()], then the position. *)
Definition read (pin1 pin2 : bool) (e : t) : t * Z :=
  let e := tick pin1 pin2 e in (e, position e).

Definition write (p : Z) (e : t) : t := mk (oldState e) p.

(** Successive ticks, one per sampled pin pair. *)
Fixpoint ticks (pins : list (bool * bool)) (e : t) : t :=
  match pins with
  | [] => e
  | (p1, p2) :: rest => ticks rest (tick p1 p2 e)
  end.

End ESP32Encoder.

(** The pin levels of a state, and its place in the Gray sequence
    0, 1, 3, 2. *)
Definition pins_of (st : Z) : bool * bool := (Z.testbit st 0, Z.testbit st 1).

Definition phase (st : Z) : Z :=
  match st with
  | 0 => 0
  | 1 => 1
  | 3 => 2
  | 2 => 3
  | _ => 0
  end.

(** The next state when turning one way, and the other way. *)
Definition next_cw (st : Z) : Z :=
  match st with 0 => 1 | 1 => 3 | 3 => 2 | _ => 0 end.
Definition next_ccw (st : Z) : Z :=
  match st with 0 => 2 | 2 => 3 | 3 => 1 | _ => 0 end.

Definition valid_state (st : Z) : bool := (0 <=? st) && (st <=? 3).

(** No sample of the list skips a state: each one repeats the state before
    it or is one of its two neighbours. *)
Fixpoint no_skip (st : Z) (pins : list (bool * bool)) : bool :=
  match pins with
  | [] => true
  | (p1, p2) :: rest =>
      let n := ESP32Encoder.sample p1 p2 in
      negb (Z.lxor st n =? 3) && no_skip n rest
  end.

(** The range of a [long]. *)
Definition in_long (p : Z) : Prop := - 2 ^ 31 <= p < 2 ^ 31.

(** ** Ranges and bookkeeping of the settings

    What the assignments of [loop()] can store in the menu indices, the
    setpoints and the timer durations, and the timer start, which only the
    arming screens 22 and 32 assign. *)

Definition in_menu (s : State) : Prop :=
  0 <= mainMenuIndex s < 7 /\ 0 <= settingsMenuIndex s < 4.

Definition setpoint_ok (v : Z) : Prop := 70 <= v <= 120.

(** A zone boots with a duration of 0; the timer screen stores 20 minutes to
    48 hours in steps of 10 minutes. *)
Definition duration_ok (t : Z) : Prop :=
  t = 0 \/ (1200 <= t <= 172800 /\ t mod 600 = 0).

Definition Steady (s : State) : Prop :=
  Inv s /\ in_menu s /\
  timerStart (enclosure1 s) = 0 /\ timerStart (enclosure2 s) = 0 /\
  setpoint_ok (setpoint (enclosure1 s)) /\ setpoint_ok (setpoint (enclosure2 s)) /\
  duration_ok (timerSeconds (enclosure1 s)) /\
  duration_ok (timerSeconds (enclosure2 s)).

(** The buzzer pin is at rest (the buzzer is active low). *)
Definition Silent (s : State) : Prop := buzzer_pin s = HIGH.

(** The uptime has reached [c0]. *)
Definition Since (c0 : Z) (s : State) : Prop := c0 <= clock s.

(** An 8-bit duty, as the LEDC channels are set up for (PWM_RES 8). *)
Definition duty_ok (d : Z) : Prop := 0 <= d <= 255.

Definition Duty (s : State) : Prop :=
  duty_ok (output (enclosure1 s)) /\ duty_ok (output (enclosure2 s)) /\
  duty_ok (ledc0 s) /\ duty_ok (ledc1 s).

(** The state the button handler of a cycle starts from. *)
Definition before_button (pid : list (float * Z) -> Z) (i : Inputs) (s : State)
  : State :=
  exec (encoder_nav i) (controlled pid i s).

(** The encoder switch reads LOW at the second [digitalRead] of the cycle:
    the button is not seen released. *)
Definition held (i : Inputs) : Prop := enc_sw_b i = LOW.

(** The mode, the duration and the screen: what the menu entries of a zone
    act on. *)
Definition zone_view (z : zone_id) (s : State) : Z * bool * Z :=
  (screenIndex s, useTimer (zone z s), timerSeconds (zone z s)).

(** The encoder switch reads HIGH at the first [digitalRead] of the cycle:
    no press is taken. *)
Definition untouched (i : Inputs) : Prop := enc_sw_a i = HIGH.

(** The zone settings and the screen as [setup()] leaves them: main menu,
    both zones in timer mode with a duration of 0. *)
Definition Default (s : State) : Prop :=
  screenIndex s = 100 /\ tuning s = false /\
  useTimer (enclosure1 s) = true /\ useTimer (enclosure2 s) = true /\
  timerSeconds (enclosure1 s) = 0 /\ timerSeconds (enclosure2 s) = 0.

(** A reading that is not a number, as the sensor library returns when the
    sensor does not answer in time. *)
Definition is_NaN (t : float) : bool := negb (PrimFloat.eqb t t).

(** ** The persisted cells

    The addresses [setup()] reads and the screens write (main.cpp:276-283):
    four [int] limits of four bytes each and four [bool] alarm flags of one
    byte each. *)
Definition int_cells : list Z := [0; 4; 8; 12].
Definition bool_cells : list Z := [16; 17; 18; 19].

(** ** Frames that are drawn

    [drawn f evs]: the event list sends the frame [f] to the display. *)
Definition drawn (f : frame) (evs : list event) : Prop := In (EvDisplay f) evs.

(** Events other than the all-temperatures page and the countdown page. *)
Definition not_dead_page (e : event) : bool :=
  match e with
  | EvDisplay FrAllTemps => false
  | EvDisplay (FrCountdown _) => false
  | _ => true
  end.

(** [emits_only ok c]: every event of [c] passes [ok]. *)
Definition emits_only (ok : event -> bool) (c : Cmd) : Prop :=
  forall s, forallb ok (events c s) = true.

(** ** Further inputs and states of the sample runs *)

(** A cycle with the back button pressed. *)
Definition back_press : Inputs :=
  mkInputs 100 (Some 70%float) (Some 70%float) (Some 75%float) (Some 75%float)
    0 HIGH HIGH LOW LOW (Some 40%float) (Some 40%float).

(** A cycle in which the sensor of enclosure 1 returns no number. *)
Definition nan_reading : Inputs :=
  mkInputs 100 (Some 70%float) (Some 70%float) (Some (0 / 0)%float) (Some 75%float)
    0 HIGH HIGH HIGH HIGH (Some 40%float) (Some 40%float).

(** After a press on the first main-menu entry and one detent back: the
    submenu of enclosure 1 at position -1. *)
Definition below_zero : State :=
  exec (run thermostat [cycle 75 75 0 true; cycle 75 75 (-4) false]) boot.

(** The submenu of enclosure 1 at position 2, button released. *)
Definition on_set_timer : State :=
  exec (run thermostat [cycle 75 75 0 true; cycle 75 75 8 false]) boot.

(** After choosing "All Sensors" on the main menu. *)
Definition on_all_sensors : State :=
  exec (run thermostat [cycle 75 75 16 false; cycle 75 75 16 true]) boot.

(** ** Beeps and alarm flags *)

(** Events that leave the buzzer alone. *)
Definition no_buzzer (e : event) : bool :=
  match e with
  | EvBuzzer _ => false
  | _ => true
  end.

(** The four humidity-alarm flags, with the submenu each one is toggled
    on, the entry that toggles it and the EEPROM cell that stores it. *)
Inductive alarm : Type :=
| AlarmZone (z : zone_id)
| AlarmF1
| AlarmF2.

Definition alarm_screen (a : alarm) : Z :=
  match a with
  | AlarmZone z => scr_menu z
  | AlarmF1 => 12
  | AlarmF2 => 13
  end.

Definition alarm_entry (a : alarm) (pos : Z) : Prop :=
  match a with
  | AlarmZone _ => Z.rem pos 6 = 5
  | AlarmF1 | AlarmF2 => Z.rem pos 2 = 1
  end.

Definition alarm_flag (a : alarm) (s : State) : bool :=
  match a with
  | AlarmZone z => humidityAlarm z s
  | AlarmF1 => humidityAlarmF1 s
  | AlarmF2 => humidityAlarmF2 s
  end.

Definition alarm_addr (a : alarm) : Z :=
  match a with
  | AlarmZone Enc1 => 16
  | AlarmZone Enc2 => 17
  | AlarmF1 => 18
  | AlarmF2 => 19
  end.

(** The settings menu with "Beep on Push" highlighted, beep enabled. *)
Definition on_beep_entry : State :=
  set_screenIndex 99 (set_settingsMenuIndex 3 boot).

(** The submenu of enclosure 2 with "Toggle Humidity Alarm" highlighted. *)
Definition on_alarm_entry : State :=
  set_screenIndex 11 (set_lastEncoderPos 5 boot).

(** ** The high-humidity interstitial within a cycle *)

(** A frame of the interstitial, for whatever name. *)
Definition is_interstitial (e : event) : bool :=
  match e with
  | EvDisplay (FrHighHumidity _) => true
  | _ => false
  end.

Definition shows_interstitial (evs : list event) : bool :=
  existsb is_interstitial evs.

Definition no_interstitial (e : event) : bool := negb (is_interstitial e).

(** The cycle takes a press of the encoder button on the submenu of
    enclosure [z] with the entry "View Temp" (entry 3) selected: the switch
    reads LOW at the first [digitalRead] with the latch clear, the screen
    is the submenu, and the position the cycle reads from the encoder has
    remainder 3 modulo 6. *)
Definition view_press (z : zone_id) (i : Inputs) (s : State) : bool :=
  negb (enc_sw_a i) && negb (encoderButtonPressed s) &&
  (screenIndex s =? scr_menu z) &&
  (Z.rem (Z.quot (enc_raw i) 4) 6 =? 3).

(** What the zone view reads of the state: the screen, the names of the two
    enclosures, their limits and their alarm flags. *)
Definition humidity_view (s : State)
  : Z * string * string * Z * Z * bool * bool :=
  (screenIndex s, name (enclosure1 s), name (enclosure2 s),
   humidityLimit1 s, humidityLimit2 s, humidityAlarm1 s, humidityAlarm2 s).

(** A cycle with both enclosures at 75 degrees and both humidity readings
    at [h] percent. *)
Definition humid_cycle (h : float) (raw : Z) (pressed : bool) : Inputs :=
  mkInputs 100 (Some 70%float) (Some 70%float) (Some 75%float) (Some 75%float)
    raw (negb pressed) (negb pressed) HIGH HIGH (Some h) (Some h).

(** Main menu -> "3D Enclosure 1" -> "Toggle Humidity Alarm" (the alarm of
    enclosure 1 goes on) -> "View Temp" highlighted, button released; the
    humidity reads 70 percent throughout. *)
Definition to_view_entry : list Inputs :=
  [humid_cycle 70 0 true; humid_cycle 70 20 false;
   humid_cycle 70 20 true; humid_cycle 70 12 false].

Definition on_view_entry : State := after to_view_entry boot.

(** Main menu -> "Filament Box 1" -> "Toggle Humidity Alarm" (the alarm of
    filament box 1 goes on), then two idle cycles on the submenu; the
    humidity reads 70 percent throughout. *)
Definition filament_walk : list Inputs :=
  [humid_cycle 70 8 false; humid_cycle 70 8 true;
   humid_cycle 70 12 false; humid_cycle 70 12 true;
   humid_cycle 70 12 false; humid_cycle 70 12 false].

(** On from there: "Set Humidity Alert" of filament box 1 and two cycles on
    its screen. *)
Definition filament_limit_walk : list Inputs :=
  [humid_cycle 70 16 false; humid_cycle 70 16 true; humid_cycle 70 16 false].
(** ** Basic facts about commands *)

Lemma exec_seq (c1 c2 : Cmd) (s : State) :
  exec (c1 ;; c2) s = exec c2 (exec c1 s).
Proof.
  unfold exec, seq. destruct (c1 s) as [s1 e1]. cbn [fst].
  now destruct (c2 s1).
Qed.

Lemma events_seq (c1 c2 : Cmd) (s : State) :
  events (c1 ;; c2) s = events c1 s ++ events c2 (exec c1 s).
Proof.
  unfold events, exec, seq. destruct (c1 s) as [s1 e1]. cbn [fst snd].
  now destruct (c2 s1).
Qed.

Lemma no_heat_app (a b : list event) :
  no_heat (a ++ b) = no_heat a && no_heat b.
Proof. apply forallb_app. Qed.

Lemma no_heat_In (evs : list event) (ch d : Z) :
  no_heat evs = true -> In (EvLedc ch d) evs -> d = 0.
Proof.
  unfold no_heat. rewrite forallb_forall. intros H Hin.
  apply Z.eqb_eq. exact (H _ Hin).
Qed.

(** ** Floating-point comparison *)

Lemma SFcompare_Lt_flip (x y : spec_float) :
  SFcompare x y = Some Lt -> SFcompare y x = Some Gt.
Proof.
  destruct x as [sx|sx| |sx mx ex], y as [sy|sy| |sy my ey]; cbn [SFcompare];
    try discriminate; try (destruct sx, sy; (discriminate || reflexivity));
    try (destruct sx; (discriminate || reflexivity));
    try (destruct sy; (discriminate || reflexivity)).
  change (Pos.compare_cont Eq my mx) with (my ?= mx)%positive.
  change (Pos.compare_cont Eq mx my) with (mx ?= my)%positive.
  rewrite (Z.compare_antisym ex ey), (Pos.compare_antisym mx my).
  destruct sx, sy; try (discriminate || reflexivity);
    destruct (ex ?= ey)%Z; cbn [CompOpp]; try (discriminate || reflexivity);
    destruct (mx ?= my)%positive; cbn [CompOpp]; (discriminate || reflexivity).
Qed.

Lemma lt130_not_ge130 (t : float) : lt130 t = true -> ge130 t = false.
Proof.
  unfold lt130, ge130. rewrite FloatAxioms.ltb_spec, FloatAxioms.leb_spec. unfold SFltb, SFleb.
  destruct (SFcompare (Prim2SF t) (Prim2SF 130)) as [[| |]|] eqn:E;
    try discriminate.
  intros _. now rewrite (SFcompare_Lt_flip _ _ E).
Qed.
Lemma preserves_apply (P : State -> Prop) (c : Cmd) (s : State) :
  preserves P c -> P s -> P (exec c s).
Proof. intros H. apply H. Qed.

Lemma preserves_skip P : preserves P skip.
Proof. intros s H. exact H. Qed.

Lemma preserves_seq P c1 c2 :
  preserves P c1 -> preserves P c2 -> preserves P (c1 ;; c2).
Proof. intros H1 H2 s H. rewrite exec_seq. apply H2, H1, H. Qed.

Lemma preserves_ifte P b c1 c2 :
  preserves P c1 -> preserves P c2 -> preserves P (ifte b c1 c2).
Proof.
  intros H1 H2 s H. unfold exec, ifte.
  destruct (b s); [apply H1 | apply H2]; exact H.
Qed.

Lemma preserves_when P b c : preserves P c -> preserves P (when b c).
Proof. intros H. apply preserves_ifte; [exact H | apply preserves_skip]. Qed.

Lemma preserves_modify (P : State -> Prop) f :
  (forall s, P s -> P (f s)) -> preserves P (modify f).
Proof. intros H s Hs. apply H, Hs. Qed.

Lemma preserves_emit P e : preserves P (emit e).
Proof. intros s H. exact H. Qed.

Lemma preserves_repeat P n c : preserves P c -> preserves P (repeat_cmd n c).
Proof.
  intros H. induction n as [|n IH]; cbn [repeat_cmd].
  - apply preserves_skip.
  - apply preserves_seq; assumption.
Qed.

Lemma switch_point (P : State -> Prop) v cases s :
  P s ->
  Forall (fun kc => v = fst kc -> P (exec (snd kc) s)) cases ->
  P (exec (switch v cases) s).
Proof.
  intros Hs. induction 1 as [|[k c] rest Hk _ IH]; cbn [switch].
  - exact Hs.
  - destruct (Z.eqb_spec v k) as [E|_]; [exact (Hk E) | exact IH].
Qed.

Lemma quiet_apply c s : quiet c -> no_heat (events c s) = true.
Proof. intros H. apply H. Qed.

Lemma quiet_skip : quiet skip.
Proof. intros s. reflexivity. Qed.

Lemma quiet_seq c1 c2 : quiet c1 -> quiet c2 -> quiet (c1 ;; c2).
Proof.
  intros H1 H2 s. rewrite events_seq, no_heat_app, H1, H2. reflexivity.
Qed.

Lemma quiet_ifte b c1 c2 : quiet c1 -> quiet c2 -> quiet (ifte b c1 c2).
Proof.
  intros H1 H2 s. unfold events, ifte.
  destruct (b s); [apply H1 | apply H2].
Qed.

Lemma quiet_when b c : quiet c -> quiet (when b c).
Proof. intros H. apply quiet_ifte; [exact H | apply quiet_skip]. Qed.

Lemma quiet_modify f : quiet (modify f).
Proof. intros s. reflexivity. Qed.

Lemma quiet_repeat n c : quiet c -> quiet (repeat_cmd n c).
Proof.
  intros H. induction n as [|n IH]; cbn [repeat_cmd].
  - apply quiet_skip.
  - apply quiet_seq; assumption.
Qed.

Lemma quiet_switch v cases :
  Forall (fun kc => quiet (snd kc)) cases -> quiet (switch v cases).
Proof.
  induction 1 as [|[k c] rest Hk _ IH]; cbn [switch].
  - apply quiet_skip.
  - destruct (v =? k); [exact Hk | exact IH].
Qed.

(** *** Tactics *)

Ltac run_switch := cbv [switch Z.eqb Pos.eqb]; cbv beta iota.


Ltac proj :=
  cbn -[Z.quot Z.rem Z.abs Z.eqb Z.leb Z.ltb Z.add Z.mul Z.sub Z.div Z.modulo Z.max
        Z.pow wrap32 high_humidity zone_humidity indexOf limit_of temp_of
        timer_of poke ge130 lt130 gt_int screen_ok boot_name no_heat
        elapsed_seconds remaining_seconds EEPROM_get_int] in *.

Ltac split_any :=
  match goal with
  | |- context [if ?b then _ else _] => destruct b eqn:?
  | |- context [match ?o with Some _ => _ | None => _ end] => destruct o eqn:?
  end.

Ltac split_top :=
  lazymatch goal with
  | |- _ (_ (if ?b then _ else _)) => destruct b eqn:?
  | |- _ (_ (match ?o with Some _ => _ | None => _ end)) => destruct o eqn:?
  | |- _ (_ (if ?b then _ else _)) = true => destruct b eqn:?
  end.

Ltac get_head c :=
  lazymatch c with
  | ?f _ => get_head f
  | _ => c
  end.

(** [hoare leaf] proves [preserves P c] along the structure of [c]; [leaf]
    proves that one assignment keeps [P]. *)
Ltac hoare leaf :=
  lazymatch goal with
  | |- preserves _ skip => apply preserves_skip
  | |- preserves _ (seq _ _) => apply preserves_seq; hoare leaf
  | |- preserves _ (when _ _) => apply preserves_when; hoare leaf
  | |- preserves _ (ifte _ _ _) => apply preserves_ifte; hoare leaf
  | |- preserves _ (repeat_cmd _ _) => apply preserves_repeat; hoare leaf
  | |- preserves _ (emit _) => apply preserves_emit
  | |- preserves _ (display _) => apply preserves_emit
  | |- preserves _ (modify _) => apply preserves_modify; leaf
  | |- preserves _ (match ?z with Enc1 => _ | Enc2 => _ end) =>
      destruct z; hoare leaf
  | |- preserves ?P (fun s => _) =>
      let s0 := fresh "s" in
      let H0 := fresh "Hpre" in
      intros s0 H0; unfold exec; cbv beta zeta; repeat split_top;
      hoare_point leaf s0 H0
  | |- preserves _ ?c =>
      let h := get_head c in unfold h; hoare leaf
  end
with hoare_point leaf s0 H0 :=
  lazymatch goal with
  | |- ?P (fst (switch ?v ?cases s0)) =>
      change (P (exec (switch v cases) s0));
      apply switch_point; [exact H0 |];
      repeat (apply Forall_cons || apply Forall_nil); cbn [fst snd];
      (let Hv := fresh "Hv" in
       intro Hv;
       first [ solve [leaf] | apply preserves_apply; [hoare leaf | exact H0] ])
  | |- ?P (fst (?c s0)) =>
      change (P (exec c s0)); apply preserves_apply; [hoare leaf | exact H0]
  | |- ?P (fst (_, _)) => cbn [fst]; revert s0 H0; leaf
  | |- _ => revert s0 H0; leaf
  end.

(** [silent] proves [quiet c] the same way. *)
Ltac silent :=
  lazymatch goal with
  | |- quiet skip => apply quiet_skip
  | |- quiet (seq _ _) => apply quiet_seq; silent
  | |- quiet (when _ _) => apply quiet_when; silent
  | |- quiet (ifte _ _ _) => apply quiet_ifte; silent
  | |- quiet (repeat_cmd _ _) => apply quiet_repeat; silent
  | |- quiet (modify _) => apply quiet_modify
  | |- quiet (switch _ _) =>
      apply quiet_switch; repeat (apply Forall_cons || apply Forall_nil);
      cbn [snd]; silent
  | |- quiet (match ?z with Enc1 => _ | Enc2 => _ end) => destruct z; silent
  | |- quiet (fun s => _) =>
      let s0 := fresh "s" in
      intros s0; unfold events; cbv beta zeta; repeat split_top;
      lazymatch goal with
      | |- no_heat (snd (_, _)) = true => reflexivity
      | |- no_heat (snd (?c s0)) = true =>
          change (no_heat (events c s0) = true); apply quiet_apply; silent
      end
  | |- quiet ?c =>
      let h := get_head c in unfold h; silent
  end.

Ltac screen_absurd :=
  match goal with
  | Hv : screenIndex ?s = _, Hs : screen_ok (screenIndex ?s) = true |- _ =>
      rewrite Hv in Hs; discriminate
  end.

(** The leaf for properties made of [Inv], [heaters_off] and equations
    between observations. *)
Ltac leaf :=
  intros;
  repeat match goal with
         | a : adjust |- _ => destruct a
         | z : zone_id |- _ => destruct z
         end;
  unfold Shutdown, heaters_off, HeatOn, Keeps, adjust_view, stored_view in *;
  repeat match goal with
         | H : _ /\ _ |- _ => destruct H
         | H : Inv _ |- _ => destruct H
         end;
  proj; repeat split_any; proj;
  first [ screen_absurd
        | repeat split; proj;
          first [assumption | reflexivity | congruence | discriminate] ].

(** ** What each part of the iteration preserves *)

Section Frames.

Variable pid : list (float * Z) -> Z.

Lemma Inv_loop i : preserves Inv (loop pid i).
Proof. hoare leaf. Qed.

Lemma reachable_Inv s : reachable pid s -> Inv s.
Proof.
  induction 1 as [rom t0 | s i _ IH].
  - split; reflexivity.
  - now apply Inv_loop.
Qed.

Lemma Shutdown_interact i : preserves Shutdown (interact i).
Proof. hoare leaf. Qed.

Lemma Shutdown_timer_check z : preserves Shutdown (timer_check z).
Proof. hoare leaf. Qed.

Lemma Shutdown_finish_cycle : preserves Shutdown finish_cycle.
Proof. hoare leaf. Qed.

Lemma quiet_interact i : quiet (interact i).
Proof. silent. Qed.

Lemma quiet_timer_check z : quiet (timer_check z).
Proof. silent. Qed.

Lemma quiet_finish_cycle : quiet finish_cycle.
Proof. silent. Qed.

Lemma HeatOn_interact i z : preserves (HeatOn z) (interact i).
Proof. hoare leaf. Qed.

End Frames.

(** ** The control block *)

Lemma exec_ifte b c1 c2 s :
  exec (ifte b c1 c2) s = if b s then exec c1 s else exec c2 s.
Proof. unfold exec, ifte. now destruct (b s). Qed.

Lemma events_ifte b c1 c2 s :
  events (ifte b c1 c2) s = if b s then events c1 s else events c2 s.
Proof. unfold events, ifte. now destruct (b s). Qed.

Lemma exec_when b c s : exec (when b c) s = if b s then exec c s else s.
Proof. unfold when. now rewrite exec_ifte. Qed.

Lemma events_when b c s : events (when b c) s = if b s then events c s else [].
Proof. unfold when. now rewrite events_ifte. Qed.

Section Control.

Variable pid : list (float * Z) -> Z.


Lemma sensed_currentTemp i z s :
  currentTemp (zone z (sensed i s)) = ingested i z s.
Proof.
  unfold sensed, ingested, reading, ingest, read_sensors, elapse. rewrite !exec_seq.
  destruct z, (temp_ch0 i), (temp_ch3 i), (temp_ch1 i), (temp_ch2 i);
    reflexivity.
Qed.

Lemma sensed_overheat i s :
  overheat (sensed i s) = ge130 (ingested i Enc1 s) || ge130 (ingested i Enc2 s).
Proof.
  unfold overheat.
  now rewrite <- (sensed_currentTemp i Enc1 s), <- (sensed_currentTemp i Enc2 s).
Qed.

Lemma Inv_ingest i : preserves Inv (ingest i).
Proof. hoare leaf. Qed.

Lemma overheat_shutdown_off s :
  heaters_off (exec overheat_shutdown s) /\
  buzzerLocked (exec overheat_shutdown s) = true /\
  no_heat (events overheat_shutdown s) = true.
Proof. unfold heaters_off. repeat split; vm_compute; reflexivity. Qed.

Lemma control_unfold s :
  tuning s = false ->
  control pid s =
  (if overheat s then overheat_shutdown (inputs_set s)
   else pid_control pid (inputs_set s)).
Proof.
  intros Ht. unfold control, when, ifte. rewrite Ht. cbn [negb].
  unfold seq at 1. cbn [modify]. unfold seq at 1. cbn [modify fst snd].
  change (overheat (upd_zone Enc2 _ _)) with (overheat s).
  fold (inputs_set s).
  destruct (overheat s).
  - now destruct (overheat_shutdown (inputs_set s)).
  - now destruct (pid_control pid (inputs_set s)).
Qed.

Lemma exec_control s :
  tuning s = false ->
  exec (control pid) s =
  if overheat s then exec overheat_shutdown (inputs_set s)
  else exec (pid_control pid) (inputs_set s).
Proof.
  intros Ht. unfold exec. rewrite (control_unfold s Ht).
  now destruct (overheat s).
Qed.

Lemma events_control s :
  tuning s = false ->
  events (control pid) s =
  if overheat s then events overheat_shutdown (inputs_set s)
  else events (pid_control pid) (inputs_set s).
Proof.
  intros Ht. unfold events. rewrite (control_unfold s Ht).
  now destruct (overheat s).
Qed.

Lemma control_overheat s :
  tuning s = false -> overheat s = true ->
  heaters_off (exec (control pid) s) /\
  buzzerLocked (exec (control pid) s) = true /\
  no_heat (events (control pid) s) = true.
Proof.
  intros Ht Ho. rewrite (exec_control s Ht), (events_control s Ht), Ho.
  apply overheat_shutdown_off.
Qed.

Lemma control_normal s :
  tuning s = false -> overheat s = false ->
  heaterOn (enclosure1 (exec (control pid) s)) = true /\
  heaterOn (enclosure2 (exec (control pid) s)) = true /\
  output (enclosure1 (exec (control pid) s)) = pid_duty pid Enc1 s /\
  output (enclosure2 (exec (control pid) s)) = pid_duty pid Enc2 s /\
  ledc0 (exec (control pid) s) = pid_duty pid Enc1 s /\
  ledc1 (exec (control pid) s) = pid_duty pid Enc2 s /\
  fastPID1 (exec (control pid) s) =
    (currentTemp (enclosure1 s), setpoint (enclosure1 s)) :: fastPID1 s /\
  fastPID2 (exec (control pid) s) =
    (currentTemp (enclosure2 s), setpoint (enclosure2 s)) :: fastPID2 s /\
  events (control pid) s =
    [EvLedc HEATER1_CH (pid_duty pid Enc1 s); EvLedc HEATER2_CH (pid_duty pid Enc2 s)].
Proof.
  intros Ht Ho. rewrite (exec_control s Ht), (events_control s Ht), Ho.
  repeat split; vm_compute; reflexivity.
Qed.

End Control.

(** ** The timer check *)

Lemma timer_check_inactive z s :
  useTimer (zone z s) && heaterOn (zone z s) = false ->
  timer_check z s = (s, []).
Proof. intros H. unfold timer_check. now rewrite H. Qed.

Lemma timer_check_active z s :
  useTimer (zone z s) && heaterOn (zone z s) = true ->
  timer_check z s =
  (timer_alerts (remaining_seconds s (zone z s)) ;;
   timer_expiry z (elapsed_seconds s (zone z s))) s.
Proof. intros H. unfold timer_check. now rewrite H. Qed.

Lemma alerts_zone r z s : zone z (exec (timer_alerts r) s) = zone z s.
Proof.
  apply (preserves_apply (Keeps (zone z) (zone z s))); [hoare leaf | reflexivity].
Qed.

Lemma alerts_ledc r z s : ledc z (exec (timer_alerts r) s) = ledc z s.
Proof.
  apply (preserves_apply (Keeps (ledc z) (ledc z s))); [hoare leaf | reflexivity].
Qed.

Lemma alerts_events r s :
  events (timer_alerts r) s =
  (if warning_due r s then five_minute_pattern else []) ++
  (if sequence_due r s then countdown_pattern else []).
Proof.
  unfold timer_alerts, warning_due, sequence_due.
  rewrite events_seq, exec_when, !events_when. cbv beta.
  destruct (buzzerLocked s) eqn:L, (r =? 300), (r <=? 30), (0 <? r);
    cbn [andb negb];
    try change (buzzerLocked (exec five_minute_beep s)) with (buzzerLocked s);
    rewrite ?L; reflexivity.
Qed.

Lemma alerts_locked r s :
  buzzerLocked (exec (timer_alerts r) s) = buzzerLocked s || sequence_due r s.
Proof.
  unfold timer_alerts, sequence_due.
  rewrite exec_seq, !exec_when. cbv beta.
  destruct (buzzerLocked s) eqn:L, (r =? 300), (r <=? 30), (0 <? r);
    cbn [andb negb orb];
    try change (buzzerLocked (exec five_minute_beep s)) with (buzzerLocked s);
    rewrite ?L; try reflexivity; exact L.
Qed.

Lemma expiry_done z el s :
  (timerSeconds (zone z s) <=? el) = true ->
  heaterOn (zone z (exec (timer_expiry z el) s)) = false /\
  ledc z (exec (timer_expiry z el) s) = 0 /\
  buzzerLocked (exec (timer_expiry z el) s) = false /\
  events (timer_expiry z el) s = [EvLedc (heater_ch z) 0].
Proof.
  intros H. unfold timer_expiry. rewrite exec_when, events_when. cbv beta.
  rewrite H. destruct z; repeat split; reflexivity.
Qed.

Lemma expiry_pending z el s :
  (timerSeconds (zone z s) <=? el) = false ->
  exec (timer_expiry z el) s = s /\ events (timer_expiry z el) s = [].
Proof.
  intros H. unfold timer_expiry. rewrite exec_when, events_when. cbv beta.
  now rewrite H.
Qed.

(** The timer check of a zone in timer mode whose heater is on. *)
Lemma timer_check_spec z s :
  useTimer (zone z s) = true -> heaterOn (zone z s) = true ->
  let T := timerSeconds (zone z s) in
  let el := elapsed_seconds s (zone z s) in
  let r := remaining_seconds s (zone z s) in
  let s' := exec (timer_check z) s in
  heaterOn (zone z s') = negb (T <=? el) /\
  ledc z s' = (if T <=? el then 0 else ledc z s) /\
  buzzerLocked s' =
    (if T <=? el then false else buzzerLocked s || sequence_due r s) /\
  events (timer_check z) s =
    (if warning_due r s then five_minute_pattern else []) ++
    (if sequence_due r s then countdown_pattern else []) ++
    (if T <=? el then [EvLedc (heater_ch z) 0] else []).
Proof.
  intros Hu Hh T el r s'. subst s'. unfold exec at 1 2 3, events.
  rewrite timer_check_active by (now rewrite Hu, Hh).
  fold el r.
  change (fst ((timer_alerts r ;; timer_expiry z el) s))
    with (exec (timer_alerts r ;; timer_expiry z el) s).
  change (snd ((timer_alerts r ;; timer_expiry z el) s))
    with (events (timer_alerts r ;; timer_expiry z el) s).
  rewrite exec_seq, events_seq, alerts_events.
  set (s1 := exec (timer_alerts r) s).
  assert (Hz : zone z s1 = zone z s) by apply alerts_zone.
  assert (Hl : ledc z s1 = ledc z s) by apply alerts_ledc.
  assert (Hb : buzzerLocked s1 = buzzerLocked s || sequence_due r s)
    by apply alerts_locked.
  destruct (T <=? el) eqn:E.
  - destruct (expiry_done z el s1) as (H1 & H2 & H3 & H4).
    { rewrite Hz. exact E. }
    rewrite H1, H2, H3, H4. rewrite <- app_assoc. repeat split.
  - destruct (expiry_pending z el s1) as (H1 & H2).
    { rewrite Hz. exact E. }
    rewrite H1, H2, Hz, Hl, Hb, Hh. rewrite <- app_assoc. repeat split.
Qed.

(** ** One iteration, block by block *)

Section Cycle.

Variable pid : list (float * Z) -> Z.


Lemma loop_exec i s :
  exec (loop pid i) s =
  exec finish_cycle (exec (timer_check Enc2) (at_check pid i Enc2 s)).
Proof. unfold loop. now rewrite !exec_seq. Qed.

Lemma loop_events i s :
  events (loop pid i) s =
  events (ingest i) s ++
  events (control pid) (sensed i s) ++
  events (interact i) (controlled pid i s) ++
  events (timer_check Enc1) (at_check pid i Enc1 s) ++
  events (timer_check Enc2) (at_check pid i Enc2 s) ++
  events finish_cycle (exec (timer_check Enc2) (at_check pid i Enc2 s)).
Proof. unfold loop. now rewrite !events_seq, ?exec_seq. Qed.

Lemma Inv_control : preserves Inv (control pid).
Proof. hoare leaf. Qed.

Lemma quiet_ingest i : quiet (ingest i).
Proof. silent. Qed.

Lemma tuning_loop i s : tuning (exec (loop pid i) s) = tuning s.
Proof.
  apply (preserves_apply (Keeps tuning (tuning s))); [hoare leaf | reflexivity].
Qed.

(** A cycle that finds a zone at or above 130 leaves both heaters off and
    writes no duty but 0. *)
Lemma overheat_cycle i s :
  Inv s -> overheat (sensed i s) = true ->
  Shutdown (exec (loop pid i) s) /\ no_heat (events (loop pid i) s) = true.
Proof.
  intros HI Ho.
  assert (HI1 : Inv (sensed i s)) by (apply Inv_ingest; exact HI).
  destruct (control_overheat pid (sensed i s) (inv_tuning _ HI1) Ho)
    as (Hoff & _ & Hq).
  assert (H2 : Shutdown (controlled pid i s)).
  { split; [apply Inv_control; exact HI1 | exact Hoff]. }
  split.
  - rewrite loop_exec. apply Shutdown_finish_cycle, Shutdown_timer_check.
    unfold at_check. apply Shutdown_timer_check, Shutdown_interact, H2.
  - rewrite loop_events, !no_heat_app.
    rewrite (quiet_ingest i s), Hq, (quiet_interact i), !quiet_timer_check,
      quiet_finish_cycle.
    reflexivity.
Qed.

(** A cycle that finds both zones under 130 leaves the control block with
    both heaters switched on at the duty of the stepping function. *)
Lemma normal_control i s :
  tuning s = false -> overheat (sensed i s) = false ->
  heaterOn (enclosure1 (controlled pid i s)) = true /\
  heaterOn (enclosure2 (controlled pid i s)) = true /\
  ledc0 (controlled pid i s) = pid_duty pid Enc1 (sensed i s) /\
  ledc1 (controlled pid i s) = pid_duty pid Enc2 (sensed i s) /\
  events (control pid) (sensed i s) =
    [EvLedc HEATER1_CH (pid_duty pid Enc1 (sensed i s));
     EvLedc HEATER2_CH (pid_duty pid Enc2 (sensed i s))].
Proof.
  intros Ht Ho.
  assert (Ht1 : tuning (sensed i s) = false).
  { unfold sensed. rewrite <- Ht.
    apply (preserves_apply (Keeps tuning (tuning s))); [hoare leaf | reflexivity]. }
  destruct (control_normal pid (sensed i s) Ht1 Ho)
    as (H1 & H2 & _ & _ & H5 & H6 & _ & _ & H9).
  unfold controlled. repeat split; assumption.
Qed.

(** **** C1 *)

(** C1.  In every cycle of the running firmware in which the temperature
    ingested for either zone is at or above 130 degrees, both zones'
    [heaterOn] are false and both heater duties are 0 when the cycle ends,
    whatever the mode of the zones, and no duty other than 0 is written to a
    heater channel at any point of that cycle. *)
Theorem C1_overheat_forces_heaters_off (s : State) (i : Inputs) :
  reachable pid s ->
  ge130 (ingested i Enc1 s) || ge130 (ingested i Enc2 s) = true ->
  heaterOn (enclosure1 (exec (loop pid i) s)) = false /\
  heaterOn (enclosure2 (exec (loop pid i) s)) = false /\
  ledc0 (exec (loop pid i) s) = 0 /\
  ledc1 (exec (loop pid i) s) = 0 /\
  (forall ch duty, In (EvLedc ch duty) (events (loop pid i) s) -> duty = 0).
Proof.
  intros Hr Hhot.
  destruct (overheat_cycle i s) as ((_ & H1 & H2 & H3 & H4) & Hq).
  - apply (reachable_Inv pid), Hr.
  - rewrite sensed_overheat. exact Hhot.
  - repeat split; try assumption.
    intros ch duty Hin. exact (no_heat_In _ ch duty Hq Hin).
Qed.

(** **** C2 *)

(** C2 (amended).  An overheat cycle leaves both heaters off, but the
    firmware keeps no latch: the next cycle decides from its own
    temperatures.  If one is still at or above 130 the heaters stay off; if
    neither is, the control block sets [heaterOn] for both zones and writes
    the PID duty to both channels, with no reset in between. *)
Theorem C2_shutdown_lasts_while_hot (s : State) (i1 i2 : Inputs) :
  reachable pid s ->
  ge130 (ingested i1 Enc1 s) || ge130 (ingested i1 Enc2 s) = true ->
  let s1 := exec (loop pid i1) s in
  heaters_off s1 /\
  (ge130 (ingested i2 Enc1 s1) || ge130 (ingested i2 Enc2 s1) = true ->
   heaters_off (exec (loop pid i2) s1)) /\
  (ge130 (ingested i2 Enc1 s1) || ge130 (ingested i2 Enc2 s1) = false ->
   heaterOn (enclosure1 (controlled pid i2 s1)) = true /\
   heaterOn (enclosure2 (controlled pid i2 s1)) = true /\
   ledc0 (controlled pid i2 s1) = pid_duty pid Enc1 (sensed i2 s1) /\
   ledc1 (controlled pid i2 s1) = pid_duty pid Enc2 (sensed i2 s1)).
Proof.
  intros Hr Hhot s1.
  assert (HI : Inv s) by (apply (reachable_Inv pid), Hr).
  destruct (overheat_cycle i1 s HI) as ((HI1 & Hoff) & _).
  { rewrite sensed_overheat. exact Hhot. }
  fold s1 in HI1, Hoff. split; [exact Hoff | split].
  - intros Hhot2. destruct (overheat_cycle i2 s1 HI1) as ((_ & Hoff2) & _).
    + rewrite sensed_overheat. exact Hhot2.
    + exact Hoff2.
  - intros Hcool.
    destruct (normal_control i2 s1 (inv_tuning _ HI1)) as (H1 & H2 & H3 & H4 & _).
    + rewrite sensed_overheat. exact Hcool.
    + repeat split; assumption.
Qed.

(** **** C10 *)

(** C10.  With [tuning] false, a cycle whose two ingested temperatures are
    below 130 leaves the control block with [heaterOn] true for both zones
    and the PID duty written to both heater channels, whatever the state the
    cycle started from (mode, timer, heater flags); in particular in the
    cycle that follows any other cycle, such as one that ran SHUT ALL OFF or
    completed a timer. *)
Theorem C10_control_switches_heaters_on (s : State) (i : Inputs) :
  tuning s = false ->
  lt130 (ingested i Enc1 s) = true ->
  lt130 (ingested i Enc2 s) = true ->
  (heaterOn (enclosure1 (controlled pid i s)) = true /\
   heaterOn (enclosure2 (controlled pid i s)) = true /\
   ledc0 (controlled pid i s) = pid_duty pid Enc1 (sensed i s) /\
   ledc1 (controlled pid i s) = pid_duty pid Enc2 (sensed i s) /\
   events (control pid) (sensed i s) =
     [EvLedc HEATER1_CH (pid_duty pid Enc1 (sensed i s));
      EvLedc HEATER2_CH (pid_duty pid Enc2 (sensed i s))]) /\
  (forall i0 : Inputs,
     let s1 := exec (loop pid i0) s in
     lt130 (ingested i Enc1 s1) = true ->
     lt130 (ingested i Enc2 s1) = true ->
     heaterOn (enclosure1 (controlled pid i s1)) = true /\
     heaterOn (enclosure2 (controlled pid i s1)) = true /\
     ledc0 (controlled pid i s1) = pid_duty pid Enc1 (sensed i s1) /\
     ledc1 (controlled pid i s1) = pid_duty pid Enc2 (sensed i s1)).
Proof.
  intros Ht H1 H2. split.
  - apply normal_control; [exact Ht |].
    rewrite sensed_overheat.
    now rewrite (lt130_not_ge130 _ H1), (lt130_not_ge130 _ H2).
  - intros i0 s1 H3 H4.
    destruct (normal_control i s1) as (A & B & C & D & _).
    + unfold s1. rewrite tuning_loop. exact Ht.
    + rewrite sensed_overheat.
      now rewrite (lt130_not_ge130 _ H3), (lt130_not_ge130 _ H4).
    + repeat split; assumption.
Qed.

End Cycle.

(** ** Timer mode and manual mode within a cycle *)

Lemma elapsed_range s zn : 0 <= elapsed_seconds s zn < 4294968.
Proof.
  unfold elapsed_seconds, wrap32, U32.
  pose proof (Z.mod_pos_bound (millis s - timerStart zn) (2 ^ 32) eq_refl) as H.
  change (2 ^ 32) with 4294967296 in *.
  split.
  - apply Z.div_pos; lia.
  - apply Z.div_lt_upper_bound; lia.
Qed.

(** A remaining time in (0, 30] means the timer has not completed. *)
Lemma window_not_expired s zn :
  0 <= timerSeconds zn < U32 ->
  0 < remaining_seconds s zn <= 30 ->
  elapsed_seconds s zn < timerSeconds zn.
Proof.
  unfold remaining_seconds, wrap32, U32. intros HT Hr.
  pose proof (elapsed_range s zn) as He.
  set (T := timerSeconds zn) in *. set (el := elapsed_seconds s zn) in *.
  change (2 ^ 32) with 4294967296 in *.
  destruct (Z.lt_ge_cases el T) as [Hlt | Hge]; [exact Hlt | exfalso].
  destruct (Z.eq_dec T el) as [-> | Hne].
  - rewrite Z.sub_diag in Hr. cbn in Hr. lia.
  - assert (E : (T - el) mod 4294967296 = T - el + 4294967296).
    { symmetry. apply (Z.mod_unique _ _ (-1)); lia. }
    rewrite E in Hr. lia.
Qed.

Section TimerCycle.

Variable pid : list (float * Z) -> Z.


Lemma HeatOn_timer_check_other z z' :
  z <> z' -> preserves (HeatOn z) (timer_check z').
Proof.
  intros Hne. destruct z, z'; try congruence; hoare leaf.
Qed.

(** In a cycle without overheat every zone reaches its timer check with its
    heater flag set. *)
Lemma heat_at_check i z s :
  tuning s = false -> overheat (sensed i s) = false ->
  heaterOn (zone z (at_check pid i z s)) = true.
Proof.
  intros Ht Ho.
  destruct (normal_control pid i s Ht Ho) as (H1 & H2 & _).
  assert (H : HeatOn z (exec (interact i) (controlled pid i s))).
  { apply HeatOn_interact. destruct z; assumption. }
  destruct z; [exact H |].
  unfold at_check.
  apply (HeatOn_timer_check_other Enc2 Enc1); [discriminate | exact H].
Qed.

(** What zone [z] and its channel look like at the end of the cycle is what
    its own timer check leaves. *)
Lemma loop_zone i z s :
  zone z (exec (loop pid i) s) = zone z (exec (timer_check z) (at_check pid i z s)) /\
  ledc z (exec (loop pid i) s) = ledc z (exec (timer_check z) (at_check pid i z s)).
Proof.
  rewrite loop_exec. destruct z.
  - change (at_check pid i Enc2 s)
      with (exec (timer_check Enc1) (at_check pid i Enc1 s)).
    generalize (exec (timer_check Enc1) (at_check pid i Enc1 s)). intros s1.
    rewrite <- (exec_seq (timer_check Enc2) finish_cycle s1).
    split.
    + apply (preserves_apply (Keeps (zone Enc1) (zone Enc1 s1))
               (timer_check Enc2 ;; finish_cycle) s1); [hoare leaf | reflexivity].
    + apply (preserves_apply (Keeps (ledc Enc1) (ledc Enc1 s1))
               (timer_check Enc2 ;; finish_cycle) s1); [hoare leaf | reflexivity].
  - generalize (exec (timer_check Enc2) (at_check pid i Enc2 s)). intros s1.
    split.
    + apply (preserves_apply (Keeps (zone Enc2) (zone Enc2 s1)));
        [hoare leaf | reflexivity].
    + apply (preserves_apply (Keeps (ledc Enc2) (ledc Enc2 s1)));
        [hoare leaf | reflexivity].
Qed.

(** A cycle without overheat, for a zone in timer mode at its timer check:
    the heater flag is clear at the end of the cycle exactly when the timer
    has completed, and then the duty is 0. *)
Lemma timer_cycle i z s :
  tuning s = false -> overheat (sensed i s) = false ->
  useTimer (zone z (at_check pid i z s)) = true ->
  (heaterOn (zone z (exec (loop pid i) s)) = false <->
   timerSeconds (zone z (at_check pid i z s))
     <= elapsed_seconds (at_check pid i z s) (zone z (at_check pid i z s))) /\
  (heaterOn (zone z (exec (loop pid i) s)) = false -> ledc z (exec (loop pid i) s) = 0).
Proof.
  intros Ht Ho Hu.
  pose proof (heat_at_check i z s Ht Ho) as Hh.
  destruct (loop_zone i z s) as (Ez & El). rewrite Ez, El.
  destruct (timer_check_spec z (at_check pid i z s) Hu Hh) as (H1 & H2 & _).
  rewrite H1, H2.
  destruct (Z.leb_spec (timerSeconds (zone z (at_check pid i z s)))
              (elapsed_seconds (at_check pid i z s) (zone z (at_check pid i z s))));
    cbn [negb]; split; try tauto; try (intros; lia || discriminate);
    split; intros; (lia || discriminate || reflexivity).
Qed.

(** A cycle without overheat, for a zone in manual mode at its timer check:
    the heater flag is set at the end of the cycle, whatever the uptime and
    whether or not auto shut-off is enabled. *)
Lemma manual_cycle i z s :
  tuning s = false -> overheat (sensed i s) = false ->
  useTimer (zone z (at_check pid i z s)) = false ->
  heaterOn (zone z (exec (loop pid i) s)) = true.
Proof.
  intros Ht Ho Hu.
  destruct (loop_zone i z s) as (Ez & _). rewrite Ez.
  unfold exec at 1. rewrite timer_check_inactive by (now rewrite Hu).
  cbn [fst]. now apply heat_at_check.
Qed.

End TimerCycle.

(** **** C3 *)

(** C3.  For a zone in timer mode whose heater is on, with timerSeconds = T
    and timerStart = S, the timer check clears [heaterOn] exactly when the
    whole seconds elapsed since S have reached T, and then writes duty 0 to
    the zone's channel; before that point it leaves [heaterOn] set and the
    duty as it is. *)
Theorem C3_timer_clears_heater_at_expiry (z : zone_id) (s : State) (T S : Z) :
  useTimer (zone z s) = true ->
  heaterOn (zone z s) = true ->
  timerSeconds (zone z s) = T ->
  timerStart (zone z s) = S ->
  let elapsed := wrap32 (millis s - S) / 1000 in
  let s' := exec (timer_check z) s in
  (heaterOn (zone z s') = false <-> T <= elapsed) /\
  (T <= elapsed ->
   ledc z s' = 0 /\ In (EvLedc (heater_ch z) 0) (events (timer_check z) s)) /\
  (elapsed < T -> heaterOn (zone z s') = true /\ ledc z s' = ledc z s).
Proof.
  intros Hu Hh HT HS elapsed s'.
  destruct (timer_check_spec z s Hu Hh) as (H1 & H2 & _ & H4).
  fold s' in H1, H2. rewrite HT in H1, H2, H4.
  assert (He : elapsed_seconds s (zone z s) = elapsed).
  { unfold elapsed_seconds. now rewrite HS. }
  rewrite He in H1, H2, H4. rewrite H1, H2, H4.
  destruct (Z.leb_spec T elapsed) as [Hle | Hlt]; cbn [negb].
  - split; [tauto |]. split; [| lia].
    intros _. split; [reflexivity |].
    rewrite !in_app_iff. right. right. left. reflexivity.
  - split; [split; [discriminate | lia] |]. split; [lia |].
    intros _. split; reflexivity.
Qed.

(** **** C4 *)

(** C4 (amended).  A timer check sounds the five-minute beep exactly when the
    zone is in timer mode with its heater on, the remaining time it computes
    equals 300 seconds and the buzzer is not locked; it is a test on the
    value, not on a crossing. *)
Theorem C4_five_minute_beep_on_equality (z : zone_id) (s : State) :
  five_minute_warnings (events (timer_check z) s) =
  if useTimer (zone z s) && heaterOn (zone z s)
     && (remaining_seconds s (zone z s) =? 300) && negb (buzzerLocked s)
  then 1%nat else 0%nat.
Proof.
  destruct (useTimer (zone z s)) eqn:Hu; [destruct (heaterOn (zone z s)) eqn:Hh |].
  - destruct (timer_check_spec z s Hu Hh) as (_ & _ & _ & H4).
    rewrite H4. unfold warning_due, sequence_due. cbn [andb].
    destruct (remaining_seconds s (zone z s) =? 300),
      (remaining_seconds s (zone z s) <=? 30),
      (0 <? remaining_seconds s (zone z s)), (buzzerLocked s),
      (timerSeconds (zone z s) <=? elapsed_seconds s (zone z s)), z;
      reflexivity.
  - unfold events. rewrite timer_check_inactive by (now rewrite Hu, Hh).
    reflexivity.
  - unfold events. rewrite timer_check_inactive by (now rewrite Hu).
    reflexivity.
Qed.

(** **** C5 *)

(** C5 (amended).  A timer check plays the 30-second sequence exactly when
    the zone is in timer mode with its heater on, the remaining time lies in
    (0, 30] and the buzzer is not locked when the check starts; a check that
    plays it ends with [buzzerLocked] true; a check that finds the timer
    completed ends with [buzzerLocked] false. *)
Theorem C5_countdown_sequence_when_unlocked (z : zone_id) (s : State) :
  0 <= timerSeconds (zone z s) < U32 ->
  let active := useTimer (zone z s) && heaterOn (zone z s) in
  let due := active && sequence_due (remaining_seconds s (zone z s)) s in
  countdown_sequences (events (timer_check z) s) = (if due then 1%nat else 0%nat) /\
  (due = true -> buzzerLocked (exec (timer_check z) s) = true) /\
  (active = true ->
   timerSeconds (zone z s) <= elapsed_seconds s (zone z s) ->
   buzzerLocked (exec (timer_check z) s) = false).
Proof.
  intros HT active due. subst due active.
  destruct (useTimer (zone z s)) eqn:Hu; [destruct (heaterOn (zone z s)) eqn:Hh |].
  - destruct (timer_check_spec z s Hu Hh) as (_ & _ & H3 & H4).
    cbn [andb]. rewrite H3, H4. split; [| split].
    + unfold warning_due, sequence_due.
      destruct (remaining_seconds s (zone z s) =? 300),
        (remaining_seconds s (zone z s) <=? 30),
        (0 <? remaining_seconds s (zone z s)), (buzzerLocked s),
        (timerSeconds (zone z s) <=? elapsed_seconds s (zone z s)), z;
        reflexivity.
    + intros Hdue. rewrite Hdue, orb_true_r.
      assert (Hlt : elapsed_seconds s (zone z s) < timerSeconds (zone z s)).
      { apply window_not_expired; [exact HT |].
        unfold sequence_due in Hdue.
        apply andb_prop in Hdue. destruct Hdue as [Hdue _].
        apply andb_prop in Hdue. destruct Hdue as [Hle Hpos].
        apply Z.leb_le in Hle. apply Z.ltb_lt in Hpos. lia. }
      destruct (Z.leb_spec (timerSeconds (zone z s))
                  (elapsed_seconds s (zone z s))); [lia | reflexivity].
    + intros _ Hle. apply Z.leb_le in Hle. now rewrite Hle.
  - unfold events, exec. rewrite timer_check_inactive by (now rewrite Hu, Hh).
    cbn [andb fst snd]. repeat split; discriminate.
  - unfold events, exec. rewrite timer_check_inactive by (now rewrite Hu).
    cbn [andb fst snd]. repeat split; discriminate.
Qed.

(** ** Manual mode, unavailable sensors, the humidity interstitial *)

Lemma seq_ext (c1 c1' c2 : Cmd) (s : State) :
  c1 s = c1' s -> (c1 ;; c2) s = (c1' ;; c2) s.
Proof. unfold seq. now intros ->. Qed.

Lemma ingest_retained z i s :
  reading z i = None ->
  ingest (with_reading z (Some (currentTemp (zone z s))) i) s = ingest i s.
Proof.
  intros H. unfold ingest, elapse, read_sensors, seq, modify.
  destruct s as [? ? ? ? ? ? ? ? ? ? ? ? ? ? e1 ? ? e2 ? ? ? ? ? ? ? ? ? ? ? ? ? ? ?].
  destruct e1, e2.
  destruct z; cbn in H; cbn; rewrite H;
    destruct (temp_ch0 i), (temp_ch3 i);
    [ destruct (temp_ch2 i) | destruct (temp_ch2 i) | destruct (temp_ch2 i)
    | destruct (temp_ch2 i) | destruct (temp_ch1 i) | destruct (temp_ch1 i)
    | destruct (temp_ch1 i) | destruct (temp_ch1 i) ];
    reflexivity.
Qed.

Section Retained.

Variable pid : list (float * Z) -> Z.


Lemma ingest_keeps_pid_inputs i z s :
  setpoint (zone z (sensed i s)) = setpoint (zone z s) /\
  fastPID z (sensed i s) = fastPID z s.
Proof.
  unfold sensed. split.
  - apply (preserves_apply (Keeps (fun s => setpoint (zone z s)) (setpoint (zone z s))));
      [hoare leaf | reflexivity].
  - apply (preserves_apply (Keeps (fastPID z) (fastPID z s)));
      [hoare leaf | reflexivity].
Qed.

(** **** C7 *)

(** C7 (amended).  In a cycle in which the temperature sensor of a zone is
    unavailable the zone's [currentTemp] keeps its last value, and the cycle
    is the very cycle the firmware runs when the sensor returns that value:
    the control block is not skipped.  With [tuning] false and no zone at or
    above 130 it steps the zone's PID with the retained temperature, sets
    [heaterOn] and writes the resulting duty. *)
Theorem C7_unavailable_sensor_reuses_last_value
  (z : zone_id) (i : Inputs) (s : State) :
  reading z i = None ->
  currentTemp (zone z (sensed i s)) = currentTemp (zone z s) /\
  loop pid i s = loop pid (with_reading z (Some (currentTemp (zone z s))) i) s /\
  (tuning s = false -> overheat (sensed i s) = false ->
   heaterOn (zone z (controlled pid i s)) = true /\
   fastPID z (controlled pid i s) =
     (currentTemp (zone z s), setpoint (zone z s)) :: fastPID z s /\
   ledc z (controlled pid i s) = pid_duty pid z (sensed i s)).
Proof.
  intros H.
  assert (Hc : currentTemp (zone z (sensed i s)) = currentTemp (zone z s)).
  { rewrite sensed_currentTemp. unfold ingested. now rewrite H. }
  split; [exact Hc | split].
  - unfold loop.
    change (interact (with_reading z (Some (currentTemp (zone z s))) i))
      with (interact i).
    symmetry. apply seq_ext. apply ingest_retained, H.
  - intros Ht Ho.
    assert (Ht1 : tuning (sensed i s) = false).
    { unfold sensed. rewrite <- Ht.
      apply (preserves_apply (Keeps tuning (tuning s))); [hoare leaf | reflexivity]. }
    destruct (control_normal pid (sensed i s) Ht1 Ho)
      as (H1 & H2 & _ & _ & H5 & H6 & H7 & H8 & _).
    destruct (ingest_keeps_pid_inputs i z s) as (Hsp & Hpid).
    unfold controlled.
    destruct z; cbn [zone fastPID ledc] in *;
      rewrite ?H1, ?H2, ?H5, ?H6, ?H7, ?H8, Hc, Hsp, Hpid; repeat split.
Qed.

End Retained.

(** **** The zone view *)

(** When the zone view of an enclosure is drawn, the blocking
    high-humidity interstitial is shown if and only if the humidity measured
    for that zone exceeds the zone's limit and the zone's alarm flag is set;
    the view never drives the buzzer. *)
Lemma displayZone_interstitial (z : zone_id) (i : Inputs) (s : State) :
  name (zone z s) = boot_name z ->
  let hum := zone_humidity i (zone z s) in
  let evs := events (displayZone i (zone z s)) s in
  (interstitial_shown (name (zone z s)) evs <->
   gt_int hum (humidityLimit z s) = true /\ humidityAlarm z s = true) /\
  (forall level, ~ In (EvBuzzer level) evs) /\
  buzzer_pin (exec (displayZone i (zone z s)) s) = buzzer_pin s.
Proof.
  intros Hn hum evs. subst evs hum.
  unfold displayZone, interstitial_shown.
  rewrite events_seq, exec_seq, events_when, exec_when.
  unfold high_humidity, zone_humidity. rewrite Hn.
  destruct z; cbn [boot_name humidityLimit humidityAlarm].
  - change (0 <=? indexOf "1" "3D Enclosure 1") with true.
    change (0 <=? indexOf "2" "3D Enclosure 1") with false.
    cbn [andb orb]. rewrite orb_false_r.
    destruct (gt_int _ (humidityLimit1 s)), (humidityAlarm1 s); cbn;
      (split; [split; [intros H | intros [H1 H2]] | split; [intros level H |]]);
      try discriminate; try reflexivity;
      try (repeat destruct H as [H | H]; discriminate || contradiction);
      auto.
  - change (0 <=? indexOf "1" "3D Enclosure 2") with false.
    change (0 <=? indexOf "2" "3D Enclosure 2") with true.
    cbn [andb orb].
    destruct (gt_int _ (humidityLimit2 s)), (humidityAlarm2 s); cbn;
      (split; [split; [intros H | intros [H1 H2]] | split; [intros level H |]]);
      try discriminate; try reflexivity;
      try (repeat destruct H as [H | H]; discriminate || contradiction);
      auto.
Qed.

(** **** C6 *)

(** C6 (the code at the failing input).  Enclosure 1 has been in manual mode
    since boot, auto shut-off is enabled and the uptime is past
    [MAX_MANUAL_RUNTIME_SECONDS]: the next cycle still ends with its heater
    flag set and full duty on its channel.  [loop()] never reads
    [autoShutoffEnabled], [manualStart] or [MAX_MANUAL_RUNTIME_SECONDS]. *)
Theorem C6_no_shutoff_after_56_hours :
  autoShutoffEnabled manual_56h = true /\
  useTimer (enclosure1 manual_56h) = false /\
  MAX_MANUAL_RUNTIME_SECONDS * 1000 < clock manual_56h - clock manual_since_boot /\
  heaterOn (enclosure1 (exec (loop thermostat cool) manual_56h)) = true /\
  ledc0 (exec (loop thermostat cool) manual_56h) = 255.
Proof. vm_compute. repeat split. Qed.

(** ** Value-adjust screens within a cycle *)

Lemma rem_abs_range (pos n : Z) : 0 < n -> 0 <= Z.rem (Z.abs pos) n < n.
Proof. intros Hn. apply Z.rem_bound_pos; [apply Z.abs_nonneg | exact Hn]. Qed.

Lemma limit_of_range pos : 30 <= limit_of pos <= 99.
Proof. unfold limit_of. pose proof (rem_abs_range pos 70). lia. Qed.

Lemma EEPROM_roundtrip (a v : Z) (m : Z -> Z) :
  0 <= v < 2 ^ 31 ->
  EEPROM_get_int
    (poke (a + 3) (wrap32 v / 2 ^ 24 mod 256)
       (poke (a + 2) (wrap32 v / 2 ^ 16 mod 256)
          (poke (a + 1) (wrap32 v / 2 ^ 8 mod 256)
             (poke a (wrap32 v mod 256) m)))) a = v.
Proof.
  intros Hv. unfold EEPROM_get_int, poke, wrap32, U32.
  change (2 ^ 31) with 2147483648 in *. change (2 ^ 32) with 4294967296.
  change (2 ^ 24) with 16777216. change (2 ^ 16) with 65536. change (2 ^ 8) with 256.
  rewrite (Z.mod_small v 4294967296) by lia.
  repeat match goal with
         | |- context [?x =? ?y] => destruct (Z.eqb_spec x y); try lia
         end.
  assert (E : v mod 256 + 256 * (v / 256 mod 256) + 65536 * (v / 65536 mod 256)
              + 16777216 * (v / 16777216 mod 256) = v).
  { Z.div_mod_to_equations. lia. }
  rewrite E. destruct (Z.ltb_spec v 2147483648); lia.
Qed.

Lemma button_dispatch_adjust a i s :
  screenIndex s = adjust_screen a -> button_dispatch i s = (s, []).
Proof.
  intros H. unfold button_dispatch. rewrite H.
  destruct a as [[]|[]| | |[]]; reflexivity.
Qed.

Lemma encoder_nav_view a i s :
  adjust_view a (exec (encoder_nav i) s) = adjust_view a s.
Proof.
  apply (preserves_apply (Keeps (adjust_view a) (adjust_view a s)));
    [hoare leaf | reflexivity].
Qed.

Lemma encoder_nav_pos i s :
  lastEncoderPos (exec (encoder_nav i) s) = Z.quot (enc_raw i) 4.
Proof.
  unfold encoder_nav, exec. cbv zeta.
  destruct (Z.eqb_spec (Z.quot (enc_raw i) 4) (lastEncoderPos s)) as [E | _];
    cbn [negb].
  - symmetry. exact E.
  - match goal with
    | |- lastEncoderPos (fst ((?c1 ;; ?rest) s)) = ?p =>
        change (lastEncoderPos (exec (c1 ;; rest) s) = p); rewrite exec_seq;
        apply (preserves_apply (Keeps lastEncoderPos p) rest);
        [hoare leaf | reflexivity]
    end.
Qed.

Lemma encoder_button_adjust a i s :
  screenIndex s = adjust_screen a ->
  adjust_view a (exec (encoder_button i) s) = adjust_view a s /\
  lastEncoderPos (exec (encoder_button i) s) = lastEncoderPos s.
Proof.
  intros H. unfold encoder_button, exec.
  destruct (negb (enc_sw_a i) && negb (encoderButtonPressed s)).
  - match goal with
    | |- context [fst ((?c1 ;; ?c2 ;; button_dispatch i) s)] =>
        change (fst ((c1 ;; c2 ;; button_dispatch i) s))
          with (exec (c1 ;; c2 ;; button_dispatch i) s);
        rewrite !exec_seq; rewrite <- (exec_seq c1 c2 s);
        assert (Hv : Keeps (adjust_view a) (adjust_view a s) (exec (c1 ;; c2) s))
          by (apply preserves_apply; [hoare leaf | reflexivity]);
        assert (Hp : Keeps lastEncoderPos (lastEncoderPos s) (exec (c1 ;; c2) s))
          by (apply preserves_apply; [hoare leaf | reflexivity]);
        generalize dependent (exec (c1 ;; c2) s)
    end.
    intros s1 Hv Hp. unfold Keeps in Hv, Hp.
    assert (Hs : screenIndex s1 = adjust_screen a).
    { unfold adjust_view in Hv. congruence. }
    unfold exec. rewrite (button_dispatch_adjust a i s1 Hs). cbn [fst].
    split; assumption.
  - destruct (enc_sw_b i); split; reflexivity.
Qed.

Lemma back_button_idle a i s :
  back_edge i s = false ->
  screenIndex (exec (back_button i) s) = screenIndex s /\
  setting a (exec (back_button i) s) = setting a s /\
  lastEncoderPos (exec (back_button i) s) = lastEncoderPos s.
Proof.
  unfold back_edge, back_button, exec. intros ->.
  destruct (back_b i); repeat split; destruct a as [[]|[]| | |[]]; reflexivity.
Qed.

Lemma back_button_edge a i s :
  back_edge i s = true ->
  screenIndex (exec (back_button i) s) = 100 /\
  setting a (exec (back_button i) s) = setting a s.
Proof.
  unfold back_edge, back_button, exec. intros ->.
  split; [| destruct a as [[]|[]| | |[]]]; reflexivity.
Qed.

Lemma screen_update_root a s :
  screenIndex s = 100 ->
  screenIndex (exec screen_update s) = 100 /\
  setting a (exec screen_update s) = setting a s.
Proof.
  intros H. unfold screen_update, exec. rewrite H. run_switch.
  cbn [fst display emit]. split; [exact H | reflexivity].
Qed.

Lemma screen_update_adjust a s :
  screenIndex s = adjust_screen a ->
  screenIndex (exec screen_update s) = adjust_screen a /\
  lastEncoderPos (exec screen_update s) = lastEncoderPos s /\
  setting a (exec screen_update s) = value_of a (lastEncoderPos s) /\
  (forall addr, setting_addr a = Some addr ->
     EEPROM_get_int (flash (exec screen_update s)) addr
     = value_of a (lastEncoderPos s)).
Proof.
  intros H. unfold screen_update, exec. rewrite H.
  pose proof (limit_of_range (lastEncoderPos s)) as Hl.
  destruct a as [[]|[]| | |[]]; cbn [adjust_screen] in *; run_switch; proj;
    (split; [exact H | split; [reflexivity | split; [reflexivity |]]]);
    intros addr Ha; try discriminate;
    injection Ha as <-;
    apply (EEPROM_roundtrip _ (limit_of (lastEncoderPos s))); lia.
Qed.

Section Adjust.

Variable pid : list (float * Z) -> Z.


Lemma controlled_view a i s :
  adjust_view a (controlled pid i s) = adjust_view a s.
Proof.
  unfold controlled, sensed. rewrite <- exec_seq.
  apply (preserves_apply (Keeps (adjust_view a) (adjust_view a s)));
    [hoare leaf | reflexivity].
Qed.

Lemma timers_keep_settings a s :
  let s' :=
    exec finish_cycle (exec (timer_check Enc2) (exec (timer_check Enc1) s)) in
  screenIndex s' = screenIndex s /\ setting a s' = setting a s /\
  flash s' = flash s.
Proof.
  cbv zeta. rewrite <- !exec_seq. repeat split.
  - apply (preserves_apply (Keeps screenIndex (screenIndex s)));
      [hoare leaf | reflexivity].
  - apply (preserves_apply (Keeps (setting a) (setting a s)));
      [hoare leaf | reflexivity].
  - apply (preserves_apply (Keeps flash (flash s)));
      [hoare leaf | reflexivity].
Qed.

(** **** C8 *)

(** C8 (amended).  In a cycle that starts on a value-adjust screen and sees
    no back press, the screen switch writes the value computed from the
    encoder position to the active setting (and, for the humidity limits, to
    the persistent store) whether or not the encoder button is pressed: the
    button commits nothing on these screens.  In a cycle with a back press
    the screen returns to the root menu and the setting keeps the value the
    screen last wrote. *)
Theorem C8_adjust_screens_write_every_cycle (a : adjust) (i : Inputs) (s : State) :
  screenIndex s = adjust_screen a ->
  (back_edge i s = false ->
   screenIndex (exec (loop pid i) s) = adjust_screen a /\
   setting a (exec (loop pid i) s) = value_of a (Z.quot (enc_raw i) 4) /\
   (forall addr, setting_addr a = Some addr ->
      EEPROM_get_int (flash (exec (loop pid i) s)) addr
      = value_of a (Z.quot (enc_raw i) 4))) /\
  (back_edge i s = true ->
   screenIndex (exec (loop pid i) s) = 100 /\
   setting a (exec (loop pid i) s) = setting a s).
Proof.
  intros Hscr.
  pose proof (controlled_view a i s) as Hc.
  pose proof (encoder_nav_view a i (controlled pid i s)) as Hn.
  pose proof (encoder_nav_pos i (controlled pid i s)) as Hpos.
  rewrite Hc in Hn.
  rewrite loop_exec. unfold at_check, interact. fold (controlled pid i s).
  rewrite !exec_seq.
  generalize dependent (exec (encoder_nav i) (controlled pid i s)).
  intros s3 Hn Hpos.
  assert (Hs3 : screenIndex s3 = adjust_screen a /\ setting a s3 = setting a s
                /\ backButtonPressed s3 = backButtonPressed s).
  { unfold adjust_view in Hn. repeat split; congruence. }
  destruct Hs3 as (Hs3 & Hset3 & Hbk3).
  destruct (encoder_button_adjust a i s3 Hs3) as (Hb & Hbpos).
  generalize dependent (exec (encoder_button i) s3).
  intros s4 Hb Hbpos.
  assert (Hs4 : screenIndex s4 = adjust_screen a /\ setting a s4 = setting a s
                /\ backButtonPressed s4 = backButtonPressed s).
  { unfold adjust_view in Hb. repeat split; congruence. }
  destruct Hs4 as (Hs4 & Hset4 & Hbk4).
  assert (Hedge : back_edge i s4 = back_edge i s).
  { unfold back_edge. now rewrite Hbk4. }
  split; intros He; rewrite <- Hedge in He.
  - destruct (back_button_idle a i s4 He) as (B1 & B2 & B3).
    generalize dependent (exec (back_button i) s4). intros s5 B1 B2 B3.
    destruct (screen_update_adjust a s5) as (U1 & U2 & U3 & U4); [congruence |].
    destruct (timers_keep_settings a (exec screen_update s5)) as (E1 & E3 & E4).
    generalize dependent (exec screen_update s5). intros s6 U1 U2 U3 U4 E1 E3 E4.
    rewrite E1, E3, E4, U1, U3.
    repeat split; try congruence.
    intros addr Ha. rewrite (U4 addr Ha). congruence.
  - destruct (back_button_edge a i s4 He) as (B1 & B2).
    generalize dependent (exec (back_button i) s4). intros s5 B1 B2.
    destruct (screen_update_root a s5 B1) as (U1 & U3).
    destruct (timers_keep_settings a (exec screen_update s5)) as (E1 & E3 & _).
    generalize dependent (exec screen_update s5). intros s6 U1 U3 E1 E3.
    rewrite E1, E3. split; congruence.
Qed.

End Adjust.

(** ** The theorems at concrete inputs *)

Lemma C1_witness :
  heaterOn (enclosure1 (exec (loop thermostat hot) boot)) = false /\
  heaterOn (enclosure2 (exec (loop thermostat hot) boot)) = false /\
  ledc0 (exec (loop thermostat hot) boot) = 0 /\
  ledc1 (exec (loop thermostat hot) boot) = 0 /\
  (forall ch duty,
     In (EvLedc ch duty) (events (loop thermostat hot) boot) -> duty = 0).
Proof.
  apply (C1_overheat_forces_heaters_off thermostat boot hot).
  - apply reach_boot.
  - vm_compute. reflexivity.
Defined.

(** C2 as stated fails: enclosure 1 is put in manual mode, a cycle reads
    131 degrees and shuts both heaters down, and the next cycle, which reads
    75 degrees, ends with the heater of enclosure 1 on at full duty; nothing
    was reset in between. *)
Lemma C2_counterexample :
  let s3 := after to_manual boot in
  let s4 := exec (loop thermostat hot) s3 in
  let s5 := exec (loop thermostat cool) s4 in
  ge130 (ingested hot Enc1 s3) = true /\
  heaterOn (enclosure1 s4) = false /\ ledc0 s4 = 0 /\
  heaterOn (enclosure1 s5) = true /\ ledc0 s5 = 255.
Proof. vm_compute. repeat split. Qed.

Lemma C2_witness :
  let s1 := exec (loop thermostat hot) boot in
  heaters_off s1 /\
  (ge130 (ingested cool Enc1 s1) || ge130 (ingested cool Enc2 s1) = true ->
   heaters_off (exec (loop thermostat cool) s1)) /\
  (ge130 (ingested cool Enc1 s1) || ge130 (ingested cool Enc2 s1) = false ->
   heaterOn (enclosure1 (controlled thermostat cool s1)) = true /\
   heaterOn (enclosure2 (controlled thermostat cool s1)) = true /\
   ledc0 (controlled thermostat cool s1) = pid_duty thermostat Enc1 (sensed cool s1) /\
   ledc1 (controlled thermostat cool s1) = pid_duty thermostat Enc2 (sensed cool s1)).
Proof.
  apply (C2_shutdown_lasts_while_hot thermostat boot hot cool).
  - apply reach_boot.
  - vm_compute. reflexivity.
Defined.

Lemma C3_witness :
  let s := heating 1300000 in
  let elapsed := wrap32 (millis s - 0) / 1000 in
  let s' := exec (timer_check Enc1) s in
  (heaterOn (zone Enc1 s') = false <-> 1200 <= elapsed) /\
  (1200 <= elapsed ->
   ledc Enc1 s' = 0 /\
   In (EvLedc (heater_ch Enc1) 0) (events (timer_check Enc1) s)) /\
  (elapsed < 1200 -> heaterOn (zone Enc1 s') = true /\ ledc Enc1 s' = ledc Enc1 s).
Proof.
  apply (C3_timer_clears_heater_at_expiry Enc1 (heating 1300000) 1200 0);
    reflexivity.
Defined.

(** C4 as stated fails, on two runs of a 20-minute timer.  First run: the
    check of one cycle finds 301 seconds remaining, the next cycle shows the
    zone view (a blocking second) and its check finds 299: the remaining
    time crossed 300 and no warning sounded.  Second run: an overheat
    shutdown locked the buzzer; the checks that follow find 301, 300, 300
    and 299 seconds remaining and none of them sounds the warning. *)
Lemma C4_counterexample :
  (check_active [] idle_on_view (armed_on_view 899800) = true /\
   check_remaining [] idle_on_view (armed_on_view 899800) = 301 /\
   check_active [idle_on_view] press_on_view (armed_on_view 899800) = true /\
   check_remaining [idle_on_view] press_on_view (armed_on_view 899800) = 299 /\
   five_minute_warnings
     (events (run thermostat [idle_on_view; press_on_view]) (armed_on_view 899800))
   = 0%nat) /\
  (check_locked [hot] cool (armed 891400) = true /\
   check_active [hot] cool (armed 891400) = true /\
   check_remaining [hot] cool (armed 891400) = 301 /\
   check_remaining [hot; cool] cool (armed 891400) = 300 /\
   check_remaining [hot; cool; cool] cool (armed 891400) = 300 /\
   check_remaining [hot; cool; cool; cool] cool (armed 891400) = 299 /\
   five_minute_warnings
     (events (run thermostat [hot; cool; cool; cool; cool]) (armed 891400))
   = 0%nat).
Proof. vm_compute. repeat split. Qed.

Lemma C5_witness :
  let s := heating 1175000 in
  let active := useTimer (zone Enc1 s) && heaterOn (zone Enc1 s) in
  let due := active && sequence_due (remaining_seconds s (zone Enc1 s)) s in
  countdown_sequences (events (timer_check Enc1) s) = (if due then 1%nat else 0%nat) /\
  (due = true -> buzzerLocked (exec (timer_check Enc1) s) = true) /\
  (active = true ->
   timerSeconds (zone Enc1 s) <= elapsed_seconds s (zone Enc1 s) ->
   buzzerLocked (exec (timer_check Enc1) s) = false).
Proof.
  apply (C5_countdown_sequence_when_unlocked Enc1 (heating 1175000)).
  vm_compute. split; [discriminate | reflexivity].
Defined.

(** C5 as stated fails: an overheat shutdown leaves the buzzer locked; the
    countdown of enclosure 1 then enters its last 30 seconds (the third
    check after the shutdown is the first to find 30 seconds remaining) and
    runs to completion without the sequence being played once. *)
Lemma C5_counterexample :
  let s0 := armed 1161000 in
  let before := hot :: repeat cool 55 in
  check_locked [hot; cool; cool] cool s0 = true /\
  check_active [hot; cool; cool] cool s0 = true /\
  check_remaining [hot; cool] cool s0 = 31 /\
  check_remaining [hot; cool; cool] cool s0 = 30 /\
  countdown_sequences (events (run thermostat (before ++ [cool])) s0) = 0%nat /\
  timerSeconds (enclosure1 (check_state before cool s0))
    <= elapsed_seconds (check_state before cool s0)
         (enclosure1 (check_state before cool s0)) /\
  heaterOn (enclosure1 (after (before ++ [cool]) s0)) = false.
Proof. vm_compute. repeat split; discriminate. Qed.

(** The slip beside C5: [buzzerLocked] is one flag for both zones.  While
    enclosure 2 sits in timer mode with its timer completed (its state after
    boot), its check unlocks the buzzer in every cycle, and the sequence of
    enclosure 1 is played again in each cycle of its last 30 seconds. *)
Lemma shared_lock_replays_sequence :
  check_remaining [] cool (armed_beside_default 1170000) = 30 /\
  countdown_sequences
    (events (run thermostat [cool; cool; cool]) (armed_beside_default 1170000))
  = 3%nat.
Proof. vm_compute. repeat split. Qed.

Lemma C7_witness :
  currentTemp (zone Enc1 (sensed blind1 boot)) = currentTemp (zone Enc1 boot) /\
  loop thermostat blind1 boot =
    loop thermostat (with_reading Enc1 (Some (currentTemp (zone Enc1 boot))) blind1) boot /\
  (tuning boot = false -> overheat (sensed blind1 boot) = false ->
   heaterOn (zone Enc1 (controlled thermostat blind1 boot)) = true /\
   fastPID Enc1 (controlled thermostat blind1 boot) =
     (currentTemp (zone Enc1 boot), setpoint (zone Enc1 boot)) :: fastPID Enc1 boot /\
   ledc Enc1 (controlled thermostat blind1 boot)
     = pid_duty thermostat Enc1 (sensed blind1 boot)).
Proof.
  apply (C7_unavailable_sensor_reuses_last_value thermostat Enc1 blind1 boot).
  reflexivity.
Defined.

(** C7 as stated fails: the sensor of enclosure 1 is unavailable in the
    first cycle after boot, and the control block still steps its PID, sets
    its heater flag and writes full duty to its channel. *)
Lemma C7_counterexample :
  reading Enc1 blind1 = None /\
  heaterOn (enclosure1 boot) = false /\
  heaterOn (enclosure1 (controlled thermostat blind1 boot)) = true /\
  fastPID1 boot = [] /\
  List.length (fastPID1 (controlled thermostat blind1 boot)) = 1%nat /\
  ledc0 boot = 0 /\
  ledc0 (controlled thermostat blind1 boot) = 255 /\
  In (EvLedc HEATER1_CH 255) (events (loop thermostat blind1) boot).
Proof. vm_compute. repeat split. left. reflexivity. Qed.

Lemma C8_witness :
  let s := after to_temp_screen boot in
  (back_edge turn_released s = false ->
   screenIndex (exec (loop thermostat turn_released) s) = adjust_screen (AdjTemp Enc1) /\
   setting (AdjTemp Enc1) (exec (loop thermostat turn_released) s)
     = value_of (AdjTemp Enc1) (Z.quot (enc_raw turn_released) 4) /\
   (forall addr, setting_addr (AdjTemp Enc1) = Some addr ->
      EEPROM_get_int (flash (exec (loop thermostat turn_released) s)) addr
      = value_of (AdjTemp Enc1) (Z.quot (enc_raw turn_released) 4))) /\
  (back_edge turn_released s = true ->
   screenIndex (exec (loop thermostat turn_released) s) = 100 /\
   setting (AdjTemp Enc1) (exec (loop thermostat turn_released) s)
     = setting (AdjTemp Enc1) s).
Proof.
  apply (C8_adjust_screens_write_every_cycle thermostat (AdjTemp Enc1)
           turn_released (after to_temp_screen boot)).
  vm_compute. reflexivity.
Defined.

(** C8 as stated fails: on the temperature-set screen and on the
    humidity-limit screen of enclosure 1, a cycle in which the encoder is
    turned and the button stays released changes the active setpoint (90 at
    boot, 70 on entering the screen, 80 after the turn) and the active and
    persisted humidity limit (65 at boot, 34 on entering, 40 after the
    turn). *)
Lemma C8_counterexample :
  enc_sw_a turn_released = HIGH /\ enc_sw_b turn_released = HIGH /\
  screenIndex (after to_temp_screen boot) = 24 /\
  setpoint (enclosure1 boot) = 90 /\
  setpoint (enclosure1 (after to_temp_screen boot)) = 70 /\
  setpoint (enclosure1 (after (to_temp_screen ++ [turn_released]) boot)) = 80 /\
  screenIndex (after to_limit_screen boot) = 25 /\
  humidityLimit1 boot = 65 /\
  EEPROM_get_int (flash boot) 0 = 65 /\
  humidityLimit1 (after to_limit_screen boot) = 34 /\
  humidityLimit1 (after (to_limit_screen ++ [turn_released]) boot) = 40 /\
  EEPROM_get_int (flash (after (to_limit_screen ++ [turn_released]) boot)) 0 = 40.
Proof. vm_compute. repeat split. Qed.

(** The scenario of the spec on enclosure 1: limit 65 and a reading of 70
    percent show the interstitial when the alarm flag is set. *)
Lemma humidity_alarm_on_shows_interstitial :
  interstitial_shown "3D Enclosure 1"
    (events (displayZone (humid 70) (enclosure1 (set_humidityAlarm1 true boot)))
       (set_humidityAlarm1 true boot)).
Proof.
  apply (proj1 (displayZone_interstitial Enc1 (humid 70)
                  (set_humidityAlarm1 true boot) eq_refl)).
  split; reflexivity.
Qed.

(** The same reading with the alarm flag clear shows nothing. *)
Lemma humidity_alarm_off_shows_nothing :
  ~ interstitial_shown "3D Enclosure 1"
      (events (displayZone (humid 70) (enclosure1 boot)) boot).
Proof.
  vm_compute. intros [H | H]; [discriminate | exact H].
Qed.

Lemma C10_witness :
  (heaterOn (enclosure1 (controlled thermostat cool boot)) = true /\
   heaterOn (enclosure2 (controlled thermostat cool boot)) = true /\
   ledc0 (controlled thermostat cool boot) = pid_duty thermostat Enc1 (sensed cool boot) /\
   ledc1 (controlled thermostat cool boot) = pid_duty thermostat Enc2 (sensed cool boot) /\
   events (control thermostat) (sensed cool boot) =
     [EvLedc HEATER1_CH (pid_duty thermostat Enc1 (sensed cool boot));
      EvLedc HEATER2_CH (pid_duty thermostat Enc2 (sensed cool boot))]) /\
  (forall i0 : Inputs,
     let s1 := exec (loop thermostat i0) boot in
     lt130 (ingested cool Enc1 s1) = true ->
     lt130 (ingested cool Enc2 s1) = true ->
     heaterOn (enclosure1 (controlled thermostat cool s1)) = true /\
     heaterOn (enclosure2 (controlled thermostat cool s1)) = true /\
     ledc0 (controlled thermostat cool s1) = pid_duty thermostat Enc1 (sensed cool s1) /\
     ledc1 (controlled thermostat cool s1) = pid_duty thermostat Enc2 (sensed cool s1)).
Proof.
  apply (C10_control_switches_heaters_on thermostat boot cool);
    vm_compute; reflexivity.
Defined.

(** ** The quadrature decoder *)

Lemma sint32_congr (a b : Z) :
  a mod 2 ^ 32 = b mod 2 ^ 32 -> sint32 a = sint32 b.
Proof.
  intros H. unfold sint32.
  rewrite <- (Z.add_mod_idemp_l a), <- (Z.add_mod_idemp_l b) by discriminate.
  now rewrite H.
Qed.

Lemma sint32_mod (a : Z) : sint32 a mod 2 ^ 32 = a mod 2 ^ 32.
Proof.
  unfold sint32.
  rewrite <- Zminus_mod_idemp_l, Z.mod_mod by discriminate.
  rewrite Zminus_mod_idemp_l. f_equal. lia.
Qed.

Lemma sint32_add (a b : Z) : sint32 (sint32 a + b) = sint32 (a + b).
Proof.
  apply sint32_congr.
  rewrite <- Z.add_mod_idemp_l, sint32_mod, Z.add_mod_idemp_l by discriminate.
  reflexivity.
Qed.

Lemma sint32_sub (a b : Z) : sint32 (sint32 a - b) = sint32 (a - b).
Proof.
  apply sint32_congr.
  rewrite <- Zminus_mod_idemp_l, sint32_mod, Zminus_mod_idemp_l.
  reflexivity.
Qed.

(** Collapses nested wraps from the inside out. *)
Ltac sint32_norm :=
  repeat match goal with
         | |- context [sint32 (sint32 ?a + ?b)] =>
             lazymatch a with
             | context [sint32 _] => fail
             | _ => rewrite (sint32_add a b)
             end
         | |- context [sint32 (sint32 ?a - ?b)] =>
             lazymatch a with
             | context [sint32 _] => fail
             | _ => rewrite (sint32_sub a b)
             end
         end.

Lemma sint32_small (a : Z) : - 2 ^ 31 <= a < 2 ^ 31 -> sint32 a = a.
Proof. intros H. unfold sint32. rewrite Z.mod_small; lia. Qed.

Lemma sint32_mod4 (a : Z) : sint32 a mod 4 = a mod 4.
Proof.
  unfold sint32. change (2 ^ 31) with 2147483648. change (2 ^ 32) with 4294967296.
  Z.div_mod_to_equations. lia.
Qed.

Lemma sint32_sub_mod4 (a b : Z) : (sint32 a - b) mod 4 = (a - b) mod 4.
Proof.
  rewrite <- Zminus_mod_idemp_l, sint32_mod4, Zminus_mod_idemp_l.
  reflexivity.
Qed.

Lemma sample_valid p1 p2 : valid_state (ESP32Encoder.sample p1 p2) = true.
Proof. destruct p1, p2; reflexivity. Qed.

Lemma valid_state_cases st :
  valid_state st = true -> st = 0 \/ st = 1 \/ st = 2 \/ st = 3.
Proof.
  unfold valid_state. intros H. apply andb_prop in H. destruct H as [H1 H2].
  apply Z.leb_le in H1. apply Z.leb_le in H2. lia.
Qed.

(** One tick over a neighbour or a repeated sample keeps the position in
    step with the place in the Gray sequence, modulo 4. *)
Lemma tick_phase p1 p2 e :
  valid_state (ESP32Encoder.oldState e) = true ->
  negb (Z.lxor (ESP32Encoder.oldState e) (ESP32Encoder.sample p1 p2) =? 3) = true ->
  (ESP32Encoder.position (ESP32Encoder.tick p1 p2 e)
   - phase (ESP32Encoder.sample p1 p2)) mod 4
  = (ESP32Encoder.position e - phase (ESP32Encoder.oldState e)) mod 4.
Proof.
  intros Hv Hadj. destruct e as [o p].
  cbn [ESP32Encoder.oldState ESP32Encoder.position] in *.
  destruct (valid_state_cases o Hv) as [-> | [-> | [-> | ->]]];
    destruct p1, p2; try discriminate Hadj;
    cbn -[sint32 Z.modulo Z.sub Z.add];
    rewrite ?sint32_sub_mod4;
    Z.div_mod_to_equations; lia.
Qed.

(** X1.  Over any sequence of samples that skips no state, the position
    stays in step with the place of the pin state in the Gray sequence 0,
    1, 3, 2: position minus phase is the same modulo 4 before and after.  In
    particular, whenever the pins are back in the state they started from,
    the position has moved by a multiple of 4 (one detent is four counts). *)
Theorem X1_decoder_tracks_gray_phase (pins : list (bool * bool)) (e : ESP32Encoder.t) :
  valid_state (ESP32Encoder.oldState e) = true ->
  no_skip (ESP32Encoder.oldState e) pins = true ->
  (ESP32Encoder.position (ESP32Encoder.ticks pins e)
   - phase (ESP32Encoder.oldState (ESP32Encoder.ticks pins e))) mod 4
  = (ESP32Encoder.position e - phase (ESP32Encoder.oldState e)) mod 4.
Proof.
  revert e. induction pins as [|[p1 p2] rest IH]; intros e Hv Hs.
  - reflexivity.
  - cbn [no_skip] in Hs. apply andb_prop in Hs. destruct Hs as [Hadj Hrest].
    cbn [ESP32Encoder.ticks]. rewrite IH.
    + now apply tick_phase.
    + apply sample_valid.
    + exact Hrest.
Qed.

Lemma X1_witness :
  let e := ESP32Encoder.mk 0 7 in
  let pins := [pins_of 1; pins_of 3; pins_of 3; pins_of 1; pins_of 0; pins_of 2] in
  (ESP32Encoder.position (ESP32Encoder.ticks pins e)
   - phase (ESP32Encoder.oldState (ESP32Encoder.ticks pins e))) mod 4
  = (ESP32Encoder.position e - phase (ESP32Encoder.oldState e)) mod 4.
Proof.
  apply (X1_decoder_tracks_gray_phase
           [pins_of 1; pins_of 3; pins_of 3; pins_of 1; pins_of 0; pins_of 2]
           (ESP32Encoder.mk 0 7)); reflexivity.
Defined.

(** X2.  From any valid pin state, the four samples of one full turn of the
    Gray sequence in one direction add 4 to the position, those of the
    other direction subtract 4, and the pin state is back where it was. *)
Theorem X2_full_cycle_counts_four (e : ESP32Encoder.t) :
  valid_state (ESP32Encoder.oldState e) = true ->
  let o := ESP32Encoder.oldState e in
  let cw := [pins_of (next_cw o); pins_of (next_cw (next_cw o));
             pins_of (next_cw (next_cw (next_cw o))); pins_of o] in
  let ccw := [pins_of (next_ccw o); pins_of (next_ccw (next_ccw o));
              pins_of (next_ccw (next_ccw (next_ccw o))); pins_of o] in
  ESP32Encoder.ticks cw e = ESP32Encoder.mk o (sint32 (ESP32Encoder.position e + 4)) /\
  ESP32Encoder.ticks ccw e = ESP32Encoder.mk o (sint32 (ESP32Encoder.position e - 4)).
Proof.
  intros Hv. destruct e as [o p].
  cbn [ESP32Encoder.oldState ESP32Encoder.position] in *.
  destruct (valid_state_cases o Hv) as [-> | [-> | [-> | ->]]];
    cbn [ESP32Encoder.ticks next_cw next_ccw pins_of Z.testbit Pos.testbit];
    unfold ESP32Encoder.tick, ESP32Encoder.incr, ESP32Encoder.decr;
    cbn -[sint32 Z.add Z.sub];
    (split; f_equal; sint32_norm; f_equal; lia).
Qed.

Lemma X2_witness :
  let e := ESP32Encoder.mk 3 (-2) in
  ESP32Encoder.ticks [pins_of 2; pins_of 0; pins_of 1; pins_of 3] e
    = ESP32Encoder.mk 3 (sint32 (-2 + 4)) /\
  ESP32Encoder.ticks [pins_of 1; pins_of 0; pins_of 2; pins_of 3] e
    = ESP32Encoder.mk 3 (sint32 (-2 - 4)).
Proof.
  apply (X2_full_cycle_counts_four (ESP32Encoder.mk 3 (-2))). reflexivity.
Defined.

(** X3.  A sample that repeats the pin state, or that jumps to the opposite
    state (both pins changed at once), leaves the position as it is: a
    skipped transition is dropped, not counted as two.  The same holds when
    the stored old state is not one of 0..3. *)
Theorem X3_repeat_and_skip_do_not_count (p1 p2 : bool) (e : ESP32Encoder.t) :
  ESP32Encoder.sample p1 p2 = ESP32Encoder.oldState e \/
  Z.lxor (ESP32Encoder.oldState e) (ESP32Encoder.sample p1 p2) = 3 \/
  valid_state (ESP32Encoder.oldState e) = false ->
  ESP32Encoder.position (ESP32Encoder.tick p1 p2 e) = ESP32Encoder.position e.
Proof.
  destruct e as [o p]. cbn [ESP32Encoder.oldState ESP32Encoder.position].
  intros [H | [H | H]].
  - rewrite <- H. destruct p1, p2; reflexivity.
  - assert (Ho : o = Z.lxor 3 (ESP32Encoder.sample p1 p2)).
    { rewrite <- H, Z.lxor_assoc, Z.lxor_nilpotent, Z.lxor_0_r. reflexivity. }
    rewrite Ho. destruct p1, p2; reflexivity.
  - unfold ESP32Encoder.tick. cbn [ESP32Encoder.oldState ESP32Encoder.position].
    unfold valid_state in H.
    destruct o as [|[q|q|]|q]; try reflexivity; try discriminate H;
      destruct q; try reflexivity; discriminate H.
Qed.

Lemma X3_witness :
  ESP32Encoder.position (ESP32Encoder.tick true true (ESP32Encoder.mk 0 5)) = 5.
Proof.
  apply (X3_repeat_and_skip_do_not_count true true (ESP32Encoder.mk 0 5)).
  right. left. reflexivity.
Defined.

(** X4.  One step and the step back cancel: from a valid pin state with the
    position in the range of a [long], sampling any state and then the
    first state again restores both the pin state and the position. *)
Theorem X4_step_and_back_cancel (p1 p2 : bool) (e : ESP32Encoder.t) :
  valid_state (ESP32Encoder.oldState e) = true ->
  - 2 ^ 31 <= ESP32Encoder.position e < 2 ^ 31 ->
  ESP32Encoder.ticks [(p1, p2); pins_of (ESP32Encoder.oldState e)] e = e.
Proof.
  intros Hv Hp. destruct e as [o p].
  cbn [ESP32Encoder.oldState ESP32Encoder.position] in *.
  destruct (valid_state_cases o Hv) as [-> | [-> | [-> | ->]]];
    destruct p1, p2;
    cbn [ESP32Encoder.ticks pins_of Z.testbit Pos.testbit];
    unfold ESP32Encoder.tick, ESP32Encoder.incr, ESP32Encoder.decr;
    cbn -[sint32 Z.add Z.sub Z.pow];
    f_equal; sint32_norm;
    try (replace (p + 1 - 1) with p by lia);
    try (replace (p - 1 + 1) with p by lia);
    try reflexivity; now apply sint32_small.
Qed.

Lemma X4_witness :
  ESP32Encoder.ticks [(true, false); pins_of 0] (ESP32Encoder.mk 0 2147483647)
  = ESP32Encoder.mk 0 2147483647.
Proof.
  apply (X4_step_and_back_cancel true false (ESP32Encoder.mk 0 2147483647)).
  - reflexivity.
  - cbn. lia.
Defined.

Lemma sint32_range (a : Z) : in_long (sint32 a).
Proof.
  unfold in_long, sint32.
  pose proof (Z.mod_pos_bound (a + 2 ^ 31) (2 ^ 32) eq_refl). lia.
Qed.

Lemma sint32_unique (p x : Z) :
  in_long p -> p mod 2 ^ 32 = x mod 2 ^ 32 -> p = sint32 x.
Proof.
  intros Hp H. rewrite <- (sint32_small p Hp). now apply sint32_congr.
Qed.

(** One tick moves the position by a step that depends on the pin states
    only. *)
Lemma tick_step p1 p2 o :
  exists d, forall p,
    ESP32Encoder.tick p1 p2 (ESP32Encoder.mk o p)
    = ESP32Encoder.mk (ESP32Encoder.sample p1 p2)
        (if d =? 0 then p else sint32 (p + d)).
Proof.
  unfold ESP32Encoder.tick, ESP32Encoder.incr, ESP32Encoder.decr.
  cbn [ESP32Encoder.oldState ESP32Encoder.position].
  destruct o as [|[[q|q|]|[q|q|]|]|q];
    try (exists 0; intros p; now destruct p1, p2);
    destruct p1, p2;
    first [ exists 0; intros p; reflexivity
          | exists 1; intros p; reflexivity
          | exists (-1); intros p; reflexivity ].
Qed.

Lemma ticks_shift pins o p q :
  in_long q ->
  ESP32Encoder.oldState (ESP32Encoder.ticks pins (ESP32Encoder.mk o q))
  = ESP32Encoder.oldState (ESP32Encoder.ticks pins (ESP32Encoder.mk o p)) /\
  in_long (ESP32Encoder.position (ESP32Encoder.ticks pins (ESP32Encoder.mk o q))) /\
  ESP32Encoder.position (ESP32Encoder.ticks pins (ESP32Encoder.mk o q)) mod 2 ^ 32
  = (ESP32Encoder.position (ESP32Encoder.ticks pins (ESP32Encoder.mk o p)) + (q - p))
      mod 2 ^ 32.
Proof.
  revert o p q. induction pins as [|[p1 p2] rest IH]; intros o p q Hq.
  - cbn [ESP32Encoder.ticks ESP32Encoder.oldState ESP32Encoder.position].
    split; [reflexivity | split; [exact Hq | f_equal; lia]].
  - cbn [ESP32Encoder.ticks].
    destruct (tick_step p1 p2 o) as (d & Hd). rewrite !Hd.
    destruct (d =? 0).
    + apply IH, Hq.
    + destruct (IH (ESP32Encoder.sample p1 p2) (sint32 (p + d)) (sint32 (q + d))
                  (sint32_range _)) as (H1 & H2 & H3).
      split; [exact H1 | split; [exact H2 |]].
      rewrite H3. rewrite Zplus_mod, (Zminus_mod (sint32 (q + d))), !sint32_mod.
      rewrite <- Zminus_mod, <- Zplus_mod. f_equal. lia.
Qed.

(** X23.  [write] only moves the origin of the count: the same samples
    after a [write(q)] leave the pins in the same state and the position
    where they would have left it without the write, shifted by the
    difference between [q] and the position that was overwritten. *)
Theorem X23_write_shifts_the_origin
    (pins : list (bool * bool)) (e : ESP32Encoder.t) (q : Z) :
  in_long q ->
  let e' := ESP32Encoder.ticks pins (ESP32Encoder.write q e) in
  ESP32Encoder.oldState e' = ESP32Encoder.oldState (ESP32Encoder.ticks pins e) /\
  ESP32Encoder.position e'
  = sint32 (ESP32Encoder.position (ESP32Encoder.ticks pins e)
            + (q - ESP32Encoder.position e)).
Proof.
  intros Hq e'. subst e'. destruct e as [o p].
  unfold ESP32Encoder.write. cbn [ESP32Encoder.oldState ESP32Encoder.position].
  destruct (ticks_shift pins o p q Hq) as (H1 & H2 & H3).
  split; [exact H1 |]. now apply sint32_unique.
Qed.

(** ** Invariants of the iteration *)

Lemma temp_of_range pos : 70 <= temp_of pos <= 120.
Proof. unfold temp_of. pose proof (rem_abs_range pos 51 eq_refl). lia. Qed.

Lemma timer_of_range pos :
  1200 <= timer_of pos <= 172800 /\ timer_of pos mod 600 = 0.
Proof.
  unfold timer_of, wrap32, U32.
  pose proof (rem_abs_range pos 289 eq_refl) as H.
  set (k := Z.max (Z.rem (Z.abs pos) 289) 2).
  assert (Hk : 2 <= k <= 288) by (unfold k; lia).
  change (2 ^ 32) with 4294967296.
  rewrite Z.mod_small by lia.
  split; [lia | apply Z.mod_mul; discriminate].
Qed.

(** [hoare_with pre leaf]: as [hoare leaf], with [pre] tried first on every
    command, for the blocks that keep a property only as a whole. *)
Ltac hoare_with pre leaf :=
  first
    [ pre
    | lazymatch goal with
      | |- preserves _ skip => apply preserves_skip
      | |- preserves _ (seq _ _) => apply preserves_seq; hoare_with pre leaf
      | |- preserves _ (when _ _) => apply preserves_when; hoare_with pre leaf
      | |- preserves _ (ifte _ _ _) => apply preserves_ifte; hoare_with pre leaf
      | |- preserves _ (repeat_cmd _ _) => apply preserves_repeat; hoare_with pre leaf
      | |- preserves _ (emit _) => apply preserves_emit
      | |- preserves _ (display _) => apply preserves_emit
      | |- preserves _ (modify _) => apply preserves_modify; leaf
      | |- preserves _ (match ?z with Enc1 => _ | Enc2 => _ end) =>
          destruct z; hoare_with pre leaf
      | |- preserves ?P (fun s => _) =>
          let s0 := fresh "s" in
          let H0 := fresh "Hpre" in
          intros s0 H0; unfold exec; cbv beta zeta; repeat split_top;
          hoare_with_point pre leaf s0 H0
      | |- preserves _ ?c =>
          let h := get_head c in unfold h; hoare_with pre leaf
      end ]
with hoare_with_point pre leaf s0 H0 :=
  lazymatch goal with
  | |- ?P (fst (switch ?v ?cases s0)) =>
      change (P (exec (switch v cases) s0));
      apply switch_point; [exact H0 |];
      repeat (apply Forall_cons || apply Forall_nil); cbn [fst snd];
      (let Hv := fresh "Hv" in
       intro Hv;
       first [ solve [leaf]
             | apply preserves_apply; [hoare_with pre leaf | exact H0] ])
  | |- ?P (fst (?c s0)) =>
      change (P (exec c s0)); apply preserves_apply;
      [hoare_with pre leaf | exact H0]
  | |- ?P (fst (_, _)) => cbn [fst]; revert s0 H0; leaf
  | |- _ => revert s0 H0; leaf
  end.

(** A beep: the pin goes low and is back high when the block ends. *)
Ltac beep_block :=
  idtac;
  lazymatch goal with
  | |- preserves _ (buzzer _ ;; _) =>
      let s0 := fresh "s" in intros s0 _; reflexivity
  end.

Ltac settle :=
  first [ assumption | reflexivity | congruence | discriminate | lia
        | match goal with
          | |- context [Z.rem (Z.abs ?x) ?k] =>
              pose proof (rem_abs_range x k eq_refl); lia
          end
        | match goal with
          | |- context [temp_of ?x] => pose proof (temp_of_range x); lia
          end
        | match goal with
          | |- context [timer_of ?x] => right; exact (timer_of_range x)
          end
        | match goal with
          | H : forall h, 0 <= ?f h <= 255 |- context [?f ?x] =>
              pose proof (H x); lia
          end ].

(** The leaf for the properties of this part. *)
Ltac leafx :=
  intros;
  repeat match goal with
         | z : zone_id |- _ => destruct z
         end;
  unfold Steady, in_menu, setpoint_ok, Silent, Since, Duty, duty_ok,
         Shutdown, heaters_off, HeatOn, Keeps in *;
  repeat match goal with
         | H : _ /\ _ |- _ => destruct H
         | H : Inv _ |- _ => destruct H
         end;
  proj; repeat split_any; proj;
  first [ screen_absurd | repeat split; proj; settle ].

Section Invariants.

Variable pid : list (float * Z) -> Z.

Lemma Steady_ingest i : preserves Steady (ingest i).
Proof. hoare leafx. Qed.

Lemma Steady_control : preserves Steady (control pid).
Proof. hoare leafx. Qed.

Lemma Steady_interact i : preserves Steady (interact i).
Proof. hoare leafx. Qed.

Lemma Steady_timer_check z : preserves Steady (timer_check z).
Proof. hoare leafx. Qed.

Lemma Steady_finish_cycle : preserves Steady finish_cycle.
Proof. hoare leafx. Qed.

Lemma Steady_loop i : preserves Steady (loop pid i).
Proof.
  unfold loop.
  repeat (apply preserves_seq;
          [first [apply Steady_ingest | apply Steady_control
                 | apply Steady_interact | apply Steady_timer_check] |]).
  apply Steady_finish_cycle.
Qed.

Lemma Steady_boot rom t0 : Steady (setup rom t0).
Proof.
  unfold Steady, in_menu, setpoint_ok, duration_ok. cbn.
  repeat split; try lia; try reflexivity; now left.
Qed.

Lemma reachable_Steady s : reachable pid s -> Steady s.
Proof.
  induction 1 as [rom t0 | s i _ IH].
  - apply Steady_boot.
  - now apply Steady_loop.
Qed.

Lemma Steady_at_check i z s : Steady s -> Steady (at_check pid i z s).
Proof.
  intros H.
  assert (H1 : Steady (exec (interact i) (controlled pid i s))).
  { apply Steady_interact. unfold controlled, sensed.
    apply Steady_control, Steady_ingest, H. }
  destruct z; [exact H1 | apply Steady_timer_check, H1].
Qed.

Lemma Silent_loop i : preserves Silent (loop pid i).
Proof. hoare_with beep_block leafx. Qed.

Lemma elapsed_from_zero s zn :
  timerStart zn = 0 -> elapsed_seconds s zn = millis s / 1000.
Proof.
  intros H. unfold elapsed_seconds, millis, wrap32. rewrite H, Z.sub_0_r.
  rewrite Z.mod_mod by discriminate. reflexivity.
Qed.

(** *** The time an iteration takes *)

Lemma Since_rest c0 i :
  preserves (Since c0)
    (control pid ;; interact i ;; timer_check Enc1 ;; timer_check Enc2 ;; updateScreen).
Proof. hoare leafx. Qed.

Lemma clock_ingest i s : clock (exec (ingest i) s) = clock s + tick i.
Proof.
  unfold ingest, read_sensors, elapse. rewrite !exec_seq.
  destruct (temp_ch0 i), (temp_ch3 i), (temp_ch1 i), (temp_ch2 i); reflexivity.
Qed.

Lemma clock_overheat_shutdown s :
  clock (exec overheat_shutdown s) = clock s + 7400.
Proof. unfold exec, overheat_shutdown. cbn -[Z.add]. lia. Qed.

Lemma loop_split i s :
  exec (loop pid i) s =
  exec (delay 500)
    (exec (control pid ;; interact i ;; timer_check Enc1 ;; timer_check Enc2 ;; updateScreen)
       (exec (ingest i) s)).
Proof. unfold loop, finish_cycle. now rewrite !exec_seq. Qed.

End Invariants.

(** ** Properties of the states the firmware reaches *)

Section Reached.

Variable pid : list (float * Z) -> Z.

(** X5.  In every state the firmware reaches, the highlighted entry of the
    main menu is one of its seven entries and that of the settings menu one
    of its four: whatever the encoder count, negative ones included, the
    selection never points outside the menu. *)
Theorem X5_menu_indices_stay_in_range (s : State) :
  reachable pid s ->
  0 <= mainMenuIndex s < 7 /\ 0 <= settingsMenuIndex s < 4.
Proof.
  intros H. destruct (reachable_Steady pid s H) as (_ & Hm & _). exact Hm.
Qed.

(** X6.  No state the firmware reaches has a timer start other than 0 (the
    arming screens, the only code that assigns it, are never entered), so
    the elapsed time of every timer is the uptime in whole seconds.  In a
    cycle without overheat, a zone in timer mode ends the cycle with its
    heater flag cleared exactly when the uptime at its timer check has
    reached its duration, whenever that duration was chosen. *)
Theorem X6_timers_count_from_power_on (s : State) (i : Inputs) (z : zone_id) :
  reachable pid s ->
  timerStart (zone z s) = 0 /\
  elapsed_seconds s (zone z s) = millis s / 1000 /\
  (overheat (sensed i s) = false ->
   useTimer (zone z (at_check pid i z s)) = true ->
   (heaterOn (zone z (exec (loop pid i) s)) = false <->
    timerSeconds (zone z (at_check pid i z s))
      <= millis (at_check pid i z s) / 1000)).
Proof.
  intros H. pose proof (reachable_Steady pid s H) as HS.
  assert (Hz : forall s', Steady s' -> timerStart (zone z s') = 0).
  { intros s' (_ & _ & H1 & H2 & _). destruct z; assumption. }
  split; [exact (Hz s HS) |].
  split; [apply elapsed_from_zero, Hz, HS |].
  intros Ho Hu.
  destruct HS as (HI & HS').
  destruct (timer_cycle pid i z s (inv_tuning _ HI) Ho Hu) as (Hc & _).
  rewrite elapsed_from_zero in Hc; [exact Hc |].
  apply Hz, Steady_at_check. split; assumption.
Qed.

(** X7.  In every state the firmware reaches, the setpoint of each
    enclosure lies between 70 and 120 degrees, and its timer duration is
    either the 0 it boots with or a multiple of ten minutes between 20
    minutes and 48 hours. *)
Theorem X7_settings_stay_in_range (s : State) (z : zone_id) :
  reachable pid s ->
  70 <= setpoint (zone z s) <= 120 /\
  (timerSeconds (zone z s) = 0 \/
   (1200 <= timerSeconds (zone z s) <= 172800 /\
    timerSeconds (zone z s) mod 600 = 0)).
Proof.
  intros H.
  destruct (reachable_Steady pid s H) as (_ & _ & _ & _ & H1 & H2 & H3 & H4).
  destruct z; split; assumption.
Qed.

(** X8.  The buzzer is never left sounding from one iteration to the next:
    in every state the firmware reaches the buzzer pin is at its rest level
    (HIGH; the buzzer is active low). *)
Theorem X8_buzzer_rests_between_iterations (s : State) :
  reachable pid s -> buzzer_pin s = HIGH.
Proof.
  induction 1 as [rom t0 | s i _ IH].
  - reflexivity.
  - now apply Silent_loop.
Qed.

(** X9.  At the end of every iteration a heater whose flag is cleared is
    not powered: in every state the firmware reaches, [heaterOn = false]
    for a zone implies a duty of 0 on its channel. *)
Theorem X9_cleared_flag_means_no_power (s : State) (z : zone_id) :
  reachable pid s -> heaterOn (zone z s) = false -> ledc z s = 0.
Proof.
  induction 1 as [rom t0 | s i Hr _].
  - intros _. destruct z; reflexivity.
  - intros Hoff. pose proof (reachable_Inv pid s Hr) as HI.
    destruct (overheat (sensed i s)) eqn:Ho.
    + destruct (overheat_cycle pid i s HI Ho) as ((_ & _ & _ & H0 & H1) & _).
      destruct z; assumption.
    + destruct (useTimer (zone z (at_check pid i z s))) eqn:Hu.
      * destruct (timer_cycle pid i z s (inv_tuning _ HI) Ho Hu) as (_ & Hc).
        exact (Hc Hoff).
      * rewrite (manual_cycle pid i z s (inv_tuning _ HI) Ho Hu) in Hoff.
        discriminate Hoff.
Qed.

(** X10.  An iteration blocks for at least half a second after the time its
    own work takes, and for at least 7.9 seconds when it finds a zone at or
    above 130 degrees: the buttons and the sensors are sampled no more often
    than that. *)
Theorem X10_iteration_takes_half_a_second (s : State) (i : Inputs) :
  0 <= tick i ->
  clock s + tick i + 500 <= clock (exec (loop pid i) s) /\
  (tuning s = false -> overheat (sensed i s) = true ->
   clock s + tick i + 7900 <= clock (exec (loop pid i) s)).
Proof.
  intros Ht. rewrite loop_split.
  assert (Hd : forall s', clock (exec (delay 500) s') = clock s' + 500)
    by reflexivity.
  rewrite Hd. split.
  - pose proof (Since_rest pid (clock s + tick i) i (exec (ingest i) s)) as H.
    unfold Since in H. rewrite clock_ingest in H. specialize (H (Z.le_refl _)).
    lia.
  - intros Htu Ho. rewrite exec_seq.
    assert (H1 : clock (exec (control pid) (exec (ingest i) s))
                 = clock s + tick i + 7400).
    { change (exec (ingest i) s) with (sensed i s).
      rewrite exec_control, Ho, clock_overheat_shutdown.
      - rewrite <- (clock_ingest i s). reflexivity.
      - unfold sensed. rewrite <- Htu.
        apply (preserves_apply (Keeps tuning (tuning s))); [hoare leaf | reflexivity]. }
    assert (H2 : preserves (Since (clock s + tick i + 7400))
                   (interact i ;; timer_check Enc1 ;; timer_check Enc2 ;; updateScreen))
      by (hoare leafx).
    specialize (H2 (exec (control pid) (exec (ingest i) s))).
    unfold Since in H2. rewrite H1 in H2. specialize (H2 (Z.le_refl _)). lia.
Qed.

End Reached.

Section Bounded.

Variable pid : list (float * Z) -> Z.
Hypothesis pid_range : forall h, 0 <= pid h <= 255.

Lemma Duty_loop i : preserves Duty (loop pid i).
Proof. hoare leafx. Qed.

(** X11.  If the stepping function of the PID library returns 8-bit duties,
    the duty of both heater channels is between 0 and 255 in every state
    the firmware reaches. *)
Theorem X11_duty_stays_eight_bit (s : State) (z : zone_id) :
  reachable pid s -> 0 <= ledc z s <= 255.
Proof.
  intros H.
  assert (HD : Duty s).
  { induction H as [rom t0 | s i _ IH].
    - unfold Duty, duty_ok. cbn. lia.
    - now apply Duty_loop. }
  destruct HD as (_ & _ & H0 & H1). destruct z; assumption.
Qed.

End Bounded.

(** ** The buttons *)

Lemma switch_miss v cases :
  forallb (fun kc => negb (v =? fst kc)) cases = true ->
  switch v cases = skip.
Proof.
  induction cases as [|[k c] rest IH]; cbn [forallb switch fst]; [reflexivity |].
  intros H. apply andb_prop in H. destruct H as [H1 H2].
  apply negb_true_iff in H1. rewrite H1. exact (IH H2).
Qed.

Lemma rem_neg_range (a b : Z) : a < 0 -> 0 < b -> - b < Z.rem a b <= 0.
Proof.
  intros Ha Hb.
  pose proof (Z.rem_bound_pos (- a) b ltac:(lia) Hb) as H.
  rewrite Z.rem_opp_l in H by lia. lia.
Qed.

Lemma encoder_button_held i s :
  encoderButtonPressed s = true -> enc_sw_b i = LOW ->
  encoder_button i s = (s, []).
Proof.
  intros H1 H2. unfold encoder_button. rewrite H1, H2, andb_false_r. reflexivity.
Qed.

Section Buttons.

Variable pid : list (float * Z) -> Z.

Lemma loop_phases i s :
  exec (loop pid i) s =
  exec (screen_update ;; timer_check Enc1 ;; timer_check Enc2 ;; finish_cycle)
    (exec (back_button i)
       (exec (encoder_button i) (before_button pid i s))).
Proof.
  unfold loop, interact, before_button, controlled, sensed.
  now rewrite !exec_seq.
Qed.

Lemma front_keeps {A : Type} (f : State -> A) i s :
  (forall v, preserves (Keeps f v) (ingest i ;; control pid ;; encoder_nav i)) ->
  f (before_button pid i s) = f s.
Proof.
  intros H. unfold before_button, controlled, sensed. rewrite <- !exec_seq.
  apply (H (f s)). reflexivity.
Qed.

(** **** Back button *)

(** X12.  A press of the back button that the latch lets through ends the
    cycle on the main menu, from whatever screen and in whatever state the
    cycle started, and sets the latch. *)
Theorem X12_back_press_returns_to_main_menu (s : State) (i : Inputs) :
  back_a i = LOW -> backButtonPressed s = false ->
  screenIndex (exec (loop pid i) s) = 100 /\
  backButtonPressed (exec (loop pid i) s) = true.
Proof.
  intros Ha Hb. rewrite loop_phases.
  assert (H4 : backButtonPressed (exec (encoder_button i) (before_button pid i s))
               = false).
  { rewrite <- Hb, <- (front_keeps backButtonPressed i s) by (intros v; hoare leaf).
    generalize (before_button pid i s). intros s3.
    apply (preserves_apply (Keeps backButtonPressed (backButtonPressed s3)));
      [hoare leaf | reflexivity]. }
  generalize dependent (exec (encoder_button i) (before_button pid i s)).
  intros s4 H4.
  assert (H5 : screenIndex (exec (back_button i) s4) = 100 /\
               backButtonPressed (exec (back_button i) s4) = true).
  { unfold back_button, exec. rewrite Ha, H4. split; reflexivity. }
  destruct H5 as (H5 & H6).
  generalize dependent (exec (back_button i) s4). intros s5 H5 H6.
  split.
  - apply (preserves_apply (Keeps screenIndex 100)); [hoare leaf | exact H5].
  - apply (preserves_apply (Keeps backButtonPressed true)); [hoare leaf | exact H6].
Qed.

(** **** Encoder button *)

Lemma latch_loop i :
  held i -> preserves (Keeps encoderButtonPressed true) (loop pid i).
Proof.
  intros Hh s Hs. rewrite loop_phases.
  assert (H3 : encoderButtonPressed (before_button pid i s) = true).
  { rewrite (front_keeps encoderButtonPressed i s) by (intros v; hoare leaf).
    exact Hs. }
  unfold exec at 3. rewrite (encoder_button_held i _ H3 Hh). cbn [fst].
  generalize dependent (before_button pid i s). intros s3 H3.
  rewrite <- exec_seq.
  apply (preserves_apply (Keeps encoderButtonPressed true)); [hoare leaf | exact H3].
Qed.

Lemma latch_run inputs :
  Forall held inputs ->
  preserves (Keeps encoderButtonPressed true) (run pid inputs).
Proof.
  induction 1 as [|i rest Hi _ IH]; cbn [run].
  - apply preserves_skip.
  - apply preserves_seq; [apply latch_loop, Hi | exact IH].
Qed.

Lemma press_sets_latch i s :
  enc_sw_a i = LOW -> encoderButtonPressed s = false ->
  encoderButtonPressed (exec (loop pid i) s) = true.
Proof.
  intros Ha Hs. rewrite loop_phases.
  assert (H3 : encoderButtonPressed (before_button pid i s) = false).
  { rewrite (front_keeps encoderButtonPressed i s) by (intros v; hoare leaf).
    exact Hs. }
  generalize dependent (before_button pid i s). intros s3 H3.
  assert (H4 : encoderButtonPressed (exec (encoder_button i) s3) = true).
  { unfold encoder_button, exec. rewrite Ha, H3. cbn [negb andb LOW].
    match goal with
    | |- encoderButtonPressed (fst ((?c1 ;; ?c2 ;; ?c3) s3)) = true =>
        change (encoderButtonPressed (exec (c1 ;; c2 ;; c3) s3) = true);
        rewrite !exec_seq;
        apply (preserves_apply (Keeps encoderButtonPressed true) c3);
        [hoare leaf | reflexivity]
    end. }
  generalize dependent (exec (encoder_button i) s3). intros s4 H4.
  rewrite <- exec_seq.
  apply (preserves_apply (Keeps encoderButtonPressed true)); [hoare leaf | exact H4].
Qed.

(** X13.  A press of the encoder button acts once, however long the button
    is held: after the cycle that takes the press, in every later cycle
    that still reads the switch LOW the button handler changes nothing and
    produces no event (no beep, no menu action). *)
Theorem X13_held_button_acts_once
    (s : State) (i0 : Inputs) (between : list Inputs) (i : Inputs) :
  enc_sw_a i0 = LOW -> encoderButtonPressed s = false ->
  Forall held between -> held i ->
  let sb := before_button pid i (exec (run pid (i0 :: between)) s) in
  encoder_button i sb = (sb, []).
Proof.
  intros Ha Hs Hb Hi sb. apply encoder_button_held; [| exact Hi].
  subst sb.
  rewrite (front_keeps encoderButtonPressed i _) by (intros v; hoare leaf).
  cbn [run]. rewrite exec_seq.
  apply (latch_run between Hb). apply press_sets_latch; assumption.
Qed.

(** X14.  With the encoder position below zero, a press on a submenu finds
    no entry: on the enclosure submenus (screens 10 and 11) unless the
    position is a multiple of 6, on the filament submenus (12 and 13)
    unless it is even, the menu dispatch changes nothing.  The remainder of
    a negative position is negative and matches no case of the switch. *)
Theorem X14_negative_position_selects_nothing (s : State) (i : Inputs) :
  lastEncoderPos s < 0 ->
  ((screenIndex s = 10 \/ screenIndex s = 11) /\ Z.rem (lastEncoderPos s) 6 <> 0) \/
  ((screenIndex s = 12 \/ screenIndex s = 13) /\ Z.rem (lastEncoderPos s) 2 <> 0) ->
  button_dispatch i s = (s, []).
Proof.
  intros Hneg H. unfold button_dispatch.
  destruct H as [[[H | H] Hr] | [[H | H] Hr]]; rewrite H; cbn [Z.eqb Pos.eqb];
    unfold zone_menu_select, filament1_select, filament2_select;
    (rewrite switch_miss; [reflexivity |]);
    cbn [forallb fst];
    pose proof (rem_neg_range (lastEncoderPos s) 6 Hneg eq_refl);
    pose proof (rem_neg_range (lastEncoderPos s) 2 Hneg eq_refl);
    repeat (rewrite (proj2 (Z.eqb_neq _ _)) by lia); reflexivity.
Qed.

(** **** Menu entries *)

Lemma encoder_button_press i s :
  enc_sw_a i = LOW -> encoderButtonPressed s = false ->
  exec (encoder_button i) s =
  exec (button_dispatch i)
    (exec (when beepOnPush push_beep ;; modify (set_encoderButtonPressed true)) s).
Proof.
  intros Ha Hs. unfold encoder_button, exec at 1. rewrite Ha, Hs.
  cbn [negb andb LOW].
  match goal with
  | |- fst ((?c1 ;; ?c2 ;; ?c3) s) = _ =>
      change (fst ((c1 ;; c2 ;; c3) s)) with (exec (c1 ;; c2 ;; c3) s)
  end.
  now rewrite !exec_seq.
Qed.

Lemma back_button_released i s :
  back_a i = HIGH ->
  screenIndex (exec (back_button i) s) = screenIndex s /\
  enclosure1 (exec (back_button i) s) = enclosure1 s /\
  enclosure2 (exec (back_button i) s) = enclosure2 s /\
  lastEncoderPos (exec (back_button i) s) = lastEncoderPos s.
Proof.
  intros Ha. unfold back_button, exec. rewrite Ha. cbn [negb andb HIGH].
  destruct (back_b i); repeat split.
Qed.

(** X15.  Choosing the entry that leads to the timer duration of an
    enclosure also switches the enclosure between timer and manual mode: a
    press on the third entry of the enclosure submenu, in a cycle without a
    back press, ends the cycle on the duration screen with [useTimer]
    negated and the duration as it was. *)
Theorem X15_set_timer_entry_flips_mode (z : zone_id) (s : State) (i : Inputs) :
  screenIndex s = scr_menu z ->
  enc_sw_a i = LOW -> encoderButtonPressed s = false ->
  back_a i = HIGH ->
  Z.rem (Z.quot (enc_raw i) 4) 6 = 2 ->
  let s' := exec (loop pid i) s in
  screenIndex s' = scr_timer z /\
  useTimer (zone z s') = negb (useTimer (zone z s)) /\
  timerSeconds (zone z s') = timerSeconds (zone z s).
Proof.
  intros Hscr Ha Hl Hb Hrem s'. subst s'. rewrite loop_phases.
  assert (Hv : zone_view z (before_button pid i s) = zone_view z s).
  { apply front_keeps. intros v. unfold zone_view. hoare leaf. }
  assert (Hp : lastEncoderPos (before_button pid i s) = Z.quot (enc_raw i) 4)
    by apply encoder_nav_pos.
  assert (Hl3 : encoderButtonPressed (before_button pid i s) = false).
  { rewrite (front_keeps encoderButtonPressed i s) by (intros v; hoare leaf).
    exact Hl. }
  generalize dependent (before_button pid i s). intros s3 Hv Hp Hl3.
  rewrite (encoder_button_press i s3 Ha Hl3).
  assert (Hv' : zone_view z (exec (when beepOnPush push_beep ;;
                                   modify (set_encoderButtonPressed true)) s3)
                = zone_view z s3).
  { apply (preserves_apply (Keeps (zone_view z) (zone_view z s3)));
      [unfold zone_view; hoare leaf | reflexivity]. }
  assert (Hp' : lastEncoderPos (exec (when beepOnPush push_beep ;;
                                     modify (set_encoderButtonPressed true)) s3)
                = lastEncoderPos s3).
  { apply (preserves_apply (Keeps lastEncoderPos (lastEncoderPos s3)));
      [hoare leaf | reflexivity]. }
  generalize dependent (exec (when beepOnPush push_beep ;;
                              modify (set_encoderButtonPressed true)) s3).
  intros s3' Hv' Hp'.
  assert (H4 : zone_view z (exec (button_dispatch i) s3')
               = (scr_mode z, useTimer (zone z s), timerSeconds (zone z s))).
  { unfold zone_view in Hv, Hv'.
    assert (Hs : screenIndex s3' = scr_menu z) by congruence.
    assert (Hu : useTimer (zone z s3') = useTimer (zone z s)) by congruence.
    assert (Ht : timerSeconds (zone z s3') = timerSeconds (zone z s)) by congruence.
    unfold button_dispatch, exec. rewrite Hs.
    destruct z; cbn [scr_menu Z.eqb Pos.eqb]; unfold zone_menu_select;
      rewrite Hp', Hp, Hrem; run_switch; unfold zone_view;
      cbn [fst modify]; proj; rewrite <- Hu, <- Ht; reflexivity. }
  generalize dependent (exec (button_dispatch i) s3'). intros s4 H4.
  destruct (back_button_released i s4 Hb) as (B1 & B2 & B3 & _).
  assert (H5 : zone_view z (exec (back_button i) s4) = zone_view z s4).
  { unfold zone_view. rewrite B1. destruct z; cbn [zone]; rewrite ?B2, ?B3; reflexivity. }
  rewrite H4 in H5.
  generalize dependent (exec (back_button i) s4). intros s5 _ _ _ H5.
  rewrite exec_seq.
  assert (H6 : zone_view z (exec screen_update s5)
               = (scr_timer z, negb (useTimer (zone z s)), timerSeconds (zone z s))).
  { unfold zone_view in H5.
    assert (Hs : screenIndex s5 = scr_mode z) by congruence.
    assert (Hu : useTimer (zone z s5) = useTimer (zone z s)) by congruence.
    assert (Ht : timerSeconds (zone z s5) = timerSeconds (zone z s)) by congruence.
    unfold screen_update, exec. rewrite Hs.
    destruct z; cbn [scr_mode]; run_switch; unfold zone_view;
      proj; rewrite <- Hu, <- Ht; reflexivity. }
  generalize dependent (exec screen_update s5). intros s6 H6.
  assert (H7 : zone_view z (exec (timer_check Enc1 ;; timer_check Enc2 ;; finish_cycle) s6)
               = zone_view z s6).
  { apply (preserves_apply (Keeps (zone_view z) (zone_view z s6)));
      [unfold zone_view; hoare leaf | reflexivity]. }
  rewrite H6 in H7. unfold zone_view in H7.
  repeat split; congruence.
Qed.

End Buttons.

(** ** Timers past their end, default settings, readings that are no numbers *)

(** X16.  Once the duration of a running timer has elapsed, its check
    sounds no alert: it writes duty 0 to the zone's channel and nothing
    else, although the remaining time it computes, an unsigned difference,
    wraps around to a large value. *)
Theorem X16_elapsed_timer_sounds_no_alert (z : zone_id) (s : State) :
  useTimer (zone z s) = true -> heaterOn (zone z s) = true ->
  0 <= timerSeconds (zone z s) < U32 ->
  timerSeconds (zone z s) <= elapsed_seconds s (zone z s) ->
  events (timer_check z) s = [EvLedc (heater_ch z) 0].
Proof.
  intros Hu Hh HT Hel.
  destruct (timer_check_spec z s Hu Hh) as (_ & _ & _ & He). rewrite He.
  pose proof (elapsed_range s (zone z s)) as Hr.
  assert (Hrem : remaining_seconds s (zone z s) = 0 \/
                 4290000000 <= remaining_seconds s (zone z s)).
  { unfold remaining_seconds, wrap32, U32 in *.
    change (2 ^ 32) with 4294967296 in *.
    set (T := timerSeconds (zone z s)) in *.
    set (el := elapsed_seconds s (zone z s)) in *.
    destruct (Z.eq_dec T el) as [-> | Hne].
    - left. rewrite Z.sub_diag. reflexivity.
    - right.
      replace (T - el) with (T - el + 4294967296 + (-1) * 4294967296) by lia.
      rewrite Z.mod_add by discriminate. rewrite Z.mod_small; lia. }
  assert (Hw : warning_due (remaining_seconds s (zone z s)) s = false).
  { unfold warning_due. destruct Hrem as [-> | Hbig]; [reflexivity |].
    rewrite (proj2 (Z.eqb_neq _ _)) by lia. reflexivity. }
  assert (Hq : sequence_due (remaining_seconds s (zone z s)) s = false).
  { unfold sequence_due. destruct Hrem as [-> | Hbig]; [reflexivity |].
    rewrite (proj2 (Z.leb_gt _ _)) by lia. reflexivity. }
  rewrite Hw, Hq. apply Z.leb_le in Hel. rewrite Hel. reflexivity.
Qed.

(** *** The settings of a controller nobody has touched *)

Ltac leafd :=
  intros;
  repeat match goal with
         | z : zone_id |- _ => destruct z
         end;
  unfold Default, Keeps in *;
  repeat match goal with
         | H : _ /\ _ |- _ => destruct H
         end;
  proj; repeat split_any; proj;
  repeat split; proj;
  first [assumption | reflexivity | congruence | discriminate].

Lemma NaN_not_ge130 (t : float) : is_NaN t = true -> ge130 t = false.
Proof.
  unfold is_NaN, ge130. rewrite FloatAxioms.eqb_spec, FloatAxioms.leb_spec.
  unfold SFeqb, SFleb. intros H.
  destruct (Prim2SF t) as [sx|sx| |sx mx ex]; cbn in H |- *.
  - destruct sx; discriminate H.
  - destruct sx; discriminate H.
  - reflexivity.
  - rewrite Z.compare_refl, Pos.compare_cont_refl in H.
    destruct sx; discriminate H.
Qed.

Section Untouched.

Variable pid : list (float * Z) -> Z.

Lemma Default_front i :
  preserves Default (ingest i ;; control pid ;; encoder_nav i).
Proof. hoare leafd. Qed.

Lemma Default_back i :
  preserves Default (back_button i ;; screen_update).
Proof. hoare leafd. Qed.

Lemma Default_timer_check z : preserves Default (timer_check z).
Proof. hoare leafd. Qed.

Lemma Default_finish : preserves Default finish_cycle.
Proof. hoare leafd. Qed.

Lemma Default_encoder_button i : untouched i -> preserves Default (encoder_button i).
Proof.
  intros Hu s Hs. unfold encoder_button, exec. rewrite Hu. cbn [negb andb HIGH].
  destruct (enc_sw_b i); [| exact Hs].
  revert s Hs. leafd.
Qed.

Lemma Default_at_check i z s :
  untouched i -> Default s -> Default (at_check pid i z s).
Proof.
  intros Hu Hs.
  assert (H1 : Default (exec (interact i) (controlled pid i s))).
  { unfold interact, controlled, sensed. rewrite !exec_seq.
    rewrite <- (exec_seq (back_button i) screen_update).
    apply Default_back, Default_encoder_button; [exact Hu |].
    rewrite <- !exec_seq. apply Default_front, Hs. }
  destruct z; [exact H1 | apply Default_timer_check, H1].
Qed.

Lemma Default_loop i : untouched i -> preserves Default (loop pid i).
Proof.
  intros Hu s Hs. rewrite loop_exec.
  apply Default_finish, Default_timer_check, Default_at_check; assumption.
Qed.

Lemma untouched_cycle i s :
  untouched i -> Default s -> Inv s -> heaters_off (exec (loop pid i) s).
Proof.
  intros Hu Hd HI.
  destruct (overheat (sensed i s)) eqn:Ho.
  - destruct (overheat_cycle pid i s HI Ho) as ((_ & Hoff) & _). exact Hoff.
  - assert (Hz : forall z, heaterOn (zone z (exec (loop pid i) s)) = false /\
                           ledc z (exec (loop pid i) s) = 0).
    { intros z.
      pose proof (Default_at_check i z s Hu Hd) as (_ & _ & U1 & U2 & T1 & T2).
      assert (Hut : useTimer (zone z (at_check pid i z s)) = true)
        by (destruct z; assumption).
      assert (HT : timerSeconds (zone z (at_check pid i z s)) = 0)
        by (destruct z; assumption).
      destruct (timer_cycle pid i z s (inv_tuning _ HI) Ho Hut) as (Hc & Hl).
      assert (Hoff : heaterOn (zone z (exec (loop pid i) s)) = false).
      { apply Hc. rewrite HT. apply elapsed_range. }
      split; [exact Hoff | exact (Hl Hoff)]. }
    destruct (Hz Enc1) as (A1 & A2). destruct (Hz Enc2) as (B1 & B2).
    repeat split; assumption.
Qed.

(** X17.  A controller nobody has touched never holds a heater on from one
    iteration to the next: from boot, over any number of iterations in none
    of which a press of the encoder button is taken, both heater flags are
    cleared and both duties are 0 at the end of the last iteration,
    whatever the temperatures and the encoder position.  (The zones boot in
    timer mode with a duration of 0, so every timer check finds its timer
    run out.) *)
Theorem X17_untouched_controller_does_not_heat
    (rom : Z -> Z) (t0 : Z) (inputs : list Inputs) :
  Forall untouched inputs ->
  heaters_off (exec (run pid inputs) (setup rom t0)).
Proof.
  intros Hall.
  assert (H : forall s, Default s -> Inv s -> heaters_off s ->
                        heaters_off (exec (run pid inputs) s)).
  { induction Hall as [|i rest Hi _ IH]; intros s Hd HI Hoff; cbn [run].
    - exact Hoff.
    - rewrite exec_seq. apply IH.
      + apply Default_loop; assumption.
      + apply Inv_loop, HI.
      + apply untouched_cycle; assumption. }
  apply H.
  - repeat split.
  - split; reflexivity.
  - repeat split.
Qed.

(** X18.  A reading that is not a number is not an overheat: in a cycle
    that ingests a NaN for one enclosure while the other one is below 130
    degrees, the control block takes the heating branch, sets both heater
    flags and writes the duty the stepping function returns for the NaN
    input to the channel of the enclosure with the failed reading. *)
Theorem X18_nan_reading_is_not_an_overheat (z : zone_id) (s : State) (i : Inputs) :
  tuning s = false ->
  is_NaN (ingested i z s) = true ->
  (forall z', z' <> z -> ge130 (ingested i z' s) = false) ->
  heaterOn (enclosure1 (controlled pid i s)) = true /\
  heaterOn (enclosure2 (controlled pid i s)) = true /\
  ledc z (controlled pid i s) = pid_duty pid z (sensed i s) /\
  currentTemp (zone z (sensed i s)) = ingested i z s.
Proof.
  intros Ht Hn Hother.
  assert (Ho : overheat (sensed i s) = false).
  { rewrite sensed_overheat.
    destruct z.
    - rewrite (NaN_not_ge130 _ Hn), (Hother Enc2) by discriminate. reflexivity.
    - rewrite (NaN_not_ge130 _ Hn), (Hother Enc1) by discriminate. reflexivity. }
  destruct (normal_control pid i s Ht Ho) as (H1 & H2 & H3 & H4 & _).
  repeat split; try assumption.
  - destruct z; assumption.
  - apply sensed_currentTemp.
Qed.

End Untouched.

(** ** Menu actions *)

Section Menu.

Variable pid : list (float * Z) -> Z.

(** X19.  SHUT ALL OFF switches the outputs off, not the heater flags: a
    press taken on the main menu with that entry highlighted leaves both
    heater flags as the control block set them, and the cycle ends with a
    duty of 0 on both channels. *)
Theorem X19_shut_all_off_clears_the_duties (s : State) (i : Inputs) :
  enc_sw_a i = LOW -> encoderButtonPressed s = false ->
  screenIndex (before_button pid i s) = 100 ->
  mainMenuIndex (before_button pid i s) = 5 ->
  let sb := before_button pid i s in
  (forall z, heaterOn (zone z (exec (encoder_button i) sb)) = heaterOn (zone z sb)) /\
  ledc0 (exec (loop pid i) s) = 0 /\ ledc1 (exec (loop pid i) s) = 0.
Proof.
  intros Ha Hl Hscr Hidx sb. subst sb. rewrite loop_phases.
  assert (Hl3 : encoderButtonPressed (before_button pid i s) = false).
  { rewrite (front_keeps pid encoderButtonPressed i s) by (intros v; hoare leaf).
    exact Hl. }
  generalize dependent (before_button pid i s). intros s3 Hscr Hidx Hl3.
  rewrite (encoder_button_press i s3 Ha Hl3).
  pose (view := fun s => (screenIndex s, mainMenuIndex s,
                          heaterOn (enclosure1 s), heaterOn (enclosure2 s))).
  assert (Hv : view (exec (when beepOnPush push_beep ;;
                           modify (set_encoderButtonPressed true)) s3) = view s3).
  { apply (preserves_apply (Keeps view (view s3)));
      [unfold view; hoare leaf | reflexivity]. }
  generalize dependent (exec (when beepOnPush push_beep ;;
                              modify (set_encoderButtonPressed true)) s3).
  intros s3' Hv. unfold view in Hv.
  assert (Hs : screenIndex s3' = 100) by congruence.
  assert (Hm : mainMenuIndex s3' = 5) by congruence.
  assert (H1 : heaterOn (enclosure1 s3') = heaterOn (enclosure1 s3)) by congruence.
  assert (H2 : heaterOn (enclosure2 s3') = heaterOn (enclosure2 s3)) by congruence.
  assert (Hd : exec (button_dispatch i) s3'
               = set_ledc1 0 (set_ledc0 0 s3')).
  { unfold button_dispatch, exec. rewrite Hs. cbn [Z.eqb Pos.eqb].
    unfold main_menu_select. rewrite Hm. reflexivity. }
  rewrite Hd. clear Hd.
  assert (L0 : ledc0 (set_ledc1 0 (set_ledc0 0 s3')) = 0) by reflexivity.
  assert (L1 : ledc1 (set_ledc1 0 (set_ledc0 0 s3')) = 0) by reflexivity.
  split; [intros [|]; cbn [zone]; proj; assumption |].
  generalize dependent (set_ledc1 0 (set_ledc0 0 s3')). intros s4 L0 L1.
  rewrite <- exec_seq.
  split.
  - apply (preserves_apply (Keeps ledc0 0)); [hoare leaf | exact L0].
  - apply (preserves_apply (Keeps ledc1 0)); [hoare leaf | exact L1].
Qed.

(** X20.  On an enclosure submenu the frame marks row [position mod 4]
    while a press selects entry [position mod 6].  At positions 0 and 4
    modulo 12 the frame is the same, with the first row marked, and the
    press opens the temperature screen at the one and the humidity-limit
    screen at the other. *)
Theorem X20_submenu_frame_does_not_tell_the_entry
    (z : zone_id) (s1 s2 : State) (i : Inputs) :
  screenIndex s1 = scr_menu z -> screenIndex s2 = scr_menu z ->
  0 <= lastEncoderPos s1 -> 0 <= lastEncoderPos s2 ->
  Z.rem (lastEncoderPos s1) 12 = 0 -> Z.rem (lastEncoderPos s2) 12 = 4 ->
  events screen_update s1 = [EvDisplay (FrSubmenu (scr_menu z) 0)] /\
  events screen_update s2 = [EvDisplay (FrSubmenu (scr_menu z) 0)] /\
  screenIndex (exec (button_dispatch i) s1) = scr_temp z /\
  screenIndex (exec (button_dispatch i) s2) = scr_limit z.
Proof.
  intros Hs1 Hs2 Hp1 Hp2 Hr1 Hr2.
  assert (A1 : Z.rem (lastEncoderPos s1) 4 = 0 /\ Z.rem (lastEncoderPos s1) 6 = 0).
  { Z.quot_rem_to_equations. lia. }
  assert (A2 : Z.rem (lastEncoderPos s2) 4 = 0 /\ Z.rem (lastEncoderPos s2) 6 = 4).
  { Z.quot_rem_to_equations. lia. }
  destruct A1 as (A14 & A16). destruct A2 as (A24 & A26).
  unfold screen_update, button_dispatch, events, exec. rewrite Hs1, Hs2.
  destruct z; cbn [scr_menu scr_temp scr_limit]; run_switch;
    unfold zone_menu_select; rewrite ?A14, ?A16, ?A24, ?A26;
    repeat split.
Qed.

End Menu.

(** ** The persisted cells *)

(** X21.  The persisted cells do not overlap: storing a limit at one of the
    four [int] addresses leaves the three other limits and the four alarm
    flags as they decode, and storing an alarm flag leaves the four limits
    and the three other flags; the flag itself reads back as stored. *)
Theorem X21_persisted_cells_do_not_overlap (s : State) :
  (forall a v, In a int_cells ->
     let m := eeprom (exec (EEPROM_put_int a v) s) in
     (forall a', In a' int_cells -> a' <> a ->
        EEPROM_get_int m a' = EEPROM_get_int (eeprom s) a') /\
     (forall b, In b bool_cells ->
        EEPROM_get_bool m b = EEPROM_get_bool (eeprom s) b)) /\
  (forall b x, In b bool_cells ->
     let m := eeprom (exec (EEPROM_put_bool b x) s) in
     (forall a, In a int_cells ->
        EEPROM_get_int m a = EEPROM_get_int (eeprom s) a) /\
     (forall b', In b' bool_cells -> b' <> b ->
        EEPROM_get_bool m b' = EEPROM_get_bool (eeprom s) b') /\
     EEPROM_get_bool m b = x).
Proof.
  unfold int_cells, bool_cells. split.
  - intros a v Ha. split.
    + intros a' Ha' Hne. cbn [In] in Ha, Ha'.
      repeat (destruct Ha as [<- | Ha]; [| try contradiction]);
        repeat (destruct Ha' as [<- | Ha']; [| try contradiction]);
        try contradiction; try congruence; reflexivity.
    + intros b Hb. cbn [In] in Ha, Hb.
      repeat (destruct Ha as [<- | Ha]; [| try contradiction]);
        repeat (destruct Hb as [<- | Hb]; [| try contradiction]);
        try contradiction; reflexivity.
  - intros b x Hb. repeat split.
    + intros a Ha. cbn [In] in Ha, Hb.
      repeat (destruct Ha as [<- | Ha]; [| try contradiction]);
        repeat (destruct Hb as [<- | Hb]; [| try contradiction]);
        try contradiction; reflexivity.
    + intros b' Hb' Hne. cbn [In] in Hb, Hb'.
      repeat (destruct Hb as [<- | Hb]; [| try contradiction]);
        repeat (destruct Hb' as [<- | Hb']; [| try contradiction]);
        try contradiction; try congruence; reflexivity.
    + cbn [In] in Hb.
      repeat (destruct Hb as [<- | Hb]; [| try contradiction]);
        try contradiction; destruct x; reflexivity.
Qed.

(** ** Frames the display never receives *)

Lemma emits_skip ok : emits_only ok skip.
Proof. intros s. reflexivity. Qed.

Lemma emits_seq ok c1 c2 :
  emits_only ok c1 -> emits_only ok c2 -> emits_only ok (c1 ;; c2).
Proof.
  intros H1 H2 s. rewrite events_seq, forallb_app, H1, H2. reflexivity.
Qed.

Lemma emits_ifte ok b c1 c2 :
  emits_only ok c1 -> emits_only ok c2 -> emits_only ok (ifte b c1 c2).
Proof.
  intros H1 H2 s. unfold events, ifte. destruct (b s); [apply H1 | apply H2].
Qed.

Lemma emits_when ok b c : emits_only ok c -> emits_only ok (when b c).
Proof. intros H. apply emits_ifte; [exact H | apply emits_skip]. Qed.

Lemma emits_modify ok f : emits_only ok (modify f).
Proof. intros s. reflexivity. Qed.

Lemma emits_emit ok e : ok e = true -> emits_only ok (emit e).
Proof. intros H s. cbn. now rewrite H. Qed.

Lemma emits_repeat ok n c : emits_only ok c -> emits_only ok (repeat_cmd n c).
Proof.
  intros H. induction n as [|n IH]; cbn [repeat_cmd].
  - apply emits_skip.
  - apply emits_seq; assumption.
Qed.

Lemma emits_switch ok v cases :
  Forall (fun kc => emits_only ok (snd kc)) cases -> emits_only ok (switch v cases).
Proof.
  induction 1 as [|[k c] rest Hk _ IH]; cbn [switch].
  - apply emits_skip.
  - destruct (v =? k); [exact Hk | exact IH].
Qed.

Lemma emits_apply ok c s : emits_only ok c -> forallb ok (events c s) = true.
Proof. intros H. apply H. Qed.

(** [hush] proves [emits_only ok c] along the structure of [c]. *)
Ltac hush :=
  lazymatch goal with
  | |- emits_only _ skip => apply emits_skip
  | |- emits_only _ (seq _ _) => apply emits_seq; hush
  | |- emits_only _ (when _ _) => apply emits_when; hush
  | |- emits_only _ (ifte _ _ _) => apply emits_ifte; hush
  | |- emits_only _ (repeat_cmd _ _) => apply emits_repeat; hush
  | |- emits_only _ (modify _) => apply emits_modify
  | |- emits_only _ (emit _) => apply emits_emit; reflexivity
  | |- emits_only _ (display _) => apply emits_emit; reflexivity
  | |- emits_only _ (switch _ _) =>
      apply emits_switch; repeat (apply Forall_cons || apply Forall_nil);
      cbn [snd]; hush
  | |- emits_only _ (match ?z with Enc1 => _ | Enc2 => _ end) => destruct z; hush
  | |- emits_only ?ok (fun s => _) =>
      let s0 := fresh "s" in
      intros s0; unfold events; cbv beta zeta; repeat split_top;
      lazymatch goal with
      | |- forallb _ (snd (_, _)) = true => reflexivity
      | |- forallb _ (snd (?c s0)) = true =>
          change (forallb ok (events c s0) = true); apply emits_apply; hush
      end
  | |- emits_only _ ?c =>
      let h := get_head c in unfold h; hush
  end.

Lemma screen_update_pages s :
  screen_ok (screenIndex s) = true ->
  forallb not_dead_page (events screen_update s) = true.
Proof.
  unfold screen_ok, screen_codes. cbn [existsb]. intros H.
  repeat match type of H with
         | (screenIndex s =? ?k) || _ = true =>
             destruct (Z.eqb_spec (screenIndex s) k) as [E | _];
             [clear H; unfold screen_update, events; rewrite E; run_switch;
              proj; reflexivity
             | cbn [orb] in H]
         end.
  discriminate H.
Qed.

Section Pages.

Variable pid : list (float * Z) -> Z.

Lemma pages_front i :
  emits_only not_dead_page
    (ingest i ;; control pid ;; encoder_nav i ;; encoder_button i ;; back_button i).
Proof. hush. Qed.

Lemma pages_rest :
  emits_only not_dead_page (timer_check Enc1 ;; timer_check Enc2 ;; finish_cycle).
Proof. hush. Qed.

Lemma Inv_front i :
  preserves Inv
    (ingest i ;; control pid ;; encoder_nav i ;; encoder_button i ;; back_button i).
Proof. hoare leaf. Qed.

Lemma loop_pages i s :
  Inv s -> forallb not_dead_page (events (loop pid i) s) = true.
Proof.
  intros HI.
  assert (E : loop pid i s =
              ((ingest i ;; control pid ;; encoder_nav i ;; encoder_button i ;;
                back_button i) ;;
               screen_update ;;
               (timer_check Enc1 ;; timer_check Enc2 ;; finish_cycle)) s).
  { unfold loop, interact, seq.
    destruct (ingest i s) as [s1 e1]. destruct (control pid s1) as [s2 e2].
    destruct (encoder_nav i s2) as [s3 e3].
    destruct (encoder_button i s3) as [s4 e4].
    destruct (back_button i s4) as [s5 e5].
    destruct (screen_update s5) as [s6 e6].
    destruct (timer_check Enc1 s6) as [s7 e7].
    destruct (timer_check Enc2 s7) as [s8 e8].
    destruct (finish_cycle s8) as [s9 e9].
    f_equal. rewrite <- !app_assoc. reflexivity. }
  unfold events at 1. rewrite E.
  match goal with
  | |- forallb _ (snd ((?front ;; screen_update ;; ?rest) s)) = true =>
      change (forallb not_dead_page (events (front ;; screen_update ;; rest) s) = true);
      rewrite (events_seq front (screen_update ;; rest) s);
      rewrite (events_seq screen_update rest (exec front s))
  end.
  rewrite !forallb_app.
  rewrite (pages_front i s), pages_rest, andb_true_r. cbn [andb].
  apply screen_update_pages, inv_screen, Inv_front, HI.
Qed.

(** X22.  Two pages of the screen switch are never shown: in no iteration
    of the running firmware is the all-temperatures page or the countdown
    page of a timer sent to the display.  (The main-menu entry "All
    Sensors" stores screen code 3 where the switch expects 14, and the
    countdown screens 23 and 33 are entered only from the arming screens,
    which nothing selects.) *)
Theorem X22_dead_pages_are_never_drawn (s : State) (i : Inputs) :
  reachable pid s ->
  ~ drawn FrAllTemps (events (loop pid i) s) /\
  (forall r, ~ drawn (FrCountdown r) (events (loop pid i) s)).
Proof.
  intros Hr. pose proof (loop_pages i s (reachable_Inv pid s Hr)) as H.
  rewrite forallb_forall in H. unfold drawn.
  split; [| intros r]; intros Hin; specialize (H _ Hin); discriminate H.
Qed.

End Pages.

(** ** Beep on push and the alarm flags *)

Lemma dispatch_no_buzzer i : emits_only no_buzzer (button_dispatch i).
Proof. hush. Qed.

(** X24.  "Beep on Push" governs every beep of the button handler: with
    the flag off the handler drives the buzzer in no state and on no
    screen.  The press that toggles the flag (settings menu, fourth entry)
    negates it and beeps exactly when the flag was on before: the press
    that switches the beep off still beeps, the one that switches it on is
    silent. *)
Theorem X24_beep_on_push_governs_the_beep (s : State) (i : Inputs) :
  (beepOnPush s = false ->
   forallb no_buzzer (events (encoder_button i) s) = true) /\
  (enc_sw_a i = LOW -> encoderButtonPressed s = false ->
   screenIndex s = 99 -> settingsMenuIndex s = 3 ->
   beepOnPush (exec (encoder_button i) s) = negb (beepOnPush s) /\
   events (encoder_button i) s =
     if beepOnPush s then [EvBuzzer LOW; EvDelay 20; EvBuzzer HIGH] else []).
Proof.
  split.
  - intros Hb. unfold encoder_button, events.
    destruct (negb (enc_sw_a i) && negb (encoderButtonPressed s)).
    + match goal with
      | |- forallb _ (snd ((?c1 ;; ?c2 ;; ?c3) s)) = true =>
          change (forallb no_buzzer (events (c1 ;; c2 ;; c3) s) = true);
          rewrite (events_seq c1 (c2 ;; c3) s), (events_seq c2 c3 (exec c1 s))
      end.
      rewrite events_when, Hb. cbn [app].
      change (events (modify (set_encoderButtonPressed true)) ?x) with (@nil event).
      cbn [app]. apply dispatch_no_buzzer.
    + destruct (enc_sw_b i); reflexivity.
  - intros Ha Hl Hs Hm. unfold encoder_button, exec, events. rewrite Ha, Hl.
    cbn [negb andb LOW].
    destruct s as [? ? ? ? bp scr ? sm ? ? ? ? ? ? ? ? ? ? ? ? ? ? tn ? ? ? ? ? ? ? ? ? ?].
    cbn in Hs, Hm. subst scr sm.
    destruct bp, tn; split; reflexivity.
Qed.

(** X25.  What is persisted is what is live: a press on the entry that
    toggles a humidity alarm (sixth entry of an enclosure submenu, second
    entry of a filament submenu) negates the flag, and the EEPROM cell of
    the flag, in the buffer and as committed, then decodes to the new
    value; the screen stays. *)
Theorem X25_alarm_toggle_is_persisted (a : alarm) (s : State) (i : Inputs) :
  screenIndex s = alarm_screen a ->
  alarm_entry a (lastEncoderPos s) ->
  let s' := exec (button_dispatch i) s in
  alarm_flag a s' = negb (alarm_flag a s) /\
  EEPROM_get_bool (eeprom s') (alarm_addr a) = alarm_flag a s' /\
  EEPROM_get_bool (flash s') (alarm_addr a) = alarm_flag a s' /\
  screenIndex s' = screenIndex s.
Proof.
  intros Hs He s'. subst s'. unfold button_dispatch, exec. rewrite Hs.
  destruct a as [[|]| |]; cbn [alarm_screen scr_menu alarm_entry] in *;
    cbn [Z.eqb Pos.eqb];
    unfold zone_menu_select, filament1_select, filament2_select;
    rewrite He; run_switch;
    cbn [alarm_flag alarm_addr humidityAlarm];
    proj; unfold EEPROM_get_bool, poke; cbn [Z.eqb Pos.eqb];
    match goal with
    | |- context [negb ?b] => destruct b
    end; repeat split; assumption.
Qed.

(** ** The further theorems at concrete inputs *)

Lemma reachable_run pid inputs s :
  reachable pid s -> reachable pid (exec (run pid inputs) s).
Proof.
  revert s. induction inputs as [|i rest IH]; intros s H; cbn [run].
  - exact H.
  - rewrite exec_seq. apply IH, reach_loop, H.
Qed.

Lemma thermostat_range h : 0 <= thermostat h <= 255.
Proof.
  unfold thermostat. destruct h as [|[t sp] rest]; [lia |].
  destruct (PrimFloat.ltb t (float_of_int sp)); lia.
Qed.

Lemma X5_witness :
  let s := exec (loop thermostat (cycle 75 75 (-20) false)) boot in
  0 <= mainMenuIndex s < 7 /\ 0 <= settingsMenuIndex s < 4.
Proof.
  apply (X5_menu_indices_stay_in_range thermostat
           (exec (loop thermostat (cycle 75 75 (-20) false)) boot)).
  apply reach_loop, reach_boot.
Defined.

Lemma X6_witness :
  let s := exec (loop thermostat cool) boot in
  timerStart (zone Enc1 s) = 0 /\
  elapsed_seconds s (zone Enc1 s) = millis s / 1000 /\
  (overheat (sensed cool s) = false ->
   useTimer (zone Enc1 (at_check thermostat cool Enc1 s)) = true ->
   (heaterOn (zone Enc1 (exec (loop thermostat cool) s)) = false <->
    timerSeconds (zone Enc1 (at_check thermostat cool Enc1 s))
      <= millis (at_check thermostat cool Enc1 s) / 1000)).
Proof.
  apply (X6_timers_count_from_power_on thermostat
           (exec (loop thermostat cool) boot) cool Enc1).
  apply reach_loop, reach_boot.
Defined.

Lemma X7_witness :
  let s := exec (run thermostat (to_temp_screen ++ [turn_released])) boot in
  70 <= setpoint (zone Enc1 s) <= 120 /\
  (timerSeconds (zone Enc1 s) = 0 \/
   (1200 <= timerSeconds (zone Enc1 s) <= 172800 /\
    timerSeconds (zone Enc1 s) mod 600 = 0)).
Proof.
  apply (X7_settings_stay_in_range thermostat
           (exec (run thermostat (to_temp_screen ++ [turn_released])) boot) Enc1).
  apply reachable_run, reach_boot.
Defined.

Lemma X8_witness : buzzer_pin (exec (loop thermostat hot) boot) = HIGH.
Proof.
  apply (X8_buzzer_rests_between_iterations thermostat
           (exec (loop thermostat hot) boot)).
  apply reach_loop, reach_boot.
Defined.

Lemma X9_witness : ledc Enc1 (exec (loop thermostat cool) boot) = 0.
Proof.
  apply (X9_cleared_flag_means_no_power thermostat
           (exec (loop thermostat cool) boot) Enc1).
  - apply reach_loop, reach_boot.
  - vm_compute. reflexivity.
Defined.

Lemma X10_witness :
  clock boot + tick hot + 500 <= clock (exec (loop thermostat hot) boot) /\
  (tuning boot = false -> overheat (sensed hot boot) = true ->
   clock boot + tick hot + 7900 <= clock (exec (loop thermostat hot) boot)).
Proof.
  apply (X10_iteration_takes_half_a_second thermostat boot hot).
  vm_compute. discriminate.
Defined.

Lemma X11_witness : 0 <= ledc Enc2 (exec (loop thermostat cool) boot) <= 255.
Proof.
  apply (X11_duty_stays_eight_bit thermostat thermostat_range
           (exec (loop thermostat cool) boot) Enc2).
  apply reach_loop, reach_boot.
Defined.

Lemma X12_witness :
  let s := exec (run thermostat to_temp_screen) boot in
  screenIndex (exec (loop thermostat back_press) s) = 100 /\
  backButtonPressed (exec (loop thermostat back_press) s) = true.
Proof.
  apply (X12_back_press_returns_to_main_menu thermostat
           (exec (run thermostat to_temp_screen) boot) back_press).
  - reflexivity.
  - vm_compute. reflexivity.
Defined.

Lemma X13_witness :
  let press := cycle 75 75 0 true in
  let sb := before_button thermostat press
              (exec (run thermostat (press :: [press; press])) boot) in
  encoder_button press sb = (sb, []).
Proof.
  apply (X13_held_button_acts_once thermostat boot (cycle 75 75 0 true)
           [cycle 75 75 0 true; cycle 75 75 0 true] (cycle 75 75 0 true)).
  - reflexivity.
  - reflexivity.
  - repeat constructor.
  - reflexivity.
Defined.

Lemma X14_witness : button_dispatch cool below_zero = (below_zero, []).
Proof.
  apply (X14_negative_position_selects_nothing below_zero cool).
  - vm_compute. reflexivity.
  - left. split.
    + left. vm_compute. reflexivity.
    + vm_compute. discriminate.
Defined.

Lemma X15_witness :
  let i := cycle 75 75 8 true in
  let s' := exec (loop thermostat i) on_set_timer in
  screenIndex s' = scr_timer Enc1 /\
  useTimer (zone Enc1 s') = negb (useTimer (zone Enc1 on_set_timer)) /\
  timerSeconds (zone Enc1 s') = timerSeconds (zone Enc1 on_set_timer).
Proof.
  apply (X15_set_timer_entry_flips_mode thermostat Enc1 on_set_timer
           (cycle 75 75 8 true)).
  - vm_compute. reflexivity.
  - reflexivity.
  - vm_compute. reflexivity.
  - reflexivity.
  - reflexivity.
Defined.

Lemma X16_witness :
  events (timer_check Enc1) (heating 1300000) = [EvLedc (heater_ch Enc1) 0].
Proof.
  apply (X16_elapsed_timer_sounds_no_alert Enc1 (heating 1300000)).
  - reflexivity.
  - reflexivity.
  - vm_compute. split; [discriminate | reflexivity].
  - vm_compute. discriminate.
Defined.

Lemma X17_witness :
  heaters_off (exec (run thermostat [cool; hot; cool]) (setup rom0 1000)).
Proof.
  apply (X17_untouched_controller_does_not_heat thermostat rom0 1000
           [cool; hot; cool]).
  repeat constructor.
Defined.

Lemma X18_witness :
  heaterOn (enclosure1 (controlled thermostat nan_reading boot)) = true /\
  heaterOn (enclosure2 (controlled thermostat nan_reading boot)) = true /\
  ledc Enc1 (controlled thermostat nan_reading boot)
  = pid_duty thermostat Enc1 (sensed nan_reading boot) /\
  currentTemp (zone Enc1 (sensed nan_reading boot)) = ingested nan_reading Enc1 boot.
Proof.
  apply (X18_nan_reading_is_not_an_overheat thermostat Enc1 boot nan_reading).
  - reflexivity.
  - vm_compute. reflexivity.
  - intros [|] H; [congruence | vm_compute; reflexivity].
Defined.

Lemma X19_witness :
  let i := cycle 75 75 20 true in
  let sb := before_button thermostat i boot in
  (forall z, heaterOn (zone z (exec (encoder_button i) sb)) = heaterOn (zone z sb)) /\
  ledc0 (exec (loop thermostat i) boot) = 0 /\
  ledc1 (exec (loop thermostat i) boot) = 0.
Proof.
  apply (X19_shut_all_off_clears_the_duties thermostat boot (cycle 75 75 20 true)).
  - reflexivity.
  - reflexivity.
  - vm_compute. reflexivity.
  - vm_compute. reflexivity.
Defined.

Lemma X20_witness :
  let s1 := set_screenIndex 10 boot in
  let s2 := set_screenIndex 10 (set_lastEncoderPos 4 boot) in
  events screen_update s1 = [EvDisplay (FrSubmenu (scr_menu Enc1) 0)] /\
  events screen_update s2 = [EvDisplay (FrSubmenu (scr_menu Enc1) 0)] /\
  screenIndex (exec (button_dispatch cool) s1) = scr_temp Enc1 /\
  screenIndex (exec (button_dispatch cool) s2) = scr_limit Enc1.
Proof.
  apply (X20_submenu_frame_does_not_tell_the_entry Enc1
           (set_screenIndex 10 boot)
           (set_screenIndex 10 (set_lastEncoderPos 4 boot)) cool).
  - reflexivity.
  - reflexivity.
  - vm_compute. discriminate.
  - vm_compute. discriminate.
  - reflexivity.
  - reflexivity.
Defined.

Lemma X21_witness :
  EEPROM_get_int (eeprom (exec (EEPROM_put_int 4 77) boot)) 8
  = EEPROM_get_int (eeprom boot) 8.
Proof.
  apply (proj1 (proj1 (X21_persisted_cells_do_not_overlap boot) 4 77
                  (or_intror (or_introl eq_refl)))).
  - right. right. left. reflexivity.
  - discriminate.
Defined.

Lemma X22_witness :
  ~ drawn FrAllTemps (events (loop thermostat cool) on_all_sensors) /\
  (forall r, ~ drawn (FrCountdown r) (events (loop thermostat cool) on_all_sensors)).
Proof.
  apply (X22_dead_pages_are_never_drawn thermostat on_all_sensors cool).
  apply reachable_run, reach_boot.
Defined.

Lemma X23_witness :
  let e := ESP32Encoder.mk 0 5 in
  let pins := [pins_of 1; pins_of 3] in
  let e' := ESP32Encoder.ticks pins (ESP32Encoder.write 100 e) in
  ESP32Encoder.oldState e' = ESP32Encoder.oldState (ESP32Encoder.ticks pins e) /\
  ESP32Encoder.position e'
  = sint32 (ESP32Encoder.position (ESP32Encoder.ticks pins e)
            + (100 - ESP32Encoder.position e)).
Proof.
  apply (X23_write_shifts_the_origin [pins_of 1; pins_of 3] (ESP32Encoder.mk 0 5) 100).
  unfold in_long. cbn. lia.
Defined.

Lemma X24_witness :
  let i := cycle 75 75 0 true in
  beepOnPush (exec (encoder_button i) on_beep_entry) = negb (beepOnPush on_beep_entry) /\
  events (encoder_button i) on_beep_entry =
    if beepOnPush on_beep_entry then [EvBuzzer LOW; EvDelay 20; EvBuzzer HIGH] else [].
Proof.
  apply (proj2 (X24_beep_on_push_governs_the_beep on_beep_entry (cycle 75 75 0 true)));
    reflexivity.
Defined.

Lemma X25_witness :
  let s' := exec (button_dispatch cool) on_alarm_entry in
  alarm_flag (AlarmZone Enc2) s' = negb (alarm_flag (AlarmZone Enc2) on_alarm_entry) /\
  EEPROM_get_bool (eeprom s') (alarm_addr (AlarmZone Enc2))
  = alarm_flag (AlarmZone Enc2) s' /\
  EEPROM_get_bool (flash s') (alarm_addr (AlarmZone Enc2))
  = alarm_flag (AlarmZone Enc2) s' /\
  screenIndex s' = screenIndex on_alarm_entry.
Proof.
  apply (X25_alarm_toggle_is_persisted (AlarmZone Enc2) on_alarm_entry cool);
    reflexivity.
Defined.

(** ** The high-humidity interstitial within a cycle *)

Lemma no_interstitial_In (evs : list event) (nm : string) :
  forallb no_interstitial evs = true -> ~ In (EvDisplay (FrHighHumidity nm)) evs.
Proof.
  intros H Hin. rewrite forallb_forall in H. specialize (H _ Hin).
  discriminate H.
Qed.

Lemma boot_name_inj z z' : boot_name z = boot_name z' -> z = z'.
Proof. destruct z, z'; intros H; (reflexivity || discriminate H). Qed.

(** The alert test of the zone view, for an enclosure under its boot
    name. *)
Lemma high_humidity_boot_name z h s :
  high_humidity (boot_name z) h s
  = gt_int h (humidityLimit z s) && humidityAlarm z s.
Proof.
  unfold high_humidity. destruct z; cbn [boot_name humidityLimit humidityAlarm].
  - change (0 <=? indexOf "1" "3D Enclosure 1") with true.
    change (0 <=? indexOf "2" "3D Enclosure 1") with false.
    cbn [andb orb]. apply orb_false_r.
  - change (0 <=? indexOf "1" "3D Enclosure 2") with false.
    change (0 <=? indexOf "2" "3D Enclosure 2") with true.
    reflexivity.
Qed.

Lemma displayZone_events i zn s :
  events (displayZone i zn) s =
  (if high_humidity (name zn) (zone_humidity i zn) s
   then [EvDisplay (FrHighHumidity (name zn)); EvDelay 500;
         EvDisplay FrBlank; EvDelay 300]
   else []) ++ [EvDisplay (FrZone (name zn) (heaterOn zn))].
Proof.
  unfold displayZone. rewrite events_seq, events_when.
  destruct (high_humidity (name zn) (zone_humidity i zn) s); reflexivity.
Qed.

Lemma displayZone_shows i zn s nm :
  In (EvDisplay (FrHighHumidity nm)) (events (displayZone i zn) s) <->
  nm = name zn /\ high_humidity (name zn) (zone_humidity i zn) s = true.
Proof.
  rewrite displayZone_events.
  destruct (high_humidity (name zn) (zone_humidity i zn) s); cbn [app In]; split.
  - intros [H | [H | [H | [H | [H | []]]]]]; try discriminate H.
    injection H as H. split; [symmetry; exact H | reflexivity].
  - intros [-> _]. left. reflexivity.
  - intros [H | []]. discriminate H.
  - intros [_ H]. discriminate H.
Qed.

(** The entries of an enclosure submenu: only "View Temp" draws the zone
    view. *)
Lemma zone_menu_shows i z s nm :
  In (EvDisplay (FrHighHumidity nm)) (events (zone_menu_select i z) s) <->
  Z.rem (lastEncoderPos s) 6 = 3 /\ nm = name (zone z s) /\
  high_humidity (name (zone z s)) (zone_humidity i (zone z s)) s = true.
Proof.
  unfold zone_menu_select, events.
  destruct (Z.eq_dec (Z.rem (lastEncoderPos s) 6) 3) as [E | NE].
  - rewrite E. run_switch.
    match goal with
    | |- In _ (snd ((?c1 ;; ?c2 ;; ?c3) s)) <-> _ =>
        change (snd ((c1 ;; c2 ;; c3) s)) with (events (c1 ;; c2 ;; c3) s);
        rewrite (events_seq c1 (c2 ;; c3) s), (events_seq c2 c3 (exec c1 s))
    end.
    change (events (modify (set_screenIndex (scr_menu z))) s) with (@nil event).
    change (exec (modify (set_screenIndex (scr_menu z))) s)
      with (set_screenIndex (scr_menu z) s).
    change (events (fun s0 : State => displayZone i (zone z s0) s0)
              (set_screenIndex (scr_menu z) s))
      with (events (displayZone i (zone z (set_screenIndex (scr_menu z) s)))
              (set_screenIndex (scr_menu z) s)).
    cbn [app]. rewrite in_app_iff, displayZone_shows.
    assert (Hz : zone z (set_screenIndex (scr_menu z) s) = zone z s)
      by (destruct z; reflexivity).
    rewrite Hz.
    assert (Hh : forall n h,
               high_humidity n h (set_screenIndex (scr_menu z) s)
               = high_humidity n h s) by reflexivity.
    rewrite Hh. split.
    + intros [H | H]; [tauto |].
      exfalso. cbn in H. destruct H as [H | []]. discriminate H.
    + intros (_ & H1 & H2). left. split; assumption.
  - split; [| intros (E & _); contradiction].
    intros Hin. exfalso.
    assert (Hq : forallb no_interstitial
                   (snd (switch (Z.rem (lastEncoderPos s) 6)
                      [(0, modify (set_screenIndex (scr_temp z)));
                       (1, modify (upd_zone z (fun zn => set_useTimer (negb (useTimer zn)) zn)));
                       (2, modify (set_screenIndex (scr_mode z)));
                       (4, modify (set_screenIndex (scr_limit z)));
                       (5, toggle_zone_alarm z)] s)) = true).
    { match goal with
      | |- forallb _ (snd (switch ?v ?cases s)) = true =>
          change (forallb no_interstitial (events (switch v cases) s) = true)
      end.
      apply emits_apply. hush. }
    revert Hin. cbn [switch].
    destruct (Z.rem (lastEncoderPos s) 6 =? 0) eqn:E0;
      [intros Hin; revert Hin; cbn [switch] in Hq; rewrite E0 in Hq;
       apply no_interstitial_In; exact Hq |].
    destruct (Z.rem (lastEncoderPos s) 6 =? 1) eqn:E1;
      [intros Hin; revert Hin; cbn [switch] in Hq; rewrite E0, E1 in Hq;
       apply no_interstitial_In; exact Hq |].
    destruct (Z.rem (lastEncoderPos s) 6 =? 2) eqn:E2;
      [intros Hin; revert Hin; cbn [switch] in Hq; rewrite E0, E1, E2 in Hq;
       apply no_interstitial_In; exact Hq |].
    rewrite (proj2 (Z.eqb_neq _ _) NE).
    cbn [switch] in Hq. rewrite E0, E1, E2 in Hq.
    apply no_interstitial_In. exact Hq.
Qed.

Lemma exec_seq_events (c1 c2 c3 : Cmd) (s : State) :
  events (c1 ;; c2) s ++ events c3 (exec (c1 ;; c2) s)
  = events (c1 ;; c2 ;; c3) s.
Proof.
  rewrite !events_seq, !exec_seq, app_assoc. reflexivity.
Qed.

Lemma zone_humidity_name i zn zn' :
  name zn = name zn' -> zone_humidity i zn = zone_humidity i zn'.
Proof. intros H. unfold zone_humidity. now rewrite H. Qed.

Lemma main_menu_no_interstitial : emits_only no_interstitial main_menu_select.
Proof. hush. Qed.

Lemma filament1_no_interstitial : emits_only no_interstitial filament1_select.
Proof. hush. Qed.

Lemma filament2_no_interstitial : emits_only no_interstitial filament2_select.
Proof. hush. Qed.

Lemma settings_no_interstitial : emits_only no_interstitial settings_select.
Proof. hush. Qed.

(** The menu dispatch shows an interstitial only through "View Temp" of an
    enclosure submenu, and then under the name of that enclosure. *)
Lemma dispatch_shows i s nm :
  (forall z, name (zone z s) = boot_name z) ->
  In (EvDisplay (FrHighHumidity nm)) (events (button_dispatch i) s) <->
  exists z,
    screenIndex s = scr_menu z /\ Z.rem (lastEncoderPos s) 6 = 3 /\
    nm = boot_name z /\
    gt_int (zone_humidity i (zone z s)) (humidityLimit z s) = true /\
    humidityAlarm z s = true.
Proof.
  intros Hn.
  assert (Hzone : forall z,
             screenIndex s = scr_menu z ->
             (In (EvDisplay (FrHighHumidity nm)) (events (zone_menu_select i z) s) <->
              exists z',
                screenIndex s = scr_menu z' /\ Z.rem (lastEncoderPos s) 6 = 3 /\
                nm = boot_name z' /\
                gt_int (zone_humidity i (zone z' s)) (humidityLimit z' s) = true /\
                humidityAlarm z' s = true)).
  { intros z Hs. rewrite zone_menu_shows, (Hn z), high_humidity_boot_name.
    rewrite andb_true_iff. split.
    - intros (H1 & H2 & H3 & H4). exists z. repeat split; assumption.
    - intros (z' & H0 & H1 & H2 & H3 & H4).
      assert (z' = z).
      { rewrite Hs in H0. destruct z, z'; (reflexivity || discriminate H0). }
      subst z'. repeat split; assumption. }
  assert (Hnone : forall c : Cmd,
             emits_only no_interstitial c ->
             screenIndex s <> 10 -> screenIndex s <> 11 ->
             (In (EvDisplay (FrHighHumidity nm)) (events c s) <->
              exists z,
                screenIndex s = scr_menu z /\ Z.rem (lastEncoderPos s) 6 = 3 /\
                nm = boot_name z /\
                gt_int (zone_humidity i (zone z s)) (humidityLimit z s) = true /\
                humidityAlarm z s = true)).
  { intros c Hc N10 N11. split.
    - intros Hin. exfalso. exact (no_interstitial_In _ nm (Hc s) Hin).
    - intros ([|] & H0 & _); cbn [scr_menu] in H0; contradiction. }
  unfold button_dispatch, events.
  destruct (Z.eqb_spec (screenIndex s) 100) as [E | N100];
    [apply (Hnone main_menu_select main_menu_no_interstitial); lia |].
  destruct (Z.eqb_spec (screenIndex s) 12) as [E | N12];
    [apply (Hnone filament1_select filament1_no_interstitial); lia |].
  destruct (Z.eqb_spec (screenIndex s) 13) as [E | N13];
    [apply (Hnone filament2_select filament2_no_interstitial); lia |].
  destruct (Z.eqb_spec (screenIndex s) 10) as [E | N10];
    [apply (Hzone Enc1 E) |].
  destruct (Z.eqb_spec (screenIndex s) 11) as [E | N11];
    [apply (Hzone Enc2 E) |].
  destruct (Z.eqb_spec (screenIndex s) 99) as [E | N99];
    [apply (Hnone settings_select settings_no_interstitial); lia |].
  apply (Hnone skip (emits_skip no_interstitial)); assumption.
Qed.

Lemma beep_no_interstitial :
  emits_only no_interstitial
    (when beepOnPush push_beep ;; modify (set_encoderButtonPressed true)).
Proof. hush. Qed.

(** The button handler shows an interstitial only when it takes a press. *)
Lemma encoder_button_shows i s nm :
  (forall z, name (zone z s) = boot_name z) ->
  In (EvDisplay (FrHighHumidity nm)) (events (encoder_button i) s) <->
  enc_sw_a i = LOW /\ encoderButtonPressed s = false /\
  exists z,
    screenIndex s = scr_menu z /\ Z.rem (lastEncoderPos s) 6 = 3 /\
    nm = boot_name z /\
    gt_int (zone_humidity i (zone z s)) (humidityLimit z s) = true /\
    humidityAlarm z s = true.
Proof.
  intros Hn. unfold encoder_button, events.
  destruct (enc_sw_a i) eqn:Ha; [| destruct (encoderButtonPressed s) eqn:Hl];
    cbn [negb andb].
  - destruct (enc_sw_b i); cbn; split; try contradiction;
      intros (H & _); discriminate H.
  - destruct (enc_sw_b i); cbn; split; try contradiction;
      intros (_ & H & _); discriminate H.
  - match goal with
    | |- In _ (snd ((?c1 ;; ?c2 ;; ?c3) s)) <-> _ =>
        change (snd ((c1 ;; c2 ;; c3) s)) with (events (c1 ;; c2 ;; c3) s);
        rewrite <- (exec_seq_events c1 c2 c3 s)
    end.
    pose proof (beep_no_interstitial s) as Hb.
    assert (Hv : humidity_view
                   (exec (when beepOnPush push_beep ;;
                          modify (set_encoderButtonPressed true)) s)
                 = humidity_view s).
    { apply (preserves_apply (Keeps humidity_view (humidity_view s)));
        [unfold humidity_view; hoare leaf | reflexivity]. }
    assert (Hp : lastEncoderPos
                   (exec (when beepOnPush push_beep ;;
                          modify (set_encoderButtonPressed true)) s)
                 = lastEncoderPos s).
    { apply (preserves_apply (Keeps lastEncoderPos (lastEncoderPos s)));
        [hoare leaf | reflexivity]. }
    generalize dependent (exec (when beepOnPush push_beep ;;
                                modify (set_encoderButtonPressed true)) s).
    generalize dependent (events (when beepOnPush push_beep ;;
                                  modify (set_encoderButtonPressed true)) s).
    intros evs Hb s' Hv Hp. unfold humidity_view in Hv.
    injection Hv as V1 V2 V3 V4 V5 V6 V7.
    assert (Hn' : forall z, name (zone z s') = boot_name z).
    { intros z. rewrite <- (Hn z). destruct z; assumption. }
    rewrite in_app_iff, (dispatch_shows i s' nm Hn').
    split.
    + intros [Hin | (z & H0 & H1 & H2 & H3 & H4)].
      * exfalso. exact (no_interstitial_In _ nm Hb Hin).
      * split; [reflexivity | split; [reflexivity |]].
        exists z. rewrite <- V1, <- Hp.
        rewrite (zone_humidity_name i (zone z s) (zone z s'))
          by (now rewrite Hn, Hn').
        destruct z; cbn [humidityLimit humidityAlarm] in *;
          repeat split; congruence.
    + intros (_ & _ & z & H0 & H1 & H2 & H3 & H4). right.
      exists z. rewrite V1, Hp.
      rewrite (zone_humidity_name i (zone z s') (zone z s))
        by (now rewrite Hn, Hn').
      destruct z; cbn [humidityLimit humidityAlarm] in *;
        repeat split; congruence.
Qed.

Section Interstitial.

Variable pid : list (float * Z) -> Z.

Lemma front_no_interstitial i :
  emits_only no_interstitial (ingest i ;; control pid ;; encoder_nav i).
Proof. hush. Qed.

Lemma tail_no_interstitial i :
  emits_only no_interstitial
    (back_button i ;; screen_update ;; timer_check Enc1 ;; timer_check Enc2 ;;
     finish_cycle).
Proof. hush. Qed.

Lemma Inv_before_button i s : Inv s -> Inv (before_button pid i s).
Proof.
  intros H. unfold before_button, controlled, sensed. rewrite <- !exec_seq.
  revert s H. change (preserves Inv (ingest i ;; control pid ;; encoder_nav i)).
  hoare leaf.
Qed.

(** In a cycle, only the button handler can show the interstitial. *)
Lemma loop_shows i s nm :
  In (EvDisplay (FrHighHumidity nm)) (events (loop pid i) s) <->
  In (EvDisplay (FrHighHumidity nm))
    (events (encoder_button i) (before_button pid i s)).
Proof.
  assert (E : loop pid i s =
              ((ingest i ;; control pid ;; encoder_nav i) ;;
               encoder_button i ;;
               (back_button i ;; screen_update ;; timer_check Enc1 ;;
                timer_check Enc2 ;; finish_cycle)) s).
  { unfold loop, interact, seq.
    destruct (ingest i s) as [s1 e1]. destruct (control pid s1) as [s2 e2].
    destruct (encoder_nav i s2) as [s3 e3].
    destruct (encoder_button i s3) as [s4 e4].
    destruct (back_button i s4) as [s5 e5].
    destruct (screen_update s5) as [s6 e6].
    destruct (timer_check Enc1 s6) as [s7 e7].
    destruct (timer_check Enc2 s7) as [s8 e8].
    destruct (finish_cycle s8) as [s9 e9].
    f_equal. rewrite <- !app_assoc. reflexivity. }
  unfold events at 1. rewrite E.
  match goal with
  | |- In _ (snd ((?front ;; encoder_button i ;; ?rest) s)) <-> _ =>
      change (snd ((front ;; encoder_button i ;; rest) s))
        with (events (front ;; encoder_button i ;; rest) s);
      rewrite (events_seq front (encoder_button i ;; rest) s);
      rewrite (events_seq (encoder_button i) rest (exec front s));
      pose proof (front_no_interstitial i s) as Hf;
      pose proof (tail_no_interstitial i (exec (encoder_button i) (exec front s)))
        as Ht;
      replace (exec front s) with (before_button pid i s) in *
        by (unfold before_button, controlled, sensed; now rewrite !exec_seq)
  end.
  rewrite !in_app_iff. split.
  - intros [H | [H | H]]; [| exact H |].
    + exfalso. exact (no_interstitial_In _ nm Hf H).
    + exfalso. exact (no_interstitial_In _ nm Ht H).
  - intros H. right. left. exact H.
Qed.

(** **** C9 *)

(** C9 (amended).  The high-humidity interstitial exists for the two
    enclosures only, and only inside the zone view.  A cycle of the running
    firmware shows it for an enclosure if and only if the cycle takes a
    press on the "View Temp" entry of that enclosure's submenu while the
    humidity read for the enclosure exceeds its limit and its alarm flag is
    set; a cycle without that press shows none, whatever the humidity.  No
    cycle shows an interstitial under any other name: the limits and alarm
    flags of the filament boxes are stored and never tested.  The zone
    view writes nothing to the buzzer pin. *)
Theorem C9_interstitial_only_in_zone_view (z : zone_id) (i : Inputs) (s : State) :
  reachable pid s ->
  let evs := events (loop pid i) s in
  (interstitial_shown (boot_name z) evs <->
   view_press z i s = true /\
   gt_int (zone_humidity i (zone z s)) (humidityLimit z s) = true /\
   humidityAlarm z s = true) /\
  (forall nm, interstitial_shown nm evs ->
     nm = boot_name Enc1 \/ nm = boot_name Enc2) /\
  (forall level, ~ In (EvBuzzer level) (events (displayZone i (zone z s)) s)).
Proof.
  intros Hr evs. subst evs. unfold interstitial_shown.
  pose proof (reachable_Inv pid s Hr) as HI.
  pose proof (Inv_before_button i s HI) as HIb.
  assert (Hn : forall z', name (zone z' s) = boot_name z').
  { intros [|]; [exact (inv_name1 _ HI) | exact (inv_name2 _ HI)]. }
  assert (Hnb : forall z', name (zone z' (before_button pid i s)) = boot_name z').
  { intros [|]; [exact (inv_name1 _ HIb) | exact (inv_name2 _ HIb)]. }
  assert (Hv : humidity_view (before_button pid i s) = humidity_view s).
  { apply front_keeps. intros v. unfold humidity_view. hoare leaf. }
  assert (Hl : encoderButtonPressed (before_button pid i s) = encoderButtonPressed s).
  { apply front_keeps. intros v. hoare leaf. }
  assert (Hp : lastEncoderPos (before_button pid i s) = Z.quot (enc_raw i) 4)
    by apply encoder_nav_pos.
  unfold humidity_view in Hv. injection Hv as V1 V2 V3 V4 V5 V6 V7.
  assert (Hsame : forall z',
             (screenIndex (before_button pid i s) = scr_menu z' /\
              Z.rem (lastEncoderPos (before_button pid i s)) 6 = 3 /\
              gt_int (zone_humidity i (zone z' (before_button pid i s)))
                (humidityLimit z' (before_button pid i s)) = true /\
              humidityAlarm z' (before_button pid i s) = true) <->
             (screenIndex s = scr_menu z' /\
              Z.rem (Z.quot (enc_raw i) 4) 6 = 3 /\
              gt_int (zone_humidity i (zone z' s)) (humidityLimit z' s) = true /\
              humidityAlarm z' s = true)).
  { intros z'. rewrite V1, Hp.
    rewrite (zone_humidity_name i (zone z' (before_button pid i s)) (zone z' s))
      by (now rewrite Hn, Hnb).
    destruct z'; cbn [humidityLimit humidityAlarm]; rewrite ?V4, ?V5, ?V6, ?V7;
      reflexivity. }
  split; [| split].
  - rewrite loop_shows, (encoder_button_shows i _ _ Hnb), Hl.
    unfold view_press. rewrite !andb_true_iff, !negb_true_iff, !Z.eqb_eq.
    split.
    + intros (Ha & Hlatch & z' & H0 & H1 & H2 & H3 & H4).
      apply boot_name_inj in H2. subst z'.
      destruct (proj1 (Hsame z) (conj H0 (conj H1 (conj H3 H4))))
        as (S0 & S1 & S3 & S4).
      repeat split; assumption.
    + intros ((((Ha & Hlatch) & S0) & S1) & S3 & S4).
      split; [exact Ha | split; [exact Hlatch |]].
      exists z.
      destruct (proj2 (Hsame z) (conj S0 (conj S1 (conj S3 S4))))
        as (H0 & H1 & H3 & H4).
      repeat split; assumption.
  - intros nm Hin.
    apply loop_shows, (encoder_button_shows i _ _ Hnb) in Hin.
    destruct Hin as (_ & _ & [|] & _ & _ & H2 & _); [left | right]; exact H2.
  - intros level Hin. rewrite displayZone_events in Hin.
    destruct (high_humidity _ _ s); cbn [app In] in Hin;
      repeat (destruct Hin as [Hin | Hin]; [discriminate Hin |]);
      exact Hin.
Qed.

End Interstitial.

(** The scenario of the spec on enclosure 1, reached from boot through the
    menus: alarm on, limit 65, a reading of 70 percent; the cycle that takes
    the press on "View Temp" shows the interstitial. *)
Lemma C9_witness :
  interstitial_shown (boot_name Enc1)
    (events (loop thermostat (humid_cycle 70 12 true)) on_view_entry).
Proof.
  apply (proj2 (proj1 (C9_interstitial_only_in_zone_view thermostat Enc1
                         (humid_cycle 70 12 true) on_view_entry
                         (reachable_run thermostat to_view_entry boot
                            (reach_boot thermostat rom0 1000))))).
  repeat split; vm_compute; reflexivity.
Defined.

(** C9 as stated fails, on two runs that read 70 percent in every cycle.
    First run: enclosure 1 has its alarm on and its limit at 65, and a cycle
    that takes no press shows no interstitial.  Second run: through the
    menu of filament box 1 its alarm is switched on, with its limit at 65,
    and neither these cycles nor the ones that go on to its limit screen
    show an interstitial. *)
Lemma C9_counterexample :
  (humidityAlarm1 on_view_entry = true /\
   humidityLimit1 on_view_entry = 65 /\
   gt_int (zone_humidity (humid_cycle 70 12 false) (enclosure1 on_view_entry))
     (humidityLimit1 on_view_entry) = true /\
   shows_interstitial
     (events (loop thermostat (humid_cycle 70 12 false)) on_view_entry) = false) /\
  (humidityAlarmF1 (after filament_walk boot) = true /\
   humidityLimitF1 (after filament_walk boot) = 65 /\
   screenIndex (after filament_walk boot) = 12 /\
   shows_interstitial (events (run thermostat filament_walk) boot) = false /\
   screenIndex (after (filament_walk ++ filament_limit_walk) boot) = 26 /\
   humidityAlarmF1 (after (filament_walk ++ filament_limit_walk) boot) = true /\
   shows_interstitial
     (events (run thermostat (filament_walk ++ filament_limit_walk)) boot) = false).
Proof. vm_compute. repeat split. Qed.
